(** * DeepChat in-process MCP servers

    A shallow embedding of the in-process tool server of DeepChat
    ([DirectServer], [DirectTransport]) and of the batch tools of its
    [ImageServer], with the properties of the protocol layer stated and
    proved (or refuted) against the embedded code.

    Conventions.
    - JavaScript values are restricted to JSON-like data ([Js.Value]);
      numbers are integers ([Z]).  No property below depends on
      floating-point arithmetic.
    - A JavaScript [Map] is an association list in insertion order with
      unique keys, because the order of [keys()] is observable.
    - An [async] function is a state transformer that either returns or
      throws; promises that never settle are outside the model.
    - [console.log] / [console.error] are not modelled beyond the
      evaluation of their arguments, which can throw: the output
      influences neither the returned message nor any object state. *)

From Stdlib Require Import String List ZArith Ascii Bool Lia DecimalString.
Import ListNotations.
Set Warnings "-register-all".
Open Scope string_scope.

(* ================================================================== *)
(** * JavaScript values and built-ins                                  *)
(* ================================================================== *)

Module Js.

Inductive Value : Type :=
| VUndefined
| VNull
| VBool (b : bool)
| VNum (n : Z)
| VStr (s : string)
| VArr (items : list Value)
| VObj (props : list (string * Value)).

(** ToBoolean, as used by [||], [!] and [if]. *)
Definition truthy (v : Value) : bool :=
  match v with
  | VUndefined | VNull => false
  | VBool b => b
  | VNum n => negb (n =? 0)%Z
  | VStr s => negb (s =? EmptyString)
  | VArr _ | VObj _ => true
  end.

(** [a || b] *)
Definition or_else (a b : Value) : Value := if truthy a then a else b.

Definition isArray (v : Value) : bool :=
  match v with VArr _ => true | _ => false end.

Fixpoint assoc {A : Type} (k : string) (l : list (string * A)) : option A :=
  match l with
  | [] => None
  | (k', a) :: rest => if k' =? k then Some a else assoc k rest
  end.

(** Property read [v.k] for the data properties the sources read
    ([name], [arguments], [numbers], [paths]); none of them exists on
    a primitive or on an array, where the read yields [undefined]. *)
Definition get (v : Value) (k : string) : Value :=
  match v with
  | VObj props => match assoc k props with Some x => x | None => VUndefined end
  | _ => VUndefined
  end.

Definition string_of_Z (n : Z) : string := NilZero.string_of_int (Z.to_int n).

(** ToString, as used by template literals and [String(x)], on the
    [plain] values below: a number is printed by its decimal digits and
    an object by the inherited [Object.prototype.toString]. *)
Fixpoint toString (v : Value) : string :=
  match v with
  | VUndefined => "undefined"
  | VNull => "null"
  | VBool true => "true"
  | VBool false => "false"
  | VNum n => string_of_Z n
  | VStr s => s
  | VArr items =>
      String.concat ","
        (map (fun x => match x with
                       | VUndefined | VNull => EmptyString
                       | _ => toString x
                       end) items)
  | VObj _ => "[object Object]"
  end.

(** The values on which [toString] above is the text JavaScript
    produces.  Every number is a safe integer: a double holds it
    exactly and [Number::toString] prints all its digits, whereas from
    10^21 on it switches to exponent form.  No object has an own
    [toString] property, which would be used in place of the inherited
    method (and, not being callable, make the conversion throw). *)
Fixpoint plain (v : Value) : bool :=
  match v with
  | VNum n => ((- (2 ^ 53 - 1) <=? n) && (n <=? 2 ^ 53 - 1))%Z
  | VArr items => forallb plain items
  | VObj props => negb (existsb (fun kv => fst kv =? "toString") props)
  | _ => true
  end.

(** ** [JSON.stringify] *)

Definition chr (n : nat) : string := String (ascii_of_nat n) EmptyString.
Definition dquote : string := chr 34.
Definition backslash : string := chr 92.
Definition newline : string := chr 10.

Definition hex_digit (n : nat) : string :=
  String (nth n (list_ascii_of_string "0123456789abcdef") "0"%char) EmptyString.

(** QuoteJSONString, one code unit at a time. *)
Definition quote_char (c : ascii) : string :=
  let n := nat_of_ascii c in
  if (n =? 8)%nat then backslash ++ "b"
  else if (n =? 9)%nat then backslash ++ "t"
  else if (n =? 10)%nat then backslash ++ "n"
  else if (n =? 12)%nat then backslash ++ "f"
  else if (n =? 13)%nat then backslash ++ "r"
  else if (n =? 34)%nat then backslash ++ dquote
  else if (n =? 92)%nat then backslash ++ backslash
  else if (n <? 32)%nat then
    backslash ++ "u00" ++ hex_digit (n / 16) ++ hex_digit (n mod 16)
  else String c EmptyString.

Definition quote (s : string) : string :=
  dquote ++ String.concat EmptyString (map quote_char (list_ascii_of_string s)) ++ dquote.

Definition isEmpty (s : string) : bool :=
  match s with EmptyString => true | _ => false end.

(** Wrap the already serialised members of an array or object
    (SerializeJSONArray / SerializeJSONObject, last step). *)
Definition wrap_members (opening closing gap stepback : string)
                        (parts : list string) : string :=
  match parts with
  | [] => opening ++ closing
  | _ =>
      if isEmpty gap then opening ++ String.concat "," parts ++ closing
      else
        let indent := stepback ++ gap in
        opening ++ newline ++ indent
          ++ String.concat ("," ++ newline ++ indent) parts
          ++ newline ++ stepback ++ closing
  end.

(** SerializeJSONProperty; [None] is the [undefined] result. *)
Fixpoint serialize (gap indent : string) (v : Value) : option string :=
  match v with
  | VUndefined => None
  | VNull => Some "null"
  | VBool true => Some "true"
  | VBool false => Some "false"
  | VNum n => Some (string_of_Z n)
  | VStr s => Some (quote s)
  | VArr items =>
      Some (wrap_members "[" "]" gap indent
              (map (fun x => match serialize gap (indent ++ gap) x with
                             | Some s => s
                             | None => "null"
                             end) items))
  | VObj props =>
      Some (wrap_members "{" "}" gap indent
              (flat_map (fun kv =>
                           match serialize gap (indent ++ gap) (snd kv) with
                           | Some s =>
                               [quote (fst kv) ++ ":"
                                  ++ (if isEmpty gap then EmptyString else " ") ++ s]
                           | None => []
                           end) props))
  end.

(** [JSON.stringify(v)]; a property whose value is [undefined] is how a
    JavaScript object literal carries an [undefined] text. *)
Definition JSON_stringify (v : Value) : Value :=
  match serialize EmptyString EmptyString v with
  | Some s => VStr s
  | None => VUndefined
  end.

(** [JSON.stringify(v, null, 2)] *)
Definition JSON_stringify_2 (v : Value) : Value :=
  match serialize "  " EmptyString v with
  | Some s => VStr s
  | None => VUndefined
  end.

(** ** [Number(x)] on the integer fragment *)

(** WhiteSpace and LineTerminator code units below 128. *)
Definition is_space (c : ascii) : bool :=
  let n := nat_of_ascii c in
  ((n =? 32) || (n =? 9) || (n =? 10) || (n =? 11) || (n =? 12) || (n =? 13))%nat.

Fixpoint trim_left (cs : list ascii) : list ascii :=
  match cs with
  | c :: rest => if is_space c then trim_left rest else cs
  | [] => []
  end.

Definition trim (cs : list ascii) : list ascii :=
  rev (trim_left (rev (trim_left cs))).

Definition digit_value (c : ascii) : option Z :=
  let n := nat_of_ascii c in
  if ((48 <=? n) && (n <=? 57))%nat then Some (Z.of_nat (n - 48)) else None.

Fixpoint digits_value (acc : Z) (cs : list ascii) : option Z :=
  match cs with
  | [] => Some acc
  | c :: rest =>
      match digit_value c with
      | Some d => digits_value (10 * acc + d)%Z rest
      | None => None
      end
  end.

Definition unsigned_value (cs : list ascii) : option Z :=
  match cs with
  | [] => None
  | _ => digits_value 0%Z cs
  end.

(** StringToNumber for decimal integer literals; [None] is [NaN].  The
    other numeric literals (fractions, exponents, radix prefixes,
    [Infinity]) denote values outside the integer model of numbers and
    are not recognised here. *)
Definition StringToNumber (s : string) : option Z :=
  match trim (list_ascii_of_string s) with
  | [] => Some 0%Z
  | c :: rest =>
      if (nat_of_ascii c =? 45)%nat then option_map Z.opp (unsigned_value rest)
      else if (nat_of_ascii c =? 43)%nat then unsigned_value rest
      else unsigned_value (c :: rest)
  end.

(** [Number(v)]; [None] is [NaN]. *)
Definition Number (v : Value) : option Z :=
  match v with
  | VUndefined => None
  | VNull => Some 0%Z
  | VBool true => Some 1%Z
  | VBool false => Some 0%Z
  | VNum n => Some n
  | VStr s => StringToNumber s
  | VArr _ => StringToNumber (toString v)
  | VObj _ => None
  end.

(** ** Errors and outcomes *)

(** The value caught by a [catch] clause: an [Error] instance (of which
    only the message is observed) or any other thrown value. *)
Inductive JsError : Type :=
| ErrorObject (message : string)
| ThrownValue (v : Value).

(** [error instanceof Error ? error.message : String(error)] *)
Definition errorMessage (e : JsError) : string :=
  match e with
  | ErrorObject m => m
  | ThrownValue v => toString v
  end.

(** [error instanceof Error ? error : new Error(String(error))] *)
Definition asError (e : JsError) : JsError :=
  match e with
  | ErrorObject m => ErrorObject m
  | ThrownValue v => ErrorObject (toString v)
  end.

Inductive Outcome (A : Type) : Type :=
| Returned (a : A)
| Thrown (e : JsError).
Arguments Returned {A} a.
Arguments Thrown {A} e.

Definition isReturned {A : Type} (o : Outcome A) : bool :=
  match o with Returned _ => true | Thrown _ => false end.

(** The expression [v.k]: reading a property of [undefined] or [null]
    throws a [TypeError]. *)
Definition read_property (v : Value) (k : string) : Outcome Value :=
  match v with
  | VUndefined =>
      Thrown (ErrorObject ("Cannot read properties of undefined (reading '" ++ k ++ "')"))
  | VNull =>
      Thrown (ErrorObject ("Cannot read properties of null (reading '" ++ k ++ "')"))
  | _ => Returned (get v k)
  end.

(** [undefined] and [null], of which no property can be read. *)
Definition nullish (v : Value) : bool :=
  match v with VUndefined | VNull => true | _ => false end.

End Js.

(* ================================================================== *)
(** * JSON-RPC messages and the effect monad                           *)
(* ================================================================== *)

Module Protocol.
Import Js.

(** [id: string | number] *)
Inductive RequestId : Type :=
| IdString (s : string)
| IdNumber (n : Z).

Record ErrorBody : Type := { code : Z; message : string }.

(** [JSONRPCMessage]: request, notification, response or error.  A field
    is [None] when the key is absent (['id' in message] is [false]).
    Every message also carries the constant tag [jsonrpc: '2.0']. *)
Record JSONRPCMessage : Type := {
  id : option RequestId;
  method : option string;
  params : option Value;
  result : option Value;
  error : option ErrorBody
}.

(** ['id' in message ? message.id : fallback] *)
Definition id_or (message : JSONRPCMessage) (fallback : string) : RequestId :=
  match id message with
  | Some i => i
  | None => IdString fallback
  end.

(** [{ jsonrpc: '2.0', id, result }] *)
Definition Response (i : RequestId) (r : Value) : JSONRPCMessage :=
  {| id := Some i; method := None; params := None;
     result := Some r; error := None |}.

(** [{ jsonrpc: '2.0', id, error: { code, message } }] *)
Definition ErrorResponse (i : RequestId) (c : Z) (m : string) : JSONRPCMessage :=
  {| id := Some i; method := None; params := None;
     result := None; error := Some {| code := c; message := m |} |}.

(** The numeric codes written in the sources. *)
Definition InvalidRequest : Z := -32600.
Definition MethodNotFound : Z := -32601.
Definition ToolCallFailed : Z := -32000.

(** A terminal message answers a request: it has an id and exactly one
    of [result] and [error]. *)
Definition isTerminal (m : JSONRPCMessage) : bool :=
  match id m, result m, error m with
  | Some _, Some _, None => true
  | Some _, None, Some _ => true
  | _, _, _ => false
  end.

(** Calls that leave the object under study: tool handlers and the
    callbacks held by a transport.  They are recorded in call order. *)
Inductive Call : Type :=
| ToolHandlerCall (name : string) (args : Value)
| HandleMessageCall (m : JSONRPCMessage)
| OnCloseCall
| OncloseCall
| OnerrorCall (e : JsError)
| OnmessageCall (m : JSONRPCMessage).

Definition is_OnCloseCall (c : Call) : bool :=
  match c with OnCloseCall => true | _ => false end.

Definition is_OnerrorCall (c : Call) : bool :=
  match c with OnerrorCall _ => true | _ => false end.

End Protocol.

Module Async.
Import Js Protocol.

Section Monad.
Context {World : Type}.

(** Code supplied from outside (a handler, a callback): it may read
    and change the world outside the object, and returns or throws. *)
Definition External (A : Type) : Type := World -> Outcome A * World.

Record Env : Type := { world : World; calls : list Call }.

(** The object a method runs on ([this]) with its environment. *)
Record Heap (T : Type) : Type := { this : T; env : Env }.
Arguments this {T} h.
Arguments env {T} h.

(** A method body: state changes made before a [throw] persist. *)
Definition M (T A : Type) : Type := Heap T -> Outcome A * Heap T.

Definition ret {T A : Type} (a : A) : M T A := fun h => (Returned a, h).

Definition throw {T A : Type} (e : JsError) : M T A := fun h => (Thrown e, h).

Definition bind {T A B : Type} (c : M T A) (k : A -> M T B) : M T B :=
  fun h =>
    match c h with
    | (Returned a, h') => k a h'
    | (Thrown e, h') => (Thrown e, h')
    end.

(** [try { body } catch (error) { handler }] *)
Definition try_catch {T A : Type} (body : M T A) (handler : JsError -> M T A)
  : M T A :=
  fun h =>
    match body h with
    | (Returned a, h') => (Returned a, h')
    | (Thrown e, h') => handler e h'
    end.

Definition get_this {T : Type} : M T T := fun h => (Returned (this h), h).

Definition set_this {T : Type} (t : T) : M T unit :=
  fun h => (Returned tt, {| this := t; env := env h |}).

(** Await external code that is not a callback of the object (the file
    system, a remote service, the clock). *)
Definition perform {T A : Type} (f : External A) : M T A :=
  fun h =>
    let (r, w) := f (world (env h)) in
    (r, {| this := this h; env := {| world := w; calls := calls (env h) |} |}).

(** Call into external code, recording the call. *)
Definition call {T A : Type} (c : Call) (f : External A) : M T A :=
  fun h =>
    let (r, w) := f (world (env h)) in
    (r, {| this := this h;
           env := {| world := w; calls := calls (env h) ++ [c] |} |}).

(** An expression that returns or throws without touching the state. *)
Definition evaluate {T A : Type} (o : Outcome A) : M T A := fun h => (o, h).

(** Run a body and hand back how it ended, without propagating a throw. *)
Definition attempt {T A : Type} (c : M T A) : M T (Outcome A) :=
  fun h => let (r, h') := c h in (Returned r, h').

(** A callback that returns normally in every world. *)
Definition never_throws {A : Type} (f : External A) : Prop :=
  forall w, isReturned (fst (f w)) = true.

End Monad.

Arguments Env World : clear implicits.
Arguments Heap World T : clear implicits.
Arguments M World T A : clear implicits.
Arguments External World A : clear implicits.
Arguments this {World T} h.
Arguments env {World T} h.

End Async.

Notation "x <- c ;; k" := (Async.bind c (fun x => k))
  (at level 61, c at next level, right associativity).
Notation "c ;;; k" := (Async.bind c (fun _ => k))
  (at level 61, right associativity).

(* ================================================================== *)
(** * directServer.ts                                                  *)
(* ================================================================== *)

Module DirectServer.
Import Js Protocol Async.

(** ** Insertion-ordered [Map] with string keys *)

(** [map.set(k, v)]: an existing key keeps its position. *)
Fixpoint Map_set {A : Type} (k : string) (v : A) (m : list (string * A))
  : list (string * A) :=
  match m with
  | [] => [(k, v)]
  | (k', v') :: rest =>
      if k' =? k then (k, v) :: rest else (k', v') :: Map_set k v rest
  end.

(** [map.get(key)] where the key may be any value: only a string can be
    equal to a stored key. *)
Definition Map_get {A : Type} (m : list (string * A)) (key : Value) : option A :=
  match key with
  | VStr k => assoc k m
  | _ => None
  end.

(** [Array.from(map.keys())] *)
Definition Map_keys {A : Type} (m : list (string * A)) : list string :=
  map fst m.

(** [names.includes(k)] *)
Definition mem (k : string) (l : list string) : bool := existsb (String.eqb k) l.

(** Registration order of distinct names: each name at its first
    occurrence, later occurrences dropped. *)
Fixpoint first_occurrences (names : list string) : list string :=
  match names with
  | [] => []
  | n :: rest => n :: filter (fun m => negb (m =? n)) (first_occurrences rest)
  end.

(** [Number.MAX_SAFE_INTEGER] bounds the integers on which the addition
    of doubles is exact. *)
Definition safe_integer (n : Z) : Prop :=
  (- (2 ^ 53 - 1) <= n <= 2 ^ 53 - 1)%Z.

(** Every element and every partial sum of the reduction is safe. *)
Fixpoint sums_safely (acc : Z) (numbers : list Z) : Prop :=
  match numbers with
  | [] => True
  | n :: rest => safe_integer n /\ safe_integer (acc + n) /\ sums_safely (acc + n)%Z rest
  end.

Definition is_ascii_letter (c : ascii) : bool :=
  let n := nat_of_ascii c in
  (((65 <=? n) && (n <=? 90)) || ((97 <=? n) && (n <=? 122)))%nat.

(** Values for which [Number(v)] is [NaN]: [undefined], a plain object,
    and a string whose first character after leading blanks is a letter
    other than the [I] of [Infinity]. *)
Definition not_a_number (v : Value) : bool :=
  match v with
  | VUndefined => true
  | VObj _ => true
  | VStr s =>
      match trim_left (list_ascii_of_string s) with
      | c :: _ => is_ascii_letter c && negb (nat_of_ascii c =? 73)%nat
      | [] => false
      end
  | _ => false
  end.

(** What is observed of one property of the global [presenter] object
    (imported from [@/presenter], which the server only inspects). *)
Inductive PresenterProp : Type :=
| NotObject                       (* typeof p !== 'object' *)
| NullObject                      (* p === null *)
| Instance (constructorName : option string) (prototypeOwnNames : option nat).
  (* p.constructor?.name, and the number of own property names of
     Object.getPrototypeOf(p), [None] when the prototype is null *)

(** [Object.getPrototypeOf(p)] is not [null]. *)
Definition has_prototype (p : PresenterProp) : bool :=
  match p with
  | Instance _ None => false
  | _ => true
  end.

(** [typeof p === 'object'] *)
Definition is_object (p : PresenterProp) : bool :=
  match p with
  | NotObject => false
  | _ => true
  end.

(** The sum of a list of integers. *)
Definition total (numbers : list Z) : Z := fold_right Z.add 0%Z numbers.

Section Server.
Context {World : Type}.

(** [Object.keys(presenter)] with what [typeof], [constructor] and
    [Object.getPrototypeOf] report for each key. *)
Variable presenter : World -> list (string * PresenterProp).

Record ToolInfo : Type := {
  name : string;
  description : string;
  inputSchema : Value
}.

(** [(args) => Promise<unknown>]: a handler is any closure.  It is given
    the arguments, acts on the world outside the server, and may hold
    the server that stores it and use it while it runs: call the public
    [registerTool], or change the array that the [tools] getter hands
    out, which is the stored array itself.  A run of a handler yields
    how it ended, the world it left and what it did to the server, in
    the order it did it. *)
Inductive ToolHandler : Type :=
| Handler (run : Value -> World -> Outcome Value * World * list ServerAction)
with ServerAction : Type :=
| CallRegisterTool (name description : string) (handler : ToolHandler)
    (inputSchema : Value)
| EditTools (edit : list ToolInfo -> list ToolInfo).

Definition run (handler : ToolHandler)
  : Value -> World -> Outcome Value * World * list ServerAction :=
  match handler with Handler run => run end.

(** [handler(args)] as seen from outside the server: how the call ends
    and the world it leaves. *)
Definition invoke (handler : ToolHandler) (args : Value) : External World Value :=
  fun w => fst (run handler args w).

(** What [handler(args)] does to the server. *)
Definition actions (handler : ToolHandler) (args : Value) (w : World)
  : list ServerAction :=
  snd (run handler args w).

(** A handler that leaves the server alone, as the built-in ones do. *)
Definition outside (f : Value -> External World Value) : ToolHandler :=
  Handler (fun args w => (f args w, [])).

(** The mutable fields of a [DirectServer].  [_messageHandlers] is
    written only by the two [_register...Handler] calls that open the
    constructor and is the constant table [_messageHandlers] below. *)
Record DirectServer : Type := {
  _toolHandlers : list (string * ToolHandler);
  _tools : list ToolInfo
}.

(** Field initialisers: [new Map()] and [[]]. *)
Definition fields_init : DirectServer :=
  {| _toolHandlers := []; _tools := [] |}.

(** [registerTool(name, description, handler, inputSchema)] *)
Definition registerTool (name : string) (description : string)
    (handler : ToolHandler) (inputSchema : Value) (this : DirectServer)
  : DirectServer :=
  {| _toolHandlers := Map_set name handler (_toolHandlers this);
     _tools := _tools this
                 ++ [{| name := name; description := description;
                        inputSchema := inputSchema |}] |}.

(** The server after a handler did [done] to it. *)
Definition act_one (this : DirectServer) (action : ServerAction) : DirectServer :=
  match action with
  | CallRegisterTool name description handler inputSchema =>
      registerTool name description handler inputSchema this
  | EditTools edit =>
      {| _toolHandlers := _toolHandlers this; _tools := edit (_tools this) |}
  end.

Definition act (done : list ServerAction) (this : DirectServer) : DirectServer :=
  fold_left act_one done this.

(** [await handler(args)]: the call is recorded, the world is the one
    the handler leaves, and the server is as the handler left it. *)
Definition await_handler (name : string) (handler : ToolHandler) (args : Value)
  : M World DirectServer Value :=
  fun h =>
    (fst (invoke handler args (world (env h))),
     {| this := act (actions handler args (world (env h))) (this h);
        env := {| world := snd (invoke handler args (world (env h)));
                  calls := calls (env h) ++ [ToolHandlerCall name args] |} |}).

(** The handler stored under ['call_tool']. *)
Definition call_tool (message : JSONRPCMessage) : M World DirectServer JSONRPCMessage :=
  match method message, params message with
  | Some _, Some message_params =>
      try_catch
        (let params := or_else message_params (VObj []) in
         let name := get params "name" in
         let args := or_else (get params "arguments") (VObj []) in
         this <- get_this ;;
         match Map_get (_toolHandlers this) name with
         | None => throw (ErrorObject ("工具不存在: " ++ toString name))
         | Some handler =>
             result <- await_handler (toString name) handler args ;;
             ret (Response (id_or message "call_tool")
                    (VObj [("content",
                            if isArray result then result
                            else VArr [VObj [("type", VStr "text");
                                             ("text", JSON_stringify result)]])]))
         end)
        (fun error =>
           ret (ErrorResponse (id_or message "error") (-32000) (errorMessage error)))
  | _, _ =>
      ret (ErrorResponse (id_or message "null") (-32600) "无效的请求")
  end.

(** [(t) => t.name === name], the predicate given to [find]. *)
Definition named (wanted : string) (t : ToolInfo) : bool := name t =? wanted.

(** One element of the [tools] array of a [list_tools] result. *)
Definition describe (this : DirectServer) (name : string) : Value :=
  let tool := find (named name) (_tools this) in
  VObj [("name", VStr name);
        ("description",
         or_else (match tool with
                  | Some t => VStr (description t)
                  | None => VUndefined
                  end)
                 (VStr ("工具 " ++ name)));
        ("inputSchema",
         or_else (match tool with
                  | Some t => inputSchema t
                  | None => VUndefined
                  end)
                 (VObj [("type", VStr "object");
                        ("properties", VObj []);
                        ("required", VArr [])]))].

(** The handler stored under ['list_tools']. *)
Definition list_tools (message : JSONRPCMessage) : M World DirectServer JSONRPCMessage :=
  match method message with
  | None =>
      ret (ErrorResponse (id_or message "null") (-32600) "无效的请求")
  | Some _ =>
      try_catch
        (this <- get_this ;;
         ret (Response (id_or message "list_tools")
                (VObj [("tools",
                        VArr (map (describe this) (Map_keys (_toolHandlers this))))])))
        (fun error =>
           ret (ErrorResponse (id_or message "error") (-32000) (errorMessage error)))
  end.

Definition MessageHandler : Type := JSONRPCMessage -> M World DirectServer JSONRPCMessage.

(** [_messageHandlers] after [_registerCallToolHandler()] and
    [_registerListToolsHandler()]. *)
Definition _messageHandlers : list (string * MessageHandler) :=
  Map_set "list_tools" list_tools (Map_set "call_tool" call_tool []).

(** [handleRequest(message)] *)
Definition handleRequest (message : JSONRPCMessage) : M World DirectServer JSONRPCMessage :=
  match method message with
  | None =>
      ret (ErrorResponse (id_or message "error") (-32600) "无效的请求：缺少method")
  | Some method =>
      match assoc method _messageHandlers with
      | Some handler => handler message
      | None =>
          ret (ErrorResponse (id_or message "error") (-32601)
                 ("方法不存在: " ++ method))
      end
  end.

(** ** Built-in tools *)

(** The reducer of the [sum] tool, with a throw ending the reduction. *)
Definition sum_step (acc : Outcome Z) (curr : Value) : Outcome Z :=
  match acc with
  | Thrown e => Thrown e
  | Returned a =>
      match Number curr with
      | None => Thrown (ErrorObject ("数组中包含非数字值: " ++ toString curr))
      | Some num => Returned (a + num)%Z
      end
  end.

Definition sum_handler : ToolHandler :=
  outside
    (fun args w =>
       match get args "numbers" with
       | VArr numbers =>
           match fold_left sum_step numbers (Returned 0%Z) with
           | Returned sum => (Returned (VObj [("sum", VNum sum)]), w)
           | Thrown e => (Thrown e, w)
           end
       | _ => (Thrown (ErrorObject "参数必须是一个数字数组"), w)
       end).

Definition sum_schema : Value :=
  VObj [("type", VStr "object");
        ("properties",
         VObj [("numbers",
                VObj [("type", VStr "array");
                      ("items", VObj [("type", VStr "number")]);
                      ("description", VStr "要计算总和的数字数组")])]);
        ("required", VArr [VStr "numbers"])].

Definition startsWith_underscore (key : string) : bool :=
  match key with
  | String c _ => (nat_of_ascii c =? 95)%nat
  | EmptyString => false
  end.

(** One entry of the [presenters] array; [getOwnPropertyNames(null)]
    throws a [TypeError], of which only the presence is modelled. *)
Definition presenter_entry (kp : string * PresenterProp) : Outcome Value :=
  let (key, p) := kp in
  match p with
  | Instance ctor (Some n) =>
      Returned (VObj [("name", VStr key);
                      ("type", or_else (match ctor with
                                        | Some c => VStr c
                                        | None => VUndefined
                                        end) (VStr "object"));
                      ("methodCount", VNum (Z.of_nat n))])
  | Instance _ None =>
      Thrown (ErrorObject "Cannot convert undefined or null to object")
  | _ =>
      Returned (VObj [("name", VStr key);
                      ("type", VStr "object");
                      ("methodCount", VNum 0)])
  end.

Fixpoint map_entries (l : list (string * PresenterProp)) : Outcome (list Value) :=
  match l with
  | [] => Returned []
  | kp :: rest =>
      match presenter_entry kp with
      | Thrown e => Thrown e
      | Returned v =>
          match map_entries rest with
          | Thrown e => Thrown e
          | Returned vs => Returned (v :: vs)
          end
      end
  end.

Definition listPresenters_handler : ToolHandler :=
  outside
    (fun _ w =>
       let kept :=
         filter (fun kp => negb (startsWith_underscore (fst kp))
                           && match snd kp with NotObject => false | _ => true end)
                (presenter w) in
       match map_entries kept with
       | Returned presenters => (Returned (VObj [("presenters", VArr presenters)]), w)
       | Thrown e => (Thrown e, w)
       end).

Definition listPresenters_schema : Value :=
  VObj [("type", VStr "object"); ("properties", VObj []); ("required", VArr [])].

(** An element of [options.tools]; also the four arguments of one
    [registerTool] call. *)
Record ToolOption : Type := {
  opt_name : string;
  opt_description : string;
  opt_handler : ToolHandler;
  opt_inputSchema : Value
}.

(** The arguments of the two calls made by [registerBuiltinTools]. *)
Definition builtin_tools : list ToolOption :=
  [{| opt_name := "sum"; opt_description := "计算一组数字的总和";
      opt_handler := sum_handler; opt_inputSchema := sum_schema |};
   {| opt_name := "listPresenters";
      opt_description := "获取当前项目中所有可用的Presenter";
      opt_handler := listPresenters_handler;
      opt_inputSchema := listPresenters_schema |}].

(** [registerBuiltinTools()] *)
Definition registerBuiltinTools (this : DirectServer) : DirectServer :=
  let this := registerTool "sum" "计算一组数字的总和" sum_handler sum_schema this in
  registerTool "listPresenters" "获取当前项目中所有可用的Presenter"
    listPresenters_handler listPresenters_schema this.


(** [DirectServerOptions]; [info] is passed to the SDK base class only. *)
Record DirectServerOptions : Type := {
  info : string * string;
  tools : option (list ToolOption)
}.

Definition registerOption (this : DirectServer) (tool : ToolOption) : DirectServer :=
  registerTool (opt_name tool) (opt_description tool) (opt_handler tool)
    (opt_inputSchema tool) this.

(** [new DirectServer(options)] *)
Definition constructor (options : DirectServerOptions) : DirectServer :=
  let this := fields_init in
  let this :=
    match tools options with
    | Some (tool :: more) => fold_left registerOption (tool :: more) this
    | _ => this
    end in
  registerBuiltinTools this.

(** [get tools()] *)
Definition get_tools (this : DirectServer) : list ToolInfo := _tools this.

(** The first registration made under a name. *)
Definition first_registration (wanted : string) (registrations : list ToolOption)
  : option ToolOption :=
  find (fun tool => opt_name tool =? wanted) registrations.

(** [options.tools], or no tools when the field is absent. *)
Definition tools_of (options : DirectServerOptions) : list ToolOption :=
  match tools options with
  | Some l => l
  | None => []
  end.

(** The entry [registerTool] appends to [_tools] for an option. *)
Definition info_of (tool : ToolOption) : ToolInfo :=
  {| name := opt_name tool; description := opt_description tool;
     inputSchema := opt_inputSchema tool |}.

(** A server on which [registerTool] was called once per element of
    [registrations], in order, starting from the field initialisers. *)
Definition registered (registrations : list ToolOption) : DirectServer :=
  fold_left registerOption registrations fields_init.

(** [params.name] and [params.arguments || {}] as [call_tool] reads them. *)
Definition requested_name (message_params : Value) : Value :=
  get (or_else message_params (VObj [])) "name".

Definition requested_arguments (message_params : Value) : Value :=
  or_else (get (or_else message_params (VObj [])) "arguments") (VObj []).

(** The message [call_tool] builds from what the tool handler did. *)
Definition tool_reply (message : JSONRPCMessage) (outcome : Outcome Value)
  : JSONRPCMessage :=
  match outcome with
  | Returned result =>
      Response (id_or message "call_tool")
        (VObj [("content",
                if isArray result then result
                else VArr [VObj [("type", VStr "text");
                                 ("text", JSON_stringify result)]])])
  | Thrown e => ErrorResponse (id_or message "error") (-32000) (errorMessage e)
  end.

(** The tool handler a request is dispatched to, if it reaches one: a
    [call_tool] with [params] whose name is a key of the handler map. *)
Definition dispatched (message : JSONRPCMessage) (this : DirectServer)
  : option ToolHandler :=
  match method message, params message with
  | Some m, Some p =>
      if m =? "call_tool" then Map_get (_toolHandlers this) (requested_name p)
      else None
  | _, _ => None
  end.

(** What the tool handler a request is dispatched to does to the
    server; nothing when the request reaches no tool handler. *)
Definition performed (message : JSONRPCMessage) (h : Heap World DirectServer)
  : list ServerAction :=
  match dispatched message (this h), params message with
  | Some handler, Some p => actions handler (requested_arguments p) (world (env h))
  | _, _ => []
  end.

(** The [name] property of each element of a [tools] array. *)
Definition names_of (descriptors : list Value) : list Value :=
  map (fun d => get d "name") descriptors.

End Server.

Arguments ToolHandler World : clear implicits.
Arguments ServerAction World : clear implicits.
Arguments ToolInfo : clear implicits.
Arguments DirectServer World : clear implicits.
Arguments ToolOption World : clear implicits.
Arguments DirectServerOptions World : clear implicits.

End DirectServer.

(* ================================================================== *)
(** * directTransport.ts                                               *)
(* ================================================================== *)

Module DirectTransport.
Import Js Protocol Async.

(** The only listener the transport ever registers:
    [(message) => { this.onmessage?.(message) }]. *)
Inductive Listener : Type := ForwardToOnmessage.

Section Transport.
Context {World : Type}.

Record DirectTransportOptions : Type := {
  handleMessage : JSONRPCMessage -> External World JSONRPCMessage;
  onClose : option (External World unit)
}.

(** [_emitter] is the list of (event name, listener) in registration
    order.  The three public callbacks are assigned by the client; like
    the two callbacks of the options they act on the world outside the
    transport and do not call back into it. *)
Record DirectTransport : Type := {
  _options : DirectTransportOptions;
  _emitter : list (string * Listener);
  _isConnected : bool;
  onclose : option (External World unit);
  onerror : option (JsError -> External World unit);
  onmessage : option (JSONRPCMessage -> External World unit)
}.

(** [new DirectTransport(options)] *)
Definition constructor (options : DirectTransportOptions) : DirectTransport :=
  {| _options := options; _emitter := []; _isConnected := false;
     onclose := None; onerror := None; onmessage := None |}.

Definition set_isConnected (b : bool) (t : DirectTransport) : DirectTransport :=
  {| _options := _options t; _emitter := _emitter t; _isConnected := b;
     onclose := onclose t; onerror := onerror t; onmessage := onmessage t |}.

Definition set_emitter (e : list (string * Listener)) (t : DirectTransport)
  : DirectTransport :=
  {| _options := _options t; _emitter := e; _isConnected := _isConnected t;
     onclose := onclose t; onerror := onerror t; onmessage := onmessage t |}.

Definition update (f : DirectTransport -> DirectTransport) : M World DirectTransport unit :=
  this <- get_this ;; set_this (f this).

(** [start()] *)
Definition start : M World DirectTransport unit :=
  this <- get_this ;;
  if _isConnected this then throw (ErrorObject "DirectTransport已经启动！")
  else
    update (set_isConnected true) ;;;
    update (fun t => set_emitter (_emitter t ++ [("response", ForwardToOnmessage)]) t) ;;;
    ret tt.

(** [close()] *)
Definition close : M World DirectTransport unit :=
  this <- get_this ;;
  if negb (_isConnected this) then ret tt
  else
    update (set_isConnected false) ;;;
    update (set_emitter []) ;;;
    match onClose (_options this) with
    | Some f => call OnCloseCall f
    | None => ret tt
    end ;;;
    this <- get_this ;;
    match onclose this with
    | Some f => call OncloseCall f
    | None => ret tt
    end.

Definition run_listener (l : Listener) (message : JSONRPCMessage)
  : M World DirectTransport unit :=
  match l with
  | ForwardToOnmessage =>
      this <- get_this ;;
      match onmessage this with
      | Some f => call (OnmessageCall message) (f message)
      | None => ret tt
      end
  end.

(** [emitter.emit(event, message)]: the listeners of the event run in
    registration order; a listener that throws ends the emission. *)
Fixpoint emit_to (listeners : list (string * Listener)) (event : string)
    (message : JSONRPCMessage) : M World DirectTransport unit :=
  match listeners with
  | [] => ret tt
  | (e, l) :: rest =>
      if e =? event then
        run_listener l message ;;; emit_to rest event message
      else emit_to rest event message
  end.

Definition emit (event : string) (message : JSONRPCMessage)
  : M World DirectTransport unit :=
  this <- get_this ;; emit_to (_emitter this) event message.

(** The body of the [try] block of [send]. *)
Definition dispatch (message : JSONRPCMessage) : M World DirectTransport unit :=
  this <- get_this ;;
  response <- call (HandleMessageCall message)
                   (handleMessage (_options this) message) ;;
  emit "response" response.

(** [send(message)] *)
Definition send (message : JSONRPCMessage) : M World DirectTransport unit :=
  this <- get_this ;;
  if negb (_isConnected this) then throw (ErrorObject "未连接")
  else
    try_catch (dispatch message)
      (fun error =>
         this <- get_this ;;
         match onerror this with
         | Some f => call (OnerrorCall (asError error)) (f (asError error))
         | None => ret tt
         end).

(** What a client does with a transport: assign a callback field or
    call a method.  A method that throws does not stop the client. *)
Inductive Step : Type :=
| AssignOnclose (f : option (External World unit))
| AssignOnerror (f : option (JsError -> External World unit))
| AssignOnmessage (f : option (JSONRPCMessage -> External World unit))
| CallStart
| CallClose
| CallSend (message : JSONRPCMessage).

Definition assign_onclose (f : option (External World unit)) (t : DirectTransport)
  : DirectTransport :=
  {| _options := _options t; _emitter := _emitter t; _isConnected := _isConnected t;
     onclose := f; onerror := onerror t; onmessage := onmessage t |}.

Definition assign_onerror (f : option (JsError -> External World unit))
    (t : DirectTransport) : DirectTransport :=
  {| _options := _options t; _emitter := _emitter t; _isConnected := _isConnected t;
     onclose := onclose t; onerror := f; onmessage := onmessage t |}.

Definition assign_onmessage (f : option (JSONRPCMessage -> External World unit))
    (t : DirectTransport) : DirectTransport :=
  {| _options := _options t; _emitter := _emitter t; _isConnected := _isConnected t;
     onclose := onclose t; onerror := onerror t; onmessage := f |}.

Definition step (s : Step) : M World DirectTransport unit :=
  match s with
  | AssignOnclose f => update (assign_onclose f)
  | AssignOnerror f => update (assign_onerror f)
  | AssignOnmessage f => update (assign_onmessage f)
  | CallStart => start
  | CallClose => close
  | CallSend message => send message
  end.

(** The transport and its environment after a sequence of steps. *)
Fixpoint after (steps : list Step) (h : Heap World DirectTransport)
  : Heap World DirectTransport :=
  match steps with
  | [] => h
  | s :: rest => after rest (snd (step s h))
  end.

(** Exactly the one forwarding listener while connected, none otherwise. *)
Definition listeners_match_connection (t : DirectTransport) : Prop :=
  _emitter t = if _isConnected t then [("response", ForwardToOnmessage)] else [].

(** Listeners exist only while connected: [start] adds the one listener
    and [close] removes all of them. *)
Definition idle_has_no_listeners (t : DirectTransport) : Prop :=
  _isConnected t = false -> _emitter t = [].

End Transport.

Arguments DirectTransportOptions World : clear implicits.
Arguments DirectTransport World : clear implicits.
Arguments Step World : clear implicits.

(** [DirectServer.createDirectTransport()]: the transport's world is the
    server together with the server's own environment, so that
    [handleMessage] runs [handleRequest] on the live server.  The
    server's private emitter never receives a listener, so the
    [removeAllListeners()] of [onClose] changes nothing. *)
Definition createDirectTransport {World : Type}
  : DirectTransport (Heap World (DirectServer.DirectServer World)) :=
  constructor
    {| handleMessage := fun message => DirectServer.handleRequest message;
       onClose := Some (fun server => (Returned tt, server)) |}.

End DirectTransport.

(* ================================================================== *)
(** * imageServer.ts                                                   *)
(* ================================================================== *)

Module ImageServer.
Import Js Protocol Async.

(** A [Buffer] is its sequence of bytes. *)
Definition Buffer : Type := string.

Definition base64_alphabet : list ascii :=
  list_ascii_of_string
    "ABCDEFGHIJKLMNOPQRSTUVWXYZabcdefghijklmnopqrstuvwxyz0123456789+/".

Definition sextet (n : N) : ascii :=
  nth (N.to_nat (n mod 64)%N) base64_alphabet "A"%char.

(** [buffer.toString('base64')] *)
Fixpoint base64_of (bytes : list ascii) : list ascii :=
  match bytes with
  | a :: b :: c :: rest =>
      let n := (N_of_ascii a * 65536 + N_of_ascii b * 256 + N_of_ascii c)%N in
      sextet (n / 262144) :: sextet (n / 4096) :: sextet (n / 64) :: sextet n
        :: base64_of rest
  | [a; b] =>
      let n := (N_of_ascii a * 65536 + N_of_ascii b * 256)%N in
      [sextet (n / 262144); sextet (n / 4096); sextet (n / 64); "="%char]
  | [a] =>
      let n := (N_of_ascii a * 65536)%N in
      [sextet (n / 262144); sextet (n / 4096); "="%char; "="%char]
  | [] => []
  end.

Definition toBase64 (b : Buffer) : string :=
  string_of_list_ascii (base64_of (list_ascii_of_string b)).

(** [s.replace(/\/+$/, '')] *)
Fixpoint drop_slashes (cs : list ascii) : list ascii :=
  match cs with
  | c :: rest => if (nat_of_ascii c =? 47)%nat then drop_slashes rest else cs
  | [] => []
  end.

Definition strip_trailing_slashes (s : string) : string :=
  string_of_list_ascii (rev (drop_slashes (rev (list_ascii_of_string s)))).

(** [getMimeType(extension)] *)
Definition getMimeType (extension : string) : string :=
  match assoc extension
          [(".jpg", "image/jpeg"); (".jpeg", "image/jpeg"); (".png", "image/png");
           (".gif", "image/gif"); (".webp", "image/webp");
           (".svg", "image/svg+xml"); (".bmp", "image/bmp")] with
  | Some m => if isEmpty m then "application/octet-stream" else m
  | None => "application/octet-stream"
  end.

(** The result of [Promise.allSettled] for one promise. *)
Inductive Settled : Type :=
| Fulfilled (value : Value)
| Rejected (reason : JsError).

(** Property read on a rejection reason. *)
Definition reason_get (reason : JsError) (k : string) : Value :=
  match reason with
  | ThrownValue v => get v k
  | ErrorObject _ => VUndefined
  end.

Fixpoint all_strings (items : list Value) : option (list string) :=
  match items with
  | [] => Some []
  | VStr s :: rest => option_map (cons s) (all_strings rest)
  | _ :: _ => None
  end.

(** [z.object({ path: z.string() }).safeParse(args)], the parsed
    [data.path] on success. *)
Definition parse_path (args : Value) : option string :=
  match args with
  | VObj props => match assoc "path" props with Some (VStr s) => Some s | _ => None end
  | _ => None
  end.

(** [z.object({ paths: z.array(z.string()) }).safeParse(args)], the
    parsed [data.paths] on success. *)
Definition parse_paths (args : Value) : option (list string) :=
  match args with
  | VObj props =>
      match assoc "paths" props with
      | Some (VArr items) => all_strings items
      | _ => None
      end
  | _ => None
  end.

(** [z.object({ path: z.string(), prompt: z.string() }).safeParse(args)] *)
Definition parse_path_prompt (args : Value) : option (string * string) :=
  match args with
  | VObj props =>
      match assoc "path" props, assoc "prompt" props with
      | Some (VStr p), Some (VStr q) => Some (p, q)
      | _, _ => None
      end
  | _ => None
  end.

(** [{ content: [{ type: 'text', text }] }] *)
Definition text_result (text : Value) : Value :=
  VObj [("content", VArr [VObj [("type", VStr "text"); ("text", text)]])].

(** [{ content: [{ type: 'text', text }], isError: true }] *)
Definition error_result (text : string) : Value :=
  VObj [("content", VArr [VObj [("type", VStr "text"); ("text", VStr text)]]);
        ("isError", VBool true)].

Section Server.
Context {World : Type}.

(** The collaborators outside the repository sources. *)
Variable fs_readFile : string -> External World Buffer.
Variable r2_upload : string -> Buffer -> string -> string -> External World Value.
Variable Date_now : World -> Z.
Variable path_basename : string -> string.
Variable path_extname : string -> string.
Variable toLowerCase : string -> string.
(** The rendering of a failed [safeParse]'s [error] in a template. *)
Variable zodError : Value -> string.

Record ImageServer : Type := {
  provider : string;
  model : string;
  r2Client : bool;                  (* false: null *)
  bucketName : option string;
  publicUrlBase : option string
}.

(** The two methods that query the multimodal model through the global
    presenter; their callee is outside the sources, so they are taken as
    given, with the signatures they have. *)
Variable queryImageWithModel : string -> Buffer -> string -> M World ImageServer string.
Variable ocrImageWithModel : string -> Buffer -> M World ImageServer string.

(** [uploadImageToService(filePath, fileBuffer)] *)
Definition uploadImageToService (filePath : string) (fileBuffer : Buffer)
  : M World ImageServer string :=
  this <- get_this ;;
  if negb (r2Client this) then
    throw (ErrorObject "R2 client not initialized. Check your Cloudflare R2 configuration.")
  else
    try_catch
      (let fileName := path_basename filePath in
       now <- perform (fun w => (Returned (Date_now w), w)) ;;
       let fileKey := "images/" ++ string_of_Z now ++ "-" ++ fileName in
       let fileExt := toLowerCase (path_extname fileName) in
       let mimeType := getMimeType fileExt in
       uploadResult <- perform (r2_upload
                                  (match bucketName this with
                                   | Some b => b
                                   | None => "temp"
                                   end) fileBuffer fileKey mimeType) ;;
       (* console.log(..., uploadResult.uri) *)
       evaluate (read_property uploadResult "uri") ;;;
       match publicUrlBase this with
       | Some base =>
           if isEmpty base then
             throw (ErrorObject "No public URL configuration available for R2. Please set R2_PUBLIC_URL environment variable or configure a publicUrlBase.")
           else ret (strip_trailing_slashes base ++ "/" ++ fileKey)
       | None =>
           throw (ErrorObject "No public URL configuration available for R2. Please set R2_PUBLIC_URL environment variable or configure a publicUrlBase.")
       end)
      (fun error =>
         throw (ErrorObject ("Failed to upload image to R2: " ++ errorMessage error))).

(** [Promise.allSettled(promises)]: every promise is run to its
    settlement, and the results keep the order of the promises.  Here
    the promises settle one after the other in that order, which is one
    of the schedules of the runtime: it starts every callback before
    any of them continues, and what the callbacks do to the world may
    interleave. *)
Fixpoint allSettled (promises : list (M World ImageServer Value))
  : M World ImageServer (list Settled) :=
  match promises with
  | [] => ret []
  | p :: rest =>
      first <- try_catch (value <- p ;; ret (Fulfilled value))
                         (fun reason => ret (Rejected reason)) ;;
      others <- allSettled rest ;;
      ret (first :: others)
  end.

(** The callback mapped over [paths] by [read_multiple_images_base64]. *)
Definition read_one (filePath : string) : M World ImageServer Value :=
  try_catch
    (fileBuffer <- perform (fs_readFile filePath) ;;
     ret (VObj [("path", VStr filePath);
                ("base64", VStr (toBase64 fileBuffer));
                ("status", VStr "fulfilled")]))
    (fun error =>
       let errorMessage := errorMessage error in
       throw (ThrownValue (VObj [("path", VStr filePath);
                                 ("error", VStr errorMessage)]))).

(** The callback mapped over [paths] by [upload_multiple_images]. *)
Definition upload_one (filePath : string) : M World ImageServer Value :=
  try_catch
    (fileBuffer <- perform (fs_readFile filePath) ;;
     url <- uploadImageToService filePath fileBuffer ;;
     ret (VObj [("path", VStr filePath);
                ("url", VStr url);
                ("status", VStr "fulfilled")]))
    (fun error =>
       let errorMessage := errorMessage error in
       throw (ThrownValue (VObj [("path", VStr filePath);
                                 ("error", VStr errorMessage)]))).

(** The formatting callback of the two batch tools; [field] is
    ["base64"] or ["url"]. *)
Definition format_result (field : string) (result : Settled) : Value :=
  match result with
  | Fulfilled value =>
      VObj [("path", get value "path"); (field, get value field)]
  | Rejected reason =>
      VObj [("path", reason_get reason "path"); ("error", reason_get reason "error")]
  end.

Definition invalid_arguments {A : Type} (name : string) (args : Value)
  : M World ImageServer A :=
  throw (ErrorObject ("Invalid arguments for " ++ name ++ ": " ++ zodError args)).

(** The [switch (name)] of the call-tool handler. *)
Definition switch_name (name : string) (args : Value) : M World ImageServer Value :=
  if name =? "read_image_base64" then
    match parse_path args with
    | None => invalid_arguments name args
    | Some filePath =>
        fileBuffer <- perform (fs_readFile filePath) ;;
        ret (text_result (VStr (toBase64 fileBuffer)))
    end
  else if name =? "upload_image" then
    match parse_path args with
    | None => invalid_arguments name args
    | Some filePath =>
        fileBuffer <- perform (fs_readFile filePath) ;;
        imageUrl <- uploadImageToService filePath fileBuffer ;;
        ret (text_result (VStr imageUrl))
    end
  else if name =? "read_multiple_images_base64" then
    match parse_paths args with
    | None => invalid_arguments name args
    | Some paths =>
        results <- allSettled (map read_one paths) ;;
        let formattedResults := map (format_result "base64") results in
        ret (text_result (JSON_stringify_2 (VArr formattedResults)))
    end
  else if name =? "upload_multiple_images" then
    match parse_paths args with
    | None => invalid_arguments name args
    | Some paths =>
        results <- allSettled (map upload_one paths) ;;
        let formattedResults := map (format_result "url") results in
        ret (text_result (JSON_stringify_2 (VArr formattedResults)))
    end
  else if name =? "describe_image" then
    match parse_path args with
    | None => invalid_arguments name args
    | Some filePath =>
        fileBuffer <- perform (fs_readFile filePath) ;;
        description <- queryImageWithModel filePath fileBuffer "Describe this image." ;;
        ret (text_result (VStr description))
    end
  else if name =? "query_image_with_prompt" then
    match parse_path_prompt args with
    | None => invalid_arguments name args
    | Some (filePath, prompt) =>
        fileBuffer <- perform (fs_readFile filePath) ;;
        response <- queryImageWithModel filePath fileBuffer prompt ;;
        ret (text_result (VStr response))
    end
  else if name =? "ocr_image" then
    match parse_path args with
    | None => invalid_arguments name args
    | Some filePath =>
        fileBuffer <- perform (fs_readFile filePath) ;;
        ocrText <- ocrImageWithModel filePath fileBuffer ;;
        ret (text_result (VStr ocrText))
    end
  else throw (ErrorObject ("Unknown tool: " ++ name)).

(** The handler installed for [CallToolRequestSchema], applied to
    [request.params.name] and [request.params.arguments]. *)
Definition callTool (name : string) (args : Value) : M World ImageServer Value :=
  try_catch (switch_name name args)
    (fun error =>
       let errorMessage := errorMessage error in
       ret (error_result ("Error: " ++ errorMessage))).

(** A call that reads the file at [filePath], goes on with its bytes
    and reports any error as an error result. *)
Definition reading (filePath : string) (rest : Buffer -> M World ImageServer Value)
  : M World ImageServer Value :=
  try_catch (fileBuffer <- perform (fs_readFile filePath) ;; rest fileBuffer)
    (fun error => ret (error_result ("Error: " ++ errorMessage error))).

(** The bucket, key and content type [uploadImageToService] sends a
    file with. *)
Definition upload_request (filePath : string) (h : Heap World ImageServer)
  : string * string * string :=
  (match bucketName (this h) with Some b => b | None => "temp" end,
   "images/" ++ string_of_Z (Date_now (world (env h))) ++ "-" ++ path_basename filePath,
   getMimeType (toLowerCase (path_extname (path_basename filePath)))).

(** ** The per-item report the batch tools are meant to produce *)

(** The operation a batch tool performs on one path, yielding the text
    it reports for that path. *)
Definition read_operation (filePath : string) : M World ImageServer string :=
  fileBuffer <- perform (fs_readFile filePath) ;;
  ret (toBase64 fileBuffer).

Definition upload_operation (filePath : string) : M World ImageServer string :=
  fileBuffer <- perform (fs_readFile filePath) ;;
  uploadImageToService filePath fileBuffer.

(** Each path's operation in input order, each outcome kept. *)
Fixpoint attempt_each (operation : string -> M World ImageServer string)
    (paths : list string) : M World ImageServer (list (Outcome string)) :=
  match paths with
  | [] => ret []
  | p :: rest =>
      o <- attempt (operation p) ;;
      os <- attempt_each operation rest ;;
      ret (o :: os)
  end.

(** The entry reported for one path: its result, or its own error. *)
Definition report_entry (field : string) (item : string * Outcome string) : Value :=
  match snd item with
  | Returned r => VObj [("path", VStr (fst item)); (field, VStr r)]
  | Thrown e => VObj [("path", VStr (fst item)); ("error", VStr (errorMessage e))]
  end.

Definition report (field : string) (paths : list string)
    (outcomes : list (Outcome string)) : list Value :=
  map (report_entry field) (combine paths outcomes).

(** An item callback follows an operation when it fulfils with the
    operation's result under [field] and rejects with the operation's
    error message, both tagged with the path. *)
Definition follows (field : string)
    (item : string -> M World ImageServer Value)
    (operation : string -> M World ImageServer string) : Prop :=
  forall (p : string) (h : Heap World ImageServer),
    item p h
    = (match fst (operation p h) with
       | Returned r =>
           Returned (VObj [("path", VStr p); (field, VStr r);
                           ("status", VStr "fulfilled")])
       | Thrown e =>
           Thrown (ThrownValue (VObj [("path", VStr p);
                                      ("error", VStr (errorMessage e))]))
       end, snd (operation p h)).

End Server.


(** The number of operations that threw. *)
Definition failures {A : Type} (outcomes : list (Outcome A)) : nat :=
  length (filter (fun o => negb (isReturned o)) outcomes).

(** [{ paths: [...] }] *)
Definition batch_arguments (paths : list string) : Value :=
  VObj [("paths", VArr (map VStr paths))].


Arguments ImageServer : clear implicits.

(** ** Construction *)

(** [accountId && accessKeyId && secretAccessKey] on optional strings. *)
Definition given (s : option string) : bool :=
  match s with
  | Some s => negb (isEmpty s)
  | None => false
  end.

Section Construction.

(** Whether [new R2(credentials, { endpoint })] returns; it throws
    otherwise. *)
Variable R2_constructs : string -> string -> string -> option string -> bool.

(** [initializeR2Client(...)]: the client, or [null] when its
    construction throws. *)
Definition initializeR2Client (accountId accessKeyId secretAccessKey : string)
    (endpoint : option string) : bool :=
  R2_constructs accountId accessKeyId secretAccessKey endpoint.

(** [new ImageServer(provider, model, accountId?, accessKeyId?,
    secretAccessKey?, endpoint?, bucketName?, publicUrlBase?)] *)
Definition constructor (provider model : string)
    (accountId accessKeyId secretAccessKey endpoint bucketName publicUrlBase
       : option string) : ImageServer :=
  match accountId, accessKeyId, secretAccessKey with
  | Some account, Some key, Some secret =>
      if given accountId && given accessKeyId && given secretAccessKey then
        {| provider := provider; model := model;
           r2Client := initializeR2Client account key secret endpoint;
           bucketName := Some (match bucketName with Some b => b | None => "temp" end);
           publicUrlBase := publicUrlBase |}
      else
        {| provider := provider; model := model; r2Client := false;
           bucketName := None; publicUrlBase := publicUrlBase |}
  | _, _, _ =>
      {| provider := provider; model := model; r2Client := false;
         bucketName := None; publicUrlBase := publicUrlBase |}
  end.

End Construction.

(** ** The list-tools handler *)

(** The zod schemas declared at the top of the file. *)
Inductive ArgsSchema : Type :=
| ReadImageBase64ArgsSchema
| UploadImageArgsSchema
| ReadMultipleImagesBase64ArgsSchema
| UploadMultipleImagesArgsSchema
| QueryImageWithPromptArgsSchema
| DescribeImageArgsSchema
| OcrImageArgsSchema.

(** [schema.safeParse(args).success] *)
Definition safeParse_success (schema : ArgsSchema) (args : Value) : bool :=
  match schema with
  | ReadMultipleImagesBase64ArgsSchema | UploadMultipleImagesArgsSchema =>
      match parse_paths args with Some _ => true | None => false end
  | QueryImageWithPromptArgsSchema =>
      match parse_path_prompt args with Some _ => true | None => false end
  | _ => match parse_path args with Some _ => true | None => false end
  end.

(** The two schemas of the batch tools, which take [paths]. *)
Definition takes_paths (schema : ArgsSchema) : bool :=
  match schema with
  | ReadMultipleImagesBase64ArgsSchema | UploadMultipleImagesArgsSchema => true
  | _ => false
  end.

(** The tools of the server with the schema each one parses its
    arguments with in the call handler. *)
Definition served_tools : list (string * ArgsSchema) :=
  [("read_image_base64", ReadImageBase64ArgsSchema);
   ("upload_image", UploadImageArgsSchema);
   ("read_multiple_images_base64", ReadMultipleImagesBase64ArgsSchema);
   ("upload_multiple_images", UploadMultipleImagesArgsSchema);
   ("describe_image", DescribeImageArgsSchema);
   ("query_image_with_prompt", QueryImageWithPromptArgsSchema);
   ("ocr_image", OcrImageArgsSchema)].

Section Listing.

(** [zodToJsonSchema(schema)], from the library of that name. *)
Variable zodToJsonSchema : ArgsSchema -> Value.

Definition tool_entry (name description : string) (schema : ArgsSchema) : Value :=
  VObj [("name", VStr name); ("description", VStr description);
        ("inputSchema", zodToJsonSchema schema)].

(** The handler installed for [ListToolsRequestSchema]. *)
Definition listTools : Value :=
  VObj [("tools",
         VArr [tool_entry "read_image_base64"
                 "Reads an image file from the specified path and returns its base64 encoded content."
                 ReadImageBase64ArgsSchema;
               tool_entry "upload_image"
                 "Uploads an image file from the specified path to a hosting service and returns the public URL."
                 UploadImageArgsSchema;
               tool_entry "read_multiple_images_base64"
                 "Reads multiple image files from the specified paths and returns their base64 encoded content."
                 ReadMultipleImagesBase64ArgsSchema;
               tool_entry "upload_multiple_images"
                 "Uploads multiple image files from the specified paths to a hosting service and returns their public URLs."
                 UploadMultipleImagesArgsSchema;
               tool_entry "describe_image"
                 "Uses a multimodal model to simply describe the image at the specified path."
                 DescribeImageArgsSchema;
               tool_entry "query_image_with_prompt"
                 "Uses a multimodal model to answer a query (prompt) about the image at the specified path."
                 QueryImageWithPromptArgsSchema;
               tool_entry "ocr_image"
                 "Performs Optical Character Recognition (OCR) on the image at the specified path and returns the extracted text."
                 OcrImageArgsSchema])].

(** The (name, schema) pairs of the listed tools. *)
Definition listed (listing : Value) : list (Value * Value) :=
  match get listing "tools" with
  | VArr entries => map (fun e => (get e "name", get e "inputSchema")) entries
  | _ => []
  end.

End Listing.

End ImageServer.

(* ================================================================== *)
(** * inMemoryServers/builder.ts                                       *)
(* ================================================================== *)

Module Builder.
Import Js Protocol Async.

(** The constructor call [getInMemoryServer] makes.  Three of the four
    server classes are outside the sources, so the call is kept as data:
    which class, with which arguments ([None] for an [args[i]] beyond
    the end of [args]). *)
Inductive Construction : Type :=
| NewFileSystemServer (args : list string)
| NewArtifactsServer
| NewBochaSearchServer (env : option (list (string * string)))
| NewImageServer (a0 a1 a2 a3 a4 a5 : option string).

(** [getInMemoryServer(serverName, args, env)] *)
Definition getInMemoryServer (serverName : string) (args : list string)
    (env : option (list (string * string))) : Outcome Construction :=
  if serverName =? "buildInFileSystem" then Returned (NewFileSystemServer args)
  else if serverName =? "Artifacts" then Returned NewArtifactsServer
  else if serverName =? "bochaSearch" then Returned (NewBochaSearchServer env)
  else if serverName =? "imageServer" then
    Returned (NewImageServer (nth_error args 0) (nth_error args 1) (nth_error args 2)
                (nth_error args 3) (nth_error args 4) (nth_error args 5))
  else Thrown (ErrorObject ("Unknown in-memory server: " ++ serverName)).

(** The image server a construction yields when [provider] and [model]
    are present, as their declared type requires: the call passes six
    arguments, so [bucketName] and [publicUrlBase] are [undefined]. *)
Definition image_server_of
    (R2_constructs : string -> string -> string -> option string -> bool)
    (c : Construction) : option ImageServer.ImageServer :=
  match c with
  | NewImageServer (Some provider) (Some model) accountId accessKeyId
      secretAccessKey endpoint =>
      Some (ImageServer.constructor R2_constructs provider model accountId
              accessKeyId secretAccessKey endpoint None None)
  | _ => None
  end.

End Builder.

(* ================================================================== *)
(** * Concrete servers, transports and requests                        *)
(* ================================================================== *)

Module Examples.
Import Js Protocol Async.

(** A request as a client sends it. *)
Definition request (i : Z) (m : string) (p : option Value) : JSONRPCMessage :=
  {| id := Some (IdNumber i); method := Some m; params := p;
     result := None; error := None |}.

(** An object with nothing called yet. *)
Definition at_rest {World T : Type} (w : World) (t : T) : Heap World T :=
  {| this := t; env := {| world := w; calls := [] |} |}.

Definition no_presenters {World : Type} : World -> list (string * DirectServer.PresenterProp) :=
  fun _ => [].

(** [new DirectServer({ info: { name: 'direct-server-example', version: '1.0.0' } })] *)
Definition example_server : DirectServer.DirectServer unit :=
  DirectServer.constructor no_presenters
    {| DirectServer.info := ("direct-server-example", "1.0.0");
       DirectServer.tools := None |}.

Definition call_missing_tool : JSONRPCMessage :=
  request 1 "call_tool"
    (Some (VObj [("name", VStr "no_such_tool");
                 ("arguments", VObj [("numbers", VArr [VNum 1; VNum 2])])])).

Definition call_unknown_method : JSONRPCMessage :=
  request 2 "no_such_method" None.

Definition list_request : JSONRPCMessage := request 3 "list_tools" None.

Definition call_sum : JSONRPCMessage :=
  request 4 "call_tool"
    (Some (VObj [("name", VStr "sum");
                 ("arguments",
                  VObj [("numbers", VArr [VNum 1; VNum 2; VNum 3; VNum 4; VNum 5])])])).

Definition call_sum_without_numbers : JSONRPCMessage :=
  request 5 "call_tool" (Some (VObj [("name", VStr "sum"); ("arguments", VObj [])])).

(** A caller-supplied tool whose schema requires [text]; its handler
    returns its arguments and counts its invocations in the world. *)
Definition echo_schema : Value :=
  VObj [("type", VStr "object");
        ("properties", VObj [("text", VObj [("type", VStr "string")])]);
        ("required", VArr [VStr "text"])].

Definition echo_handler : DirectServer.ToolHandler nat :=
  DirectServer.outside (fun args invocations => (Returned args, S invocations)).

Definition echo_tool : DirectServer.ToolOption nat :=
  {| DirectServer.opt_name := "echo";
     DirectServer.opt_description := "Returns its arguments";
     DirectServer.opt_handler := echo_handler;
     DirectServer.opt_inputSchema := echo_schema |}.

Definition echo_server : DirectServer.DirectServer nat :=
  DirectServer.constructor no_presenters
    {| DirectServer.info := ("echo-server", "1.0.0");
       DirectServer.tools := Some [echo_tool] |}.

Definition call_echo_without_text : JSONRPCMessage :=
  request 6 "call_tool" (Some (VObj [("name", VStr "echo"); ("arguments", VObj [])])).

(** The same name registered twice on a constructed server. *)
Definition greet_v1 : DirectServer.ToolHandler unit :=
  DirectServer.outside (fun _ w => (Returned (VStr "hello from v1"), w)).

Definition greet_v2 : DirectServer.ToolHandler unit :=
  DirectServer.outside (fun _ w => (Returned (VStr "hello from v2"), w)).

Definition greet_schema_v1 : Value :=
  VObj [("type", VStr "object"); ("properties", VObj []); ("required", VArr [])].

Definition greet_schema_v2 : Value :=
  VObj [("type", VStr "object");
        ("properties", VObj [("who", VObj [("type", VStr "string")])]);
        ("required", VArr [VStr "who"])].

Definition greet_once : DirectServer.DirectServer unit :=
  DirectServer.registerTool "greet" "first description" greet_v1 greet_schema_v1
    DirectServer.fields_init.

Definition greet_twice : DirectServer.DirectServer unit :=
  DirectServer.registerTool "greet" "second description" greet_v2 greet_schema_v2
    greet_once.

Definition call_greet : JSONRPCMessage :=
  request 8 "call_tool" (Some (VObj [("name", VStr "greet")])).

(** A tool registered under the name ["42"], and a call that names it
    by the number 42. *)
Definition numbered_server : DirectServer.DirectServer unit :=
  DirectServer.registerTool "42" "The answer" greet_v1 greet_schema_v1
    DirectServer.fields_init.

Definition call_by_number : JSONRPCMessage :=
  request 10 "call_tool" (Some (VObj [("name", VNum 42)])).

(** A tool registered without a description and with a [null] schema. *)
Definition bare_tool : DirectServer.ToolOption unit :=
  {| DirectServer.opt_name := "bare";
     DirectServer.opt_description := EmptyString;
     DirectServer.opt_handler := greet_v1;
     DirectServer.opt_inputSchema := VNull |}.

(** A [presenter] object with one private key, one function-valued
    property and two presenters. *)
Definition some_presenters : unit -> list (string * DirectServer.PresenterProp) :=
  fun _ =>
    [("_internal", DirectServer.Instance (Some "Hidden") (Some 1%nat));
     ("configPresenter", DirectServer.Instance (Some "ConfigPresenter") (Some 12%nat));
     ("init", DirectServer.NotObject);
     ("mcpPresenter", DirectServer.Instance (Some "McpPresenter") (Some 7%nat))].

Definition call_sum_of_words : JSONRPCMessage :=
  request 11 "call_tool"
    (Some (VObj [("name", VStr "sum");
                 ("arguments",
                  VObj [("numbers", VArr [VNum 1; VNum 2; VStr "three"; VStr "four"])])])).

(** A transport whose cleanup callback counts its invocations in the
    world and whose message handler always fails. *)
Definition counting_onClose : External nat unit :=
  fun invocations => (Returned tt, S invocations).

Definition failing_handleMessage : JSONRPCMessage -> External nat JSONRPCMessage :=
  fun _ w => (Thrown (ErrorObject "handler unavailable"), w).

(** [new DirectTransport({ handleMessage, onClose })] *)
Definition fresh_transport : DirectTransport.DirectTransport nat :=
  DirectTransport.constructor
    {| DirectTransport.handleMessage := failing_handleMessage;
       DirectTransport.onClose := Some counting_onClose |}.

(** The same transport after [await transport.start()]. *)
Definition started_transport : DirectTransport.DirectTransport nat :=
  this (snd (DirectTransport.start (at_rest 0%nat fresh_transport))).

(** A file system with two files, an upload service that accepts
    everything and answers with the stored object, and a fixed clock. *)
Definition two_files (path : string) : External unit ImageServer.Buffer :=
  fun w =>
    if path =? "a.png" then (Returned "hi!", w)
    else if path =? "b.png" then (Returned "Man", w)
    else (Thrown (ErrorObject ("ENOENT: no such file or directory, open '"
                                 ++ path ++ "'")), w).

Definition accepting_upload (bucket : string) (buffer : ImageServer.Buffer)
    (key mime : string) : External unit Value :=
  fun w =>
    (Returned (VObj [("objectKey", VStr key);
                     ("uri", VStr ("https://r2.example/" ++ bucket ++ "/" ++ key))]),
     w).

Definition image_server : ImageServer.ImageServer :=
  {| ImageServer.provider := "provider";
     ImageServer.model := "model";
     ImageServer.r2Client := true;
     ImageServer.bucketName := Some "temp";
     ImageServer.publicUrlBase := Some "https://img.example/" |}.

(** A started transport whose cleanup callback throws. *)
Definition throwing_onClose : External nat unit :=
  fun invocations => (Thrown (ErrorObject "cleanup failed"), S invocations).

Definition fragile_transport : DirectTransport.DirectTransport nat :=
  this (snd (DirectTransport.start
               (at_rest 0%nat
                  (DirectTransport.constructor
                     {| DirectTransport.handleMessage := failing_handleMessage;
                        DirectTransport.onClose := Some throwing_onClose |})))).

(** A started transport whose [onerror] throws what it is given. *)
Definition rethrowing_onerror : JsError -> External nat unit :=
  fun e deliveries => (Thrown e, S deliveries).

Definition rethrowing_transport : DirectTransport.DirectTransport nat :=
  {| DirectTransport._options := DirectTransport._options started_transport;
     DirectTransport._emitter := DirectTransport._emitter started_transport;
     DirectTransport._isConnected := DirectTransport._isConnected started_transport;
     DirectTransport.onclose := None;
     DirectTransport.onerror := Some rethrowing_onerror;
     DirectTransport.onmessage := None |}.

(** The example paths have no directory part, end in [.png] and are in
    lower case already. *)
Definition run_image_tool (name : string) (args : Value)
  : Outcome Value * Heap unit ImageServer.ImageServer :=
  ImageServer.callTool two_files accepting_upload (fun _ => 1700000000000%Z)
    (fun path => path) (fun _ => ".png") (fun s => s)
    (fun _ => "Required")
    (fun _ _ _ => throw (ErrorObject "model unavailable"))
    (fun _ _ => throw (ErrorObject "model unavailable"))
    name args (at_rest tt image_server).

(** A started transport whose client assigned [onerror]. *)
Definition counting_onerror : JsError -> External nat unit :=
  fun _ deliveries => (Returned tt, S deliveries).

Definition observed_transport : DirectTransport.DirectTransport nat :=
  {| DirectTransport._options := DirectTransport._options started_transport;
     DirectTransport._emitter := DirectTransport._emitter started_transport;
     DirectTransport._isConnected := DirectTransport._isConnected started_transport;
     DirectTransport.onclose := None;
     DirectTransport.onerror := Some counting_onerror;
     DirectTransport.onmessage := None |}.

(** A started transport over the example server whose client counts
    the messages it receives in nothing but the call record. *)
Definition answering_transport
  : DirectTransport.DirectTransport (Heap unit (DirectServer.DirectServer unit)) :=
  this (snd (DirectTransport.step DirectTransport.CallStart
               (snd (DirectTransport.step
                       (DirectTransport.AssignOnmessage
                          (Some (fun _ server => (Returned tt, server))))
                       (at_rest (at_rest tt example_server)
                          DirectTransport.createDirectTransport))))).

(** A started transport whose handler echoes the message and whose
    [onmessage] throws; its [onerror] counts. *)
Definition echoing_handleMessage : JSONRPCMessage -> External nat JSONRPCMessage :=
  fun message w => (Returned message, w).

Definition choking_transport : DirectTransport.DirectTransport nat :=
  this (DirectTransport.after
          [DirectTransport.AssignOnmessage
             (Some (fun _ w => (Thrown (ThrownValue (VStr "cannot render")), w)));
           DirectTransport.AssignOnerror (Some counting_onerror);
           DirectTransport.CallStart]
          (at_rest 0%nat
             (DirectTransport.constructor
                {| DirectTransport.handleMessage := echoing_handleMessage;
                   DirectTransport.onClose := None |}))).

(** Started transports whose handler echoes the message: one whose
    client counts the messages it receives, one without [onmessage]. *)
Definition relaying_transport : DirectTransport.DirectTransport nat :=
  this (DirectTransport.after
          [DirectTransport.AssignOnmessage (Some (fun _ received => (Returned tt, S received)));
           DirectTransport.CallStart]
          (at_rest 0%nat
             (DirectTransport.constructor
                {| DirectTransport.handleMessage := echoing_handleMessage;
                   DirectTransport.onClose := None |}))).

Definition silent_transport : DirectTransport.DirectTransport nat :=
  this (DirectTransport.after [DirectTransport.CallStart]
          (at_rest 0%nat
             (DirectTransport.constructor
                {| DirectTransport.handleMessage := echoing_handleMessage;
                   DirectTransport.onClose := None |}))).

(** An image server constructed with an account id only, and one
    constructed as the builder does for the arguments of a deployment
    with full credentials. *)
Definition every_R2_constructs : string -> string -> string -> option string -> bool :=
  fun _ _ _ _ => true.

Definition unconfigured_image_server : ImageServer.ImageServer :=
  ImageServer.constructor every_R2_constructs "provider" "model"
    (Some "account") None None None None None.

Definition deployment_args : list string :=
  ["openai"; "gpt-4o"; "account"; "key-id"; "secret";
   "https://account.r2.cloudflarestorage.com"].

Definition built_image_server : ImageServer.ImageServer :=
  ImageServer.constructor every_R2_constructs "openai" "gpt-4o"
    (Some "account") (Some "key-id") (Some "secret")
    (Some "https://account.r2.cloudflarestorage.com") None None.

(** A tool whose handler, when called, registers the tool [greet] on
    the server that stores it. *)
Definition install_handler : DirectServer.ToolHandler unit :=
  DirectServer.Handler
    (fun _ w =>
       (Returned (VStr "installed"), w,
        [DirectServer.CallRegisterTool "greet" "first description" greet_v1
           greet_schema_v1])).

Definition installing_server : DirectServer.DirectServer unit :=
  DirectServer.registerTool "install" "Registers the greet tool" install_handler
    greet_schema_v1 DirectServer.fields_init.

Definition call_install : JSONRPCMessage :=
  request 12 "call_tool" (Some (VObj [("name", VStr "install")])).

(** A tool whose handler empties the array it gets from [server.tools]. *)
Definition forgetting_handler : DirectServer.ToolHandler unit :=
  DirectServer.Handler
    (fun _ w => (Returned (VStr "forgotten"), w, [DirectServer.EditTools (fun _ => [])])).

Definition forgetting_server : DirectServer.DirectServer unit :=
  DirectServer.registerTool "forget" "Empties the tools array" forgetting_handler
    greet_schema_v1 DirectServer.fields_init.

Definition call_forget : JSONRPCMessage :=
  request 14 "call_tool" (Some (VObj [("name", VStr "forget")])).

(** A server over a [presenter] object that gains a property once the
    application has loaded; the world is whether it has. *)
Definition loading_presenters : bool -> list (string * DirectServer.PresenterProp) :=
  fun loaded =>
    if loaded then
      [("configPresenter", DirectServer.Instance (Some "ConfigPresenter") (Some 12%nat))]
    else [].

Definition presenting_server : DirectServer.DirectServer bool :=
  DirectServer.constructor loading_presenters
    {| DirectServer.info := ("direct-server-example", "1.0.0");
       DirectServer.tools := None |}.

Definition call_listPresenters : JSONRPCMessage :=
  request 13 "call_tool" (Some (VObj [("name", VStr "listPresenters")])).

(** An upload service that resolves with [undefined]. *)
Definition mute_upload (bucket : string) (buffer : ImageServer.Buffer)
    (key mime : string) : External unit Value :=
  fun w => (Returned VUndefined, w).

End Examples.

(* ================================================================== *)
(** * Properties of the direct server                                  *)
(* ================================================================== *)

Module DirectServerFacts.
Import Js Protocol Async DirectServer.

Section Facts.
Context {World : Type}.


(** ** Dispatch on the method name *)

Lemma handleRequest_no_method (message : JSONRPCMessage) (h : Heap World (DirectServer World)) :
  method message = None ->
  handleRequest message h
  = (Returned (ErrorResponse (id_or message "error") (-32600) "无效的请求：缺少method"), h).
Proof. intros Hm. unfold handleRequest. rewrite Hm. reflexivity. Qed.

Lemma handleRequest_call_tool (message : JSONRPCMessage) (h : Heap World (DirectServer World)) :
  method message = Some "call_tool" ->
  handleRequest message h = call_tool message h.
Proof. intros Hm. unfold handleRequest. rewrite Hm. reflexivity. Qed.

Lemma handleRequest_list_tools (message : JSONRPCMessage) (h : Heap World (DirectServer World)) :
  method message = Some "list_tools" ->
  handleRequest message h = list_tools message h.
Proof. intros Hm. unfold handleRequest. rewrite Hm. reflexivity. Qed.

Lemma handleRequest_other (message : JSONRPCMessage) (m : string) (h : Heap World (DirectServer World)) :
  method message = Some m -> m <> "call_tool" -> m <> "list_tools" ->
  handleRequest message h
  = (Returned (ErrorResponse (id_or message "error") (-32601) ("方法不存在: " ++ m)), h).
Proof.
  intros Hm Hc Hl. unfold handleRequest. rewrite Hm.
  change (@_messageHandlers World)
    with [("call_tool", @call_tool World); ("list_tools", @list_tools World)].
  cbn [assoc].
  destruct (String.eqb_spec "call_tool" m) as [E | _]; [congruence |].
  destruct (String.eqb_spec "list_tools" m) as [E | _]; [congruence |].
  reflexivity.
Qed.

(** The four ways a request is answered. *)
Inductive Dispatch (message : JSONRPCMessage) : Prop :=
| NoMethod : method message = None -> Dispatch message
| ToCallTool : method message = Some "call_tool" -> Dispatch message
| ToListTools : method message = Some "list_tools" -> Dispatch message
| Unknown (m : string) :
    method message = Some m -> m <> "call_tool" -> m <> "list_tools" ->
    Dispatch message.

Lemma dispatch_cases (message : JSONRPCMessage) : Dispatch message.
Proof.
  destruct (method message) as [m |] eqn:Hm; [| now apply NoMethod].
  destruct (String.eqb_spec m "call_tool") as [-> | Hc]; [now apply ToCallTool |].
  destruct (String.eqb_spec m "list_tools") as [-> | Hl]; [now apply ToListTools |].
  now apply (Unknown message m).
Qed.

(** ** What [call_tool] returns *)

Lemma call_tool_no_params (message : JSONRPCMessage) (h : Heap World (DirectServer World)) :
  params message = None ->
  call_tool message h
  = (Returned (ErrorResponse (id_or message "null") (-32600) "无效的请求"), h).
Proof.
  intros Hp. unfold call_tool. rewrite Hp. now destruct (method message).
Qed.

Lemma call_tool_missing (message : JSONRPCMessage) (p : Value) (h : Heap World (DirectServer World)) :
  method message = Some "call_tool" ->
  params message = Some p ->
  Map_get (_toolHandlers (this h)) (requested_name p) = None ->
  call_tool message h
  = (Returned (ErrorResponse (id_or message "error") (-32000)
                 ("工具不存在: " ++ toString (requested_name p))), h).
Proof.
  intros Hm Hp Hget. unfold call_tool. rewrite Hm, Hp.
  unfold try_catch, bind, get_this. fold (requested_name p).
  rewrite Hget. reflexivity.
Qed.

Lemma call_tool_found (message : JSONRPCMessage) (p : Value)
    (handler : ToolHandler World) (h : Heap World (DirectServer World)) :
  method message = Some "call_tool" ->
  params message = Some p ->
  Map_get (_toolHandlers (this h)) (requested_name p) = Some handler ->
  call_tool message h
  = (Returned (tool_reply message
                 (fst (invoke handler (requested_arguments p) (world (env h))))),
     {| this := act (actions handler (requested_arguments p) (world (env h))) (this h);
        env := {| world := snd (invoke handler (requested_arguments p) (world (env h)));
                  calls := calls (env h)
                             ++ [ToolHandlerCall (toString (requested_name p))
                                   (requested_arguments p)] |} |}).
Proof.
  intros Hm Hp Hget. unfold call_tool. rewrite Hm, Hp.
  unfold try_catch, bind, get_this. fold (requested_name p).
  rewrite Hget. fold (requested_arguments p). unfold await_handler.
  destruct (fst (invoke handler (requested_arguments p) (world (env h))))
    as [result | e]; reflexivity.
Qed.

(** ** The tool handler a request reaches *)

Lemma dispatched_call_tool (message : JSONRPCMessage) (p : Value) (s : DirectServer World) :
  method message = Some "call_tool" ->
  params message = Some p ->
  dispatched message s = Map_get (_toolHandlers s) (requested_name p).
Proof. intros Hm Hp. unfold dispatched. now rewrite Hm, Hp. Qed.

Lemma dispatched_no_params (message : JSONRPCMessage) (s : DirectServer World) :
  params message = None -> dispatched message s = None.
Proof. intros Hp. unfold dispatched. rewrite Hp. now destruct (method message). Qed.

Lemma dispatched_other_method (message : JSONRPCMessage) (s : DirectServer World) :
  method message <> Some "call_tool" -> dispatched message s = None.
Proof.
  intros Hm. unfold dispatched. destruct (method message) as [m |]; [| reflexivity].
  destruct (params message); [| reflexivity].
  destruct (String.eqb_spec m "call_tool") as [-> | _]; [now elim Hm | reflexivity].
Qed.

Lemma performed_nothing (message : JSONRPCMessage) (h : Heap World (DirectServer World)) :
  dispatched message (this h) = None -> performed message h = [].
Proof. intros Hd. unfold performed. now rewrite Hd. Qed.

Lemma performed_by (message : JSONRPCMessage) (p : Value) (handler : ToolHandler World)
    (h : Heap World (DirectServer World)) :
  method message = Some "call_tool" ->
  params message = Some p ->
  Map_get (_toolHandlers (this h)) (requested_name p) = Some handler ->
  performed message h = actions handler (requested_arguments p) (world (env h)).
Proof.
  intros Hm Hp Hget. unfold performed.
  now rewrite (dispatched_call_tool _ _ _ Hm Hp), Hget, Hp.
Qed.

Lemma list_tools_returns (message : JSONRPCMessage) (m : string) (h : Heap World (DirectServer World)) :
  method message = Some m ->
  list_tools message h
  = (Returned (Response (id_or message "list_tools")
                 (VObj [("tools",
                         VArr (map (describe (this h))
                                   (Map_keys (_toolHandlers (this h)))))])), h).
Proof. intros Hm. unfold list_tools. rewrite Hm. reflexivity. Qed.

Lemma id_or_present (message : JSONRPCMessage) (i : RequestId) (fallback : string) :
  id message = Some i -> id_or message fallback = i.
Proof. intros Hi. unfold id_or. now rewrite Hi. Qed.

Lemma tool_reply_terminal (message : JSONRPCMessage) (o : Outcome Value) (i : RequestId) :
  id message = Some i ->
  id (tool_reply message o) = Some i /\ isTerminal (tool_reply message o) = true.
Proof.
  intros Hi. destruct o; cbn; rewrite (id_or_present _ _ _ Hi); now split.
Qed.

(** Closes a goal about a reply whose id is [id_or message _]. *)
Ltac replied :=
  do 2 eexists;
  split; [reflexivity |];
  split; [intros ?; first [reflexivity | congruence] |];
  let i := fresh "i" in
  let Hi := fresh "Hi" in
  intros i Hi; cbn; rewrite (id_or_present _ _ _ Hi); now split.

(** Every request is answered by a returned message, never by a throw. *)
Lemma handleRequest_answers (message : JSONRPCMessage) (h : Heap World (DirectServer World)) :
  exists response h',
    handleRequest message h = (Returned response, h')
    /\ (method message <> Some "call_tool" -> h' = h)
    /\ (forall i, id message = Some i ->
         id response = Some i /\ isTerminal response = true).
Proof.
  destruct (dispatch_cases message) as [Hm | Hm | Hm | m Hm Hc Hl].
  - rewrite (handleRequest_no_method _ _ Hm). replied.
  - rewrite (handleRequest_call_tool _ _ Hm).
    destruct (params message) as [p |] eqn:Hp.
    + destruct (Map_get (_toolHandlers (this h)) (requested_name p))
        as [handler |] eqn:Hget.
      * rewrite (call_tool_found _ _ _ _ Hm Hp Hget). do 2 eexists.
        split; [reflexivity |].
        split; [congruence |]. intros i Hi. now apply tool_reply_terminal.
      * rewrite (call_tool_missing _ _ _ Hm Hp Hget). replied.
    + rewrite (call_tool_no_params _ _ Hp). replied.
  - rewrite (handleRequest_list_tools _ _ Hm), (list_tools_returns _ _ _ Hm).
    replied.
  - rewrite (handleRequest_other _ _ _ Hm Hc Hl). replied.
Qed.

(** A request that reaches no tool handler changes nothing, and its
    reply does not depend on the environment. *)
Lemma handleRequest_without_handler (message : JSONRPCMessage)
    (h : Heap World (DirectServer World)) :
  dispatched message (this h) = None ->
  snd (handleRequest message h) = h
  /\ forall e' : Env World,
       fst (handleRequest message {| this := this h; env := e' |})
       = fst (handleRequest message h).
Proof.
  intros Hd.
  destruct (dispatch_cases message) as [Hm | Hm | Hm | m Hm Hc Hl].
  - split; [| intros e']; now rewrite !(handleRequest_no_method _ _ Hm).
  - destruct (params message) as [p |] eqn:Hp.
    + rewrite (dispatched_call_tool _ _ _ Hm Hp) in Hd.
      split; [| intros e']; rewrite !(handleRequest_call_tool _ _ Hm).
      * now rewrite (call_tool_missing _ _ h Hm Hp Hd).
      * rewrite (call_tool_missing _ _ h Hm Hp Hd).
        now rewrite (call_tool_missing message p {| this := this h; env := e' |} Hm Hp Hd).
    + split; [| intros e']; rewrite !(handleRequest_call_tool _ _ Hm);
        now rewrite !(call_tool_no_params _ _ Hp).
  - split; [| intros e']; rewrite !(handleRequest_list_tools _ _ Hm);
      now rewrite !(list_tools_returns _ _ _ Hm).
  - split; [| intros e']; now rewrite !(handleRequest_other _ _ _ Hm Hc Hl).
Qed.

(** The server after a request is the server before it with what the
    tool handler did applied. *)
Lemma handleRequest_this (message : JSONRPCMessage) (h : Heap World (DirectServer World)) :
  this (snd (handleRequest message h)) = act (performed message h) (this h).
Proof.
  destruct (dispatched message (this h)) as [handler |] eqn:Hd.
  - destruct (dispatch_cases message) as [Hm | Hm | Hm | m Hm Hc Hl];
      try (rewrite dispatched_other_method in Hd by congruence; discriminate Hd).
    destruct (params message) as [p |] eqn:Hp;
      [| rewrite (dispatched_no_params _ _ Hp) in Hd; discriminate Hd].
    rewrite (dispatched_call_tool _ _ _ Hm Hp) in Hd.
    rewrite (handleRequest_call_tool _ _ Hm), (call_tool_found _ _ _ _ Hm Hp Hd).
    now rewrite (performed_by _ _ _ _ Hm Hp Hd).
  - rewrite (performed_nothing _ _ Hd).
    now rewrite (proj1 (handleRequest_without_handler _ _ Hd)).
Qed.

(** The reply depends on the heap only through the server's fields and
    the world its handlers run in. *)
Lemma handleRequest_deterministic (message : JSONRPCMessage)
    (h1 h2 : Heap World (DirectServer World)) :
  this h1 = this h2 -> world (env h1) = world (env h2) ->
  fst (handleRequest message h1) = fst (handleRequest message h2).
Proof.
  intros Ht Hw.
  destruct (dispatch_cases message) as [Hm | Hm | Hm | m Hm Hc Hl].
  - now rewrite !(handleRequest_no_method _ _ Hm).
  - rewrite !(handleRequest_call_tool _ _ Hm).
    destruct (params message) as [p |] eqn:Hp.
    + destruct (Map_get (_toolHandlers (this h1)) (requested_name p))
        as [handler |] eqn:Hget.
      * rewrite (call_tool_found _ _ _ h1 Hm Hp Hget).
        rewrite Ht in Hget. rewrite (call_tool_found _ _ _ h2 Hm Hp Hget).
        cbn [fst]. now rewrite Hw.
      * rewrite (call_tool_missing _ _ h1 Hm Hp Hget).
        rewrite Ht in Hget. now rewrite (call_tool_missing _ _ h2 Hm Hp Hget).
    + now rewrite !(call_tool_no_params _ _ Hp).
  - rewrite !(handleRequest_list_tools _ _ Hm), !(list_tools_returns _ _ _ Hm).
    cbn [fst]. now rewrite Ht.
  - now rewrite !(handleRequest_other _ _ _ Hm Hc Hl).
Qed.

(** ** The handler map *)

Lemma assoc_set_same {A : Type} (k : string) (v : A) (m : list (string * A)) :
  assoc k (Map_set k v m) = Some v.
Proof.
  induction m as [| [k' v'] m IH]; cbn.
  - now rewrite String.eqb_refl.
  - destruct (String.eqb_spec k' k) as [-> | Hne]; cbn.
    + now rewrite String.eqb_refl.
    + destruct (String.eqb_spec k' k); [contradiction | exact IH].
Qed.

Lemma assoc_set_other {A : Type} (k k' : string) (v : A) (m : list (string * A)) :
  k <> k' -> assoc k' (Map_set k v m) = assoc k' m.
Proof.
  intros Hne. induction m as [| [k0 v0] m IH]; cbn.
  - destruct (String.eqb_spec k k'); [contradiction | reflexivity].
  - destruct (String.eqb_spec k0 k) as [-> | Hk]; cbn.
    + destruct (String.eqb_spec k k'); [contradiction | reflexivity].
    + now rewrite IH.
Qed.

Lemma Map_keys_set {A : Type} (k : string) (v : A) (m : list (string * A)) :
  Map_keys (Map_set k v m)
  = if mem k (Map_keys m) then Map_keys m else (Map_keys m ++ [k])%list.
Proof.
  unfold Map_keys, mem. induction m as [| [k' v'] m IH]; cbn; [reflexivity |].
  rewrite (String.eqb_sym k k').
  destruct (String.eqb_spec k' k) as [-> | Hne]; cbn; [reflexivity |].
  rewrite IH. now destruct (existsb (String.eqb k) (map fst m)).
Qed.

Lemma mem_In (k : string) (l : list string) : mem k l = true <-> In k l.
Proof.
  unfold mem. rewrite existsb_exists. split.
  - intros [x [Hin Heq]]. apply String.eqb_eq in Heq. now subst.
  - intros Hin. exists k. split; [exact Hin | apply String.eqb_refl].
Qed.

Lemma In_keys_set {A : Type} (k : string) (v : A) (m : list (string * A)) :
  In k (Map_keys (Map_set k v m)).
Proof.
  rewrite Map_keys_set. destruct (mem k (Map_keys m)) eqn:E.
  - now apply mem_In.
  - apply in_or_app. right. now left.
Qed.

Lemma In_keys_set_other {A : Type} (k k' : string) (v : A) (m : list (string * A)) :
  In k' (Map_keys m) -> In k' (Map_keys (Map_set k v m)).
Proof.
  intros Hin. rewrite Map_keys_set. destruct (mem k (Map_keys m)); [exact Hin |].
  apply in_or_app. now left.
Qed.

(** ** Names in registration order *)

Lemma filter_filter {A : Type} (p q : A -> bool) (l : list A) :
  filter p (filter q l) = filter (fun x => q x && p x) l.
Proof.
  induction l as [| x l IH]; cbn; [reflexivity |].
  destruct (q x); cbn; [destruct (p x) |]; now rewrite IH.
Qed.

Lemma first_occurrences_In (l : list string) (x : string) :
  In x (first_occurrences l) <-> In x l.
Proof.
  induction l as [| n l IH]; cbn; [tauto |].
  rewrite filter_In, IH. split.
  - intros [-> | [Hin _]]; tauto.
  - intros [-> | Hin]; [now left |].
    destruct (String.eqb_spec x n) as [-> | Hne]; [now left | right].
    split; [exact Hin | reflexivity].
Qed.

Lemma first_occurrences_NoDup (l : list string) : NoDup (first_occurrences l).
Proof.
  induction l as [| n l IH]; cbn; constructor.
  - rewrite filter_In. intros [_ Hneq]. now rewrite String.eqb_refl in Hneq.
  - now apply NoDup_filter.
Qed.

Lemma first_occurrences_distinct (l : list string) :
  NoDup l -> first_occurrences l = l.
Proof.
  induction 1 as [| n l Hnotin Hnd IH]; cbn; [reflexivity |].
  rewrite IH. f_equal. apply forallb_filter_id, forallb_forall.
  intros x Hx. destruct (String.eqb_spec x n) as [-> | _]; [contradiction | reflexivity].
Qed.

Lemma keys_registerOption (s : DirectServer World) (tool : ToolOption World) :
  Map_keys (_toolHandlers (registerOption s tool))
  = if mem (opt_name tool) (Map_keys (_toolHandlers s))
    then Map_keys (_toolHandlers s)
    else (Map_keys (_toolHandlers s) ++ [opt_name tool])%list.
Proof. unfold registerOption, registerTool. cbn. apply Map_keys_set. Qed.

Lemma keys_after_registrations (registrations : list (ToolOption World))
    (s : DirectServer World) :
  Map_keys (_toolHandlers (fold_left registerOption registrations s))
  = (Map_keys (_toolHandlers s)
      ++ filter (fun n => negb (mem n (Map_keys (_toolHandlers s))))
                (first_occurrences (map opt_name registrations)))%list.
Proof.
  revert s. induction registrations as [| tool rest IH]; intros s; cbn.
  - now rewrite app_nil_r.
  - rewrite IH, keys_registerOption.
    set (K := Map_keys (_toolHandlers s)). set (n := opt_name tool).
    rewrite filter_filter.
    destruct (mem n K) eqn:Hn; cbn.
    + f_equal. apply filter_ext_in. intros x _.
      destruct (String.eqb_spec x n) as [-> | _]; cbn; [now rewrite Hn | reflexivity].
    + rewrite <- app_assoc. cbn. do 2 f_equal. apply filter_ext.
      intros x. unfold mem. rewrite existsb_app. cbn.
      rewrite orb_false_r, negb_orb. apply andb_comm.
Qed.

Lemma keys_registered (registrations : list (ToolOption World)) :
  Map_keys (_toolHandlers (registered registrations))
  = first_occurrences (map opt_name registrations).
Proof.
  unfold registered. rewrite keys_after_registrations. cbn.
  apply forallb_filter_id, forallb_forall. reflexivity.
Qed.

Lemma names_of_describe (s : DirectServer World) (names : list string) :
  names_of (map (describe s) names) = map VStr names.
Proof.
  unfold names_of. rewrite map_map. apply map_ext. reflexivity.
Qed.

(** ** Construction *)

Variable presenter : World -> list (string * PresenterProp).

Lemma constructor_registers (options : DirectServerOptions World) :
  constructor presenter options
  = registerBuiltinTools presenter (registered (tools_of options)).
Proof.
  unfold constructor, registered, tools_of.
  destruct (tools options) as [[| tool more] |]; reflexivity.
Qed.

Lemma tools_after_registrations (registrations : list (ToolOption World))
    (s : DirectServer World) :
  _tools (fold_left registerOption registrations s)
  = (_tools s ++ map info_of registrations)%list.
Proof.
  revert s. induction registrations as [| tool rest IH]; intros s; cbn.
  - now rewrite app_nil_r.
  - rewrite IH. cbn. now rewrite <- app_assoc.
Qed.

Lemma registerBuiltinTools_as_registrations (s : DirectServer World) :
  registerBuiltinTools presenter s
  = fold_left registerOption (builtin_tools presenter) s.
Proof. reflexivity. Qed.

Lemma constructor_registered (options : DirectServerOptions World) :
  constructor presenter options
  = registered (tools_of options ++ builtin_tools presenter).
Proof.
  rewrite constructor_registers, registerBuiltinTools_as_registrations.
  unfold registered. now rewrite fold_left_app.
Qed.

(** On a server constructed without caller tools every request reaches
    a built-in handler or none, and those leave the server alone. *)
Lemma builtin_tools_perform_nothing (server_info : string * string)
    (message : JSONRPCMessage) (h : Heap World (DirectServer World)) :
  this h = constructor presenter {| info := server_info; tools := None |} ->
  performed message h = [].
Proof.
  intros Hthis. unfold performed, dispatched. rewrite Hthis.
  destruct (method message) as [m |]; [| reflexivity].
  destruct (params message) as [p |]; [| reflexivity].
  destruct (m =? "call_tool"); [| reflexivity].
  destruct (requested_name p) as [| | b | n | s | items | props]; try reflexivity.
  change (_toolHandlers (constructor presenter {| info := server_info; tools := None |}))
    with [("sum", @sum_handler World);
          ("listPresenters", listPresenters_handler presenter)].
  cbn [Map_get assoc].
  destruct ("sum" =? s); [reflexivity |].
  destruct ("listPresenters" =? s); reflexivity.
Qed.

Lemma find_app_found {A : Type} (p : A -> bool) (l l' : list A) (a : A) :
  find p l = Some a -> find p (l ++ l') = Some a.
Proof.
  induction l as [| x l IH]; cbn; [discriminate |].
  now destruct (p x).
Qed.

(** Registering a name again does not change what [list_tools] reports
    for a name that already has a stored descriptor. *)
Lemma describe_after_registerTool (s : DirectServer World) (n n' d' : string)
    (h' : ToolHandler World) (schema' : Value) (t : ToolInfo) :
  find (named n) (_tools s) = Some t ->
  describe (registerTool n' d' h' schema' s) n = describe s n.
Proof.
  intros Hfind. unfold describe, registerTool. cbn [_tools].
  now rewrite (find_app_found _ _ _ _ Hfind), Hfind.
Qed.

End Facts.
End DirectServerFacts.

Module DirectServerClaims.
Import Js Protocol Async DirectServer DirectServerFacts Examples.

(** C1, as stated, fails.  On the example server the tool
    [no_such_tool] is not registered; the call is answered with code
    -32000, whereas an unknown method is answered with code -32601. *)
Lemma C1_unknown_tool_code_differs_from_unknown_method :
  Map_get (_toolHandlers example_server) (VStr "no_such_tool") = None
  /\ fst (handleRequest call_missing_tool (at_rest tt example_server))
     = Returned (ErrorResponse (IdNumber 1) (-32000) "工具不存在: no_such_tool")
  /\ fst (handleRequest call_unknown_method (at_rest tt example_server))
     = Returned (ErrorResponse (IdNumber 2) MethodNotFound "方法不存在: no_such_method")
  /\ (-32000)%Z <> MethodNotFound.
Proof. repeat split; try reflexivity. discriminate. Qed.

(** C1, amended.  A [call_tool] request that carries [params] and whose
    name is not a key of the handler map is answered, whatever the
    arguments, by the error message with the generic tool-failure code
    -32000 and the text "工具不存在: " followed by the name; the code
    differs from the one for an unknown method, and nothing changes. *)
Theorem C1_unknown_tool_generic_error :
  forall (World : Type) (message : JSONRPCMessage) (p : Value)
         (h : Heap World (DirectServer World)),
    method message = Some "call_tool" ->
    params message = Some p ->
    Map_get (_toolHandlers (this h)) (requested_name p) = None ->
    handleRequest message h
    = (Returned (ErrorResponse (id_or message "error") ToolCallFailed
                   ("工具不存在: " ++ toString (requested_name p))), h)
    /\ ToolCallFailed <> MethodNotFound.
Proof.
  intros World message p h Hm Hp Hget. split; [| discriminate].
  rewrite (handleRequest_call_tool _ _ Hm).
  exact (call_tool_missing _ _ _ Hm Hp Hget).
Qed.

(** C1 on the example server. *)
Lemma C1_unknown_tool_generic_error_witness :
  handleRequest call_missing_tool (at_rest tt example_server)
  = (Returned (ErrorResponse (IdNumber 1) ToolCallFailed "工具不存在: no_such_tool"),
     at_rest tt example_server)
  /\ ToolCallFailed <> MethodNotFound.
Proof.
  exact (C1_unknown_tool_generic_error unit call_missing_tool
           (VObj [("name", VStr "no_such_tool");
                  ("arguments", VObj [("numbers", VArr [VNum 1; VNum 2])])])
           (at_rest tt example_server) eq_refl eq_refl eq_refl).
Defined.

(** C2, as stated, fails.  The schema of [echo] requires [text] and the
    arguments omit it, yet the reply is a result, not an error, and the
    handler has run once: the world counts one invocation and the call
    is on record. *)
Lemma C2_required_field_is_not_checked :
  get echo_schema "required" = VArr [VStr "text"]
  /\ find (named "echo") (_tools echo_server)
     = Some {| name := "echo"; description := "Returns its arguments";
               inputSchema := echo_schema |}
  /\ get (requested_arguments (VObj [("name", VStr "echo"); ("arguments", VObj [])])) "text"
     = VUndefined
  /\ handleRequest call_echo_without_text (at_rest 0%nat echo_server)
     = (Returned (Response (IdNumber 6)
                    (VObj [("content",
                            VArr [VObj [("type", VStr "text");
                                        ("text", VStr "{}")]])])),
        {| this := echo_server;
           env := {| world := 1%nat;
                     calls := [ToolHandlerCall "echo" (VObj [])] |} |}).
Proof. repeat split; reflexivity. Qed.

(** The built-in [sum] tool without its required [numbers]: the handler
    runs and its own complaint comes back under the generic code. *)
Example sum_without_numbers :
  handleRequest call_sum_without_numbers (at_rest tt example_server)
  = (Returned (ErrorResponse (IdNumber 5) (-32000) "参数必须是一个数字数组"),
     {| this := example_server;
        env := {| world := tt; calls := [ToolHandlerCall "sum" (VObj [])] |} |}).
Proof. reflexivity. Qed.

Example sum_of_one_to_five :
  fst (handleRequest call_sum (at_rest tt example_server))
  = Returned (Response (IdNumber 4)
                (VObj [("content",
                        VArr [VObj [("type", VStr "text");
                                    ("text", VStr ("{" ++ quote "sum" ++ ":15}"))]])])).
Proof. reflexivity. Qed.

(** C2, amended.  A [call_tool] request naming a registered tool is not
    validated against the tool's input schema: whatever the schema and
    the arguments, the handler is invoked once with the arguments as
    supplied ([{}] when absent); the reply is a result wrapping what the
    handler returned or, if it threw, an error with code -32000 and the
    handler's message.  The server is left as the handler left it.  The
    stored schemas play no part in the reply. *)
Theorem C2_registered_tool_runs_unvalidated :
  forall (World : Type) (message : JSONRPCMessage) (p : Value)
         (handler : ToolHandler World) (h : Heap World (DirectServer World)),
    method message = Some "call_tool" ->
    params message = Some p ->
    Map_get (_toolHandlers (this h)) (requested_name p) = Some handler ->
    handleRequest message h
    = (Returned (tool_reply message
                   (fst (invoke handler (requested_arguments p) (world (env h))))),
       {| this := act (actions handler (requested_arguments p) (world (env h))) (this h);
          env := {| world := snd (invoke handler (requested_arguments p) (world (env h)));
                    calls := calls (env h)
                               ++ [ToolHandlerCall (toString (requested_name p))
                                     (requested_arguments p)] |} |})
    /\ forall infos : list ToolInfo,
         fst (handleRequest message
                {| this := {| _toolHandlers := _toolHandlers (this h);
                              _tools := infos |};
                   env := env h |})
         = fst (handleRequest message h).
Proof.
  intros World message p handler h Hm Hp Hget. split.
  - rewrite (handleRequest_call_tool _ _ Hm).
    exact (call_tool_found _ _ _ _ Hm Hp Hget).
  - intros infos. rewrite !(handleRequest_call_tool _ _ Hm).
    rewrite (call_tool_found _ _ _ h Hm Hp Hget).
    now rewrite (call_tool_found message p handler
                   {| this := {| _toolHandlers := _toolHandlers (this h);
                                 _tools := infos |};
                      env := env h |} Hm Hp Hget).
Qed.

(** C2 on the server with the [echo] tool. *)
Lemma C2_registered_tool_runs_unvalidated_witness :
  handleRequest call_echo_without_text (at_rest 0%nat echo_server)
  = (Returned (tool_reply call_echo_without_text (Returned (VObj []))),
     {| this := echo_server;
        env := {| world := 1%nat;
                  calls := [ToolHandlerCall "echo" (VObj [])] |} |})
  /\ forall infos : list ToolInfo,
       fst (handleRequest call_echo_without_text
              {| this := {| _toolHandlers := _toolHandlers echo_server;
                            _tools := infos |};
                 env := {| world := 0%nat; calls := [] |} |})
       = fst (handleRequest call_echo_without_text (at_rest 0%nat echo_server)).
Proof.
  exact (C2_registered_tool_runs_unvalidated nat call_echo_without_text
           (VObj [("name", VStr "echo"); ("arguments", VObj [])])
           echo_handler (at_rest 0%nat echo_server) eq_refl eq_refl eq_refl).
Defined.

(** C3.  A request that carries an id is answered by exactly one
    message, returned and not thrown, which carries that same id and is
    terminal: it has either a result or an error, not both.  This holds
    for [list_tools], for [call_tool] whether the tool succeeds, fails
    or is missing, and for any other method. *)
Theorem C3_reply_carries_request_id :
  forall (World : Type) (message : JSONRPCMessage) (i : RequestId)
         (h : Heap World (DirectServer World)),
    id message = Some i ->
    exists (response : JSONRPCMessage) (h' : Heap World (DirectServer World)),
      handleRequest message h = (Returned response, h')
      /\ id response = Some i
      /\ isTerminal response = true.
Proof.
  intros World message i h Hi.
  destruct (handleRequest_answers message h) as (response & h' & Hrun & _ & Hid).
  exists response, h'. split; [exact Hrun |]. now apply Hid.
Qed.

(** C3 on a [sum] call with id 4. *)
Lemma C3_reply_carries_request_id_witness :
  exists (response : JSONRPCMessage) (h' : Heap unit (DirectServer unit)),
    handleRequest call_sum (at_rest tt example_server) = (Returned response, h')
    /\ id response = Some (IdNumber 4)
    /\ isTerminal response = true.
Proof.
  exact (C3_reply_carries_request_id unit call_sum (IdNumber 4)
           (at_rest tt example_server) eq_refl).
Defined.

(** C9, as stated, fails, in both of its parts.  The tool [install]
    registers the tool [greet] when it is called: handling that one
    [call_tool] request adds a key to the handler map and an entry to
    the stored descriptors.  And on one server, with one registry, the
    same [listPresenters] request is answered differently before and
    after the global presenter object gained a property. *)
Lemma C9_tool_handler_changes_registry_and_reply_follows_world :
  Map_keys (_toolHandlers installing_server) = ["install"]
  /\ Map_keys (_toolHandlers
                 (this (snd (handleRequest call_install (at_rest tt installing_server)))))
     = ["install"; "greet"]
  /\ _tools (this (snd (handleRequest call_install (at_rest tt installing_server))))
     = (_tools installing_server
          ++ [{| name := "greet"; description := "first description";
                 inputSchema := greet_schema_v1 |}])%list
  /\ this (at_rest true presenting_server) = this (at_rest false presenting_server)
  /\ fst (handleRequest call_listPresenters (at_rest false presenting_server))
     = Returned (tool_reply call_listPresenters
                   (Returned (VObj [("presenters", VArr [])])))
  /\ fst (handleRequest call_listPresenters (at_rest true presenting_server))
     = Returned (tool_reply call_listPresenters
                   (Returned
                      (VObj [("presenters",
                              VArr [VObj [("name", VStr "configPresenter");
                                          ("type", VStr "ConfigPresenter");
                                          ("methodCount", VNum 12)]])])))
  /\ fst (handleRequest call_listPresenters (at_rest true presenting_server))
     <> fst (handleRequest call_listPresenters (at_rest false presenting_server)).
Proof.
  repeat split; try reflexivity.
  intros H. vm_compute in H. discriminate H.
Qed.

(** C9, amended.  [handleRequest] and the two message handlers never
    write the registry themselves.  A request that reaches no tool
    handler (no method, another method, [list_tools], [call_tool]
    without params or for a name that is not registered) leaves the
    server and its environment exactly as they were, and its reply is a
    function of the registry and the request alone.  A [call_tool] that
    reaches a tool handler leaves the registry as that handler left it:
    changed by the handler's own [registerTool] calls and edits of the
    [tools] array, and not at all when the handler made none, as on a
    server that holds the two built-in tools only.  Its reply depends on
    the registry, the request and the world the handler consults. *)
Theorem C9_registry_changes_only_through_tool_handler :
  forall (World : Type) (message : JSONRPCMessage)
         (h : Heap World (DirectServer World)),
    this (snd (handleRequest message h)) = act (performed message h) (this h)
    /\ (performed message h = [] -> this (snd (handleRequest message h)) = this h)
    /\ (dispatched message (this h) = None ->
        snd (handleRequest message h) = h
        /\ forall e' : Env World,
             fst (handleRequest message {| this := this h; env := e' |})
             = fst (handleRequest message h))
    /\ (forall (presenter : World -> list (string * PresenterProp))
               (server_info : string * string),
          this h = constructor presenter {| info := server_info; tools := None |} ->
          this (snd (handleRequest message h)) = this h)
    /\ (forall h2 : Heap World (DirectServer World),
          this h2 = this h -> world (env h2) = world (env h) ->
          fst (handleRequest message h2) = fst (handleRequest message h)).
Proof.
  intros World message h.
  split; [apply handleRequest_this |].
  split; [intros Hnone; now rewrite handleRequest_this, Hnone |].
  split; [apply handleRequest_without_handler |].
  split; [| intros h2 Ht Hw; now apply handleRequest_deterministic].
  intros presenter server_info Hthis.
  rewrite handleRequest_this, (builtin_tools_perform_nothing presenter server_info);
    [reflexivity | exact Hthis].
Qed.

(** C9 on the server whose [install] tool registers [greet], on the
    server whose [forget] tool empties the [tools] array, on a [sum]
    call and on a listing of the example server. *)
Lemma C9_registry_changes_only_through_tool_handler_witness :
  this (snd (handleRequest call_install (at_rest tt installing_server)))
  = registerTool "greet" "first description" greet_v1 greet_schema_v1 installing_server
  /\ _tools (this (snd (handleRequest call_forget (at_rest tt forgetting_server)))) = []
  /\ this (snd (handleRequest call_sum (at_rest tt example_server))) = example_server
  /\ snd (handleRequest list_request (at_rest tt example_server))
     = at_rest tt example_server.
Proof.
  split; [| split; [| split]].
  - exact (proj1 (C9_registry_changes_only_through_tool_handler unit call_install
                    (at_rest tt installing_server))).
  - exact (f_equal _tools
             (proj1 (C9_registry_changes_only_through_tool_handler unit call_forget
                       (at_rest tt forgetting_server)))).
  - exact (proj1 (proj2 (proj2 (proj2
             (C9_registry_changes_only_through_tool_handler unit call_sum
                (at_rest tt example_server)))))
             no_presenters ("direct-server-example", "1.0.0") eq_refl).
  - exact (proj1 (proj1 (proj2 (proj2
             (C9_registry_changes_only_through_tool_handler unit list_request
                (at_rest tt example_server)))) eq_refl)).
Defined.

(** After the [forget] tool has emptied the [tools] array, its own
    name is still listed, with the description made up from the name. *)
Example listing_after_tools_array_emptied :
  fst (handleRequest list_request
         (snd (handleRequest call_forget (at_rest tt forgetting_server))))
  = Returned (Response (IdNumber 3)
                (VObj [("tools",
                        VArr [VObj [("name", VStr "forget");
                                    ("description", VStr "工具 forget");
                                    ("inputSchema",
                                     VObj [("type", VStr "object");
                                           ("properties", VObj []);
                                           ("required", VArr [])])]])])).
Proof. reflexivity. Qed.

(** C4.  Registering a second tool under a name raises nothing and the
    next [call_tool] runs the second handler, but [list_tools] still
    reports the first description and the first input schema: the
    descriptor array keeps both entries and is searched from the front. *)
Lemma C4_reregistration_lists_first_descriptor :
  _tools greet_twice
  = [{| name := "greet"; description := "first description";
        inputSchema := greet_schema_v1 |};
     {| name := "greet"; description := "second description";
        inputSchema := greet_schema_v2 |}]
  /\ fst (handleRequest call_greet (at_rest tt greet_twice))
     = Returned (Response (IdNumber 8)
                   (VObj [("content",
                           VArr [VObj [("type", VStr "text");
                                       ("text", VStr (quote "hello from v2"))]])]))
  /\ fst (handleRequest list_request (at_rest tt greet_twice))
     = Returned (Response (IdNumber 3)
                   (VObj [("tools",
                           VArr [VObj [("name", VStr "greet");
                                       ("description", VStr "first description");
                                       ("inputSchema", greet_schema_v1)]])])).
Proof. repeat split; reflexivity. Qed.

(** C5.  After any sequence of registrations, [list_tools] is answered
    by a result, never an error, whose [tools] array has one descriptor
    per registered name, the names in the order of their first
    registration; the server is unchanged, so a second [list_tools]
    gets the same answer; with no registration the array is empty. *)
Theorem C5_list_tools_registration_order :
  forall (World : Type) (registrations : list (ToolOption World))
         (message : JSONRPCMessage) (e : Env World),
    method message = Some "list_tools" ->
    let server := registered registrations in
    let h := {| this := server; env := e |} in
    let names := first_occurrences (map opt_name registrations) in
    let descriptors := map (describe server) names in
    handleRequest message h
    = (Returned (Response (id_or message "list_tools")
                   (VObj [("tools", VArr descriptors)])), h)
    /\ names_of descriptors = map VStr names
    /\ NoDup names
    /\ (forall n, In n names <-> In n (map opt_name registrations))
    /\ (NoDup (map opt_name registrations) -> names = map opt_name registrations)
    /\ handleRequest message (snd (handleRequest message h)) = handleRequest message h
    /\ (registrations = [] -> descriptors = []).
Proof.
  intros World registrations message e Hm server h names descriptors.
  assert (Hrun : handleRequest message h
                 = (Returned (Response (id_or message "list_tools")
                                (VObj [("tools", VArr descriptors)])), h)).
  { rewrite (handleRequest_list_tools _ _ Hm), (list_tools_returns _ _ _ Hm).
    subst descriptors names h server. cbn [this]. now rewrite keys_registered. }
  split; [exact Hrun |].
  split; [apply names_of_describe |].
  split; [apply first_occurrences_NoDup |].
  split; [intros n; apply first_occurrences_In |].
  split; [apply first_occurrences_distinct |].
  split; [now rewrite Hrun |].
  intros ->. reflexivity.
Qed.

(** C5 with the same tool registered twice: it is listed once. *)
Lemma C5_list_tools_registration_order_witness :
  handleRequest list_request (at_rest 0%nat (registered [echo_tool; echo_tool]))
  = (Returned (Response (IdNumber 3)
                 (VObj [("tools",
                         VArr [VObj [("name", VStr "echo");
                                     ("description", VStr "Returns its arguments");
                                     ("inputSchema", echo_schema)]])])),
     at_rest 0%nat (registered [echo_tool; echo_tool])).
Proof.
  exact (proj1 (C5_list_tools_registration_order nat [echo_tool; echo_tool]
                  list_request {| world := 0%nat; calls := [] |} eq_refl)).
Defined.

(** C10.  A server as the constructor leaves it has the caller's tools
    registered first and the built-in tools [sum] and [listPresenters]
    after them, the built-in handlers being the ones in force; so
    [list_tools] on it returns a non-empty array that names both. *)
Theorem C10_constructor_registers_builtins :
  forall (World : Type) (presenter : World -> list (string * PresenterProp))
         (options : DirectServerOptions World)
         (message : JSONRPCMessage) (e : Env World),
    method message = Some "list_tools" ->
    let server := constructor presenter options in
    let h := {| this := server; env := e |} in
    server = registerBuiltinTools presenter (registered (tools_of options))
    /\ _tools server
       = (map info_of (tools_of options) ++ map info_of (builtin_tools presenter))%list
    /\ Map_get (_toolHandlers server) (VStr "sum") = Some sum_handler
    /\ Map_get (_toolHandlers server) (VStr "listPresenters")
       = Some (listPresenters_handler presenter)
    /\ exists descriptors : list Value,
         handleRequest message h
         = (Returned (Response (id_or message "list_tools")
                        (VObj [("tools", VArr descriptors)])), h)
         /\ descriptors <> []
         /\ In (VStr "sum") (names_of descriptors)
         /\ In (VStr "listPresenters") (names_of descriptors).
Proof.
  intros World presenter options message e Hm server h.
  split; [apply constructor_registers |].
  split.
  { subst server. rewrite constructor_registered. unfold registered.
    rewrite tools_after_registrations. cbn [_tools fields_init app].
    now rewrite map_app. }
  assert (Hsrv : server
                 = registerBuiltinTools presenter (registered (tools_of options)))
    by apply constructor_registers.
  split.
  { rewrite Hsrv. unfold registerBuiltinTools, registerTool. cbn [_toolHandlers Map_get].
    rewrite assoc_set_other by discriminate. apply assoc_set_same. }
  split.
  { rewrite Hsrv. unfold registerBuiltinTools, registerTool. cbn [_toolHandlers Map_get].
    apply assoc_set_same. }
  exists (map (describe server) (Map_keys (_toolHandlers server))).
  split.
  { rewrite (handleRequest_list_tools _ _ Hm). exact (list_tools_returns _ _ _ Hm). }
  assert (Hsum : In "sum" (Map_keys (_toolHandlers server))).
  { rewrite Hsrv. unfold registerBuiltinTools, registerTool. cbn [_toolHandlers].
    apply In_keys_set_other, In_keys_set. }
  assert (Hlp : In "listPresenters" (Map_keys (_toolHandlers server))).
  { rewrite Hsrv. unfold registerBuiltinTools, registerTool. cbn [_toolHandlers].
    apply In_keys_set. }
  rewrite names_of_describe.
  split.
  { intros Hnil. apply map_eq_nil in Hnil. rewrite Hnil in Hsum. contradiction. }
  split; now apply in_map.
Qed.

(** C10 on the example server, constructed without caller tools. *)
Lemma C10_constructor_registers_builtins_witness :
  Map_get (_toolHandlers example_server) (VStr "sum") = Some sum_handler
  /\ exists descriptors : list Value,
       handleRequest list_request (at_rest tt example_server)
       = (Returned (Response (IdNumber 3) (VObj [("tools", VArr descriptors)])),
          at_rest tt example_server)
       /\ descriptors <> []
       /\ In (VStr "sum") (names_of descriptors)
       /\ In (VStr "listPresenters") (names_of descriptors).
Proof.
  pose proof (C10_constructor_registers_builtins unit no_presenters
                {| info := ("direct-server-example", "1.0.0"); tools := None |}
                list_request {| world := tt; calls := [] |} eq_refl) as H.
  split.
  - exact (proj1 (proj2 (proj2 H))).
  - exact (proj2 (proj2 (proj2 (proj2 H)))).
Defined.

End DirectServerClaims.

(* ================================================================== *)
(** * Properties of the direct transport                               *)
(* ================================================================== *)

Module DirectTransportFacts.
Import Js Protocol Async DirectTransport.

Section Facts.
Context {World : Type}.

(** Unfolds the monadic plumbing of a method body. *)
Ltac run :=
  unfold close, start, send, dispatch, emit, update, bind, try_catch,
    get_this, set_this, ret, throw, call;
  cbn [this env world calls fst snd _isConnected _emitter _options onclose
       onerror onmessage set_isConnected set_emitter negb].

Lemma close_idle (h : Heap World (DirectTransport World)) :
  _isConnected (this h) = false -> close h = (Returned tt, h).
Proof. intros Hc. run. rewrite Hc. reflexivity. Qed.

(** What the first [close] of a connected transport does. *)
Lemma close_connected (h : Heap World (DirectTransport World)) :
  _isConnected (this h) = true ->
  exists new : list Call,
    this (snd (close h)) = set_emitter [] (set_isConnected false (this h))
    /\ calls (env (snd (close h))) = (calls (env h) ++ new)%list
    /\ length (filter is_OnCloseCall new)
       = match onClose (_options (this h)) with Some _ => 1%nat | None => 0%nat end
    /\ ((forall f, onClose (_options (this h)) = Some f -> never_throws f) ->
        (forall f, onclose (this h) = Some f -> never_throws f) ->
        fst (close h) = Returned tt).
Proof.
  destruct h as [[[hm oC] em conn oc oe om] [w c]]. cbn [this _isConnected].
  intros ->. unfold never_throws.
  destruct oC as [f |], oc as [g |]; run; cbn.
  - destruct (f w) as [[[] | e] w1] eqn:Hrun; cbn.
    + destruct (g w1) as [[[] | e] w2] eqn:Hrun2; cbn;
        exists [OnCloseCall; OncloseCall]; rewrite <- app_assoc;
        repeat split.
      intros _ Hg. specialize (Hg g eq_refl w1). now rewrite Hrun2 in Hg.
    + exists [OnCloseCall]. repeat split.
      intros Hf _. specialize (Hf f eq_refl w). now rewrite Hrun in Hf.
  - destruct (f w) as [[[] | e] w1] eqn:Hrun; cbn;
      exists [OnCloseCall]; repeat split.
    intros Hf _. specialize (Hf f eq_refl w). now rewrite Hrun in Hf.
  - destruct (g w) as [[[] | e] w2] eqn:Hrun2; cbn;
      exists [OncloseCall]; repeat split.
    intros _ Hg. specialize (Hg g eq_refl w). now rewrite Hrun2 in Hg.
  - exists []. rewrite app_nil_r. repeat split.
Qed.

(** ** Listeners exist only while connected *)

Lemma constructor_idle (options : DirectTransportOptions World) :
  idle_has_no_listeners (constructor options).
Proof. intros _. reflexivity. Qed.

Lemma start_keeps_invariant (h : Heap World (DirectTransport World)) :
  idle_has_no_listeners (this h) -> idle_has_no_listeners (this (snd (start h))).
Proof.
  destruct h as [[o em [|] oc oe om] e]; unfold idle_has_no_listeners; run; cbn.
  - intros H. exact H.
  - discriminate.
Qed.

Lemma close_keeps_invariant (h : Heap World (DirectTransport World)) :
  idle_has_no_listeners (this h) -> idle_has_no_listeners (this (snd (close h))).
Proof.
  intros Hinv. destruct (_isConnected (this h)) eqn:Hc.
  - destruct (close_connected h Hc) as (new & -> & _). intros _. reflexivity.
  - now rewrite (close_idle h Hc).
Qed.

(** ** Sending *)

Lemma run_listener_this (l : Listener) (message : JSONRPCMessage)
    (h : Heap World (DirectTransport World)) :
  this (snd (run_listener l message h)) = this h.
Proof.
  destruct l. unfold run_listener. run.
  destruct (onmessage (this h)) as [f |]; [| reflexivity].
  cbn. now destruct (f message (world (env h))).
Qed.

Lemma emit_to_this (listeners : list (string * Listener)) (event : string)
    (message : JSONRPCMessage) (h : Heap World (DirectTransport World)) :
  this (snd (emit_to listeners event message h)) = this h.
Proof.
  revert h. induction listeners as [| [e l] rest IH]; intros h; cbn [emit_to].
  - reflexivity.
  - destruct (e =? event); [| apply IH].
    unfold bind. pose proof (run_listener_this l message h) as Hl.
    destruct (run_listener l message h) as [[[] | err] h'].
    + cbn [snd] in Hl. now rewrite IH.
    + exact Hl.
Qed.

Lemma dispatch_this (message : JSONRPCMessage)
    (h : Heap World (DirectTransport World)) :
  this (snd (dispatch message h)) = this h.
Proof.
  unfold dispatch, emit, bind, get_this, call.
  destruct (handleMessage (_options (this h)) message (world (env h)))
    as [[response | err] w]; [| reflexivity].
  cbn [this]. now rewrite emit_to_this.
Qed.

Lemma send_idle (message : JSONRPCMessage) (h : Heap World (DirectTransport World)) :
  _isConnected (this h) = false ->
  send message h = (Thrown (ErrorObject "未连接"), h).
Proof. intros Hc. unfold send, bind, get_this. now rewrite Hc. Qed.

Lemma send_delivered (message : JSONRPCMessage)
    (h h1 : Heap World (DirectTransport World)) :
  _isConnected (this h) = true ->
  dispatch message h = (Returned tt, h1) ->
  send message h = (Returned tt, h1).
Proof.
  intros Hc Hd. unfold send, bind, get_this, try_catch. rewrite Hc. cbn [negb].
  now rewrite Hd.
Qed.

Lemma send_failed (message : JSONRPCMessage) (e : JsError)
    (h h1 : Heap World (DirectTransport World)) :
  _isConnected (this h) = true ->
  dispatch message h = (Thrown e, h1) ->
  send message h
  = match onerror (this h) with
    | Some f => call (OnerrorCall (asError e)) (f (asError e)) h1
    | None => (Returned tt, h1)
    end.
Proof.
  intros Hc Hd. pose proof (dispatch_this message h) as Ht. rewrite Hd in Ht.
  cbn [snd] in Ht. unfold send, bind, get_this, try_catch. rewrite Hc. cbn [negb].
  rewrite Hd, Ht. now destruct (onerror (this h)).
Qed.

Lemma send_this (message : JSONRPCMessage) (h : Heap World (DirectTransport World)) :
  this (snd (send message h)) = this h.
Proof.
  destruct (_isConnected (this h)) eqn:Hc; [| now rewrite (send_idle _ _ Hc)].
  pose proof (dispatch_this message h) as Ht.
  destruct (dispatch message h) as [[[] | e] h1] eqn:Hd; cbn [snd] in Ht.
  - now rewrite (send_delivered _ _ _ Hc Hd).
  - rewrite (send_failed _ _ _ _ Hc Hd).
    destruct (onerror (this h)) as [f |]; [| exact Ht].
    unfold call. now destruct (f (asError e) (world (env h1))).
Qed.

Lemma send_keeps_invariant (message : JSONRPCMessage)
    (h : Heap World (DirectTransport World)) :
  idle_has_no_listeners (this h) ->
  idle_has_no_listeners (this (snd (send message h))).
Proof. now rewrite send_this. Qed.

End Facts.
End DirectTransportFacts.

Module DirectTransportClaims.
Import Js Protocol Async DirectTransport DirectTransportFacts Examples.

(** C7, as stated, fails.  A transport that was never started has its
    cleanup callback registered, yet closing it twice invokes the
    callback not once but never: the world still counts no invocation
    and no call is on record.  And on a connected transport whose
    cleanup callback throws, the first [close] throws. *)
Lemma C7_close_of_unstarted_transport_skips_onClose :
  onClose (_options fresh_transport) = Some counting_onClose
  /\ close (at_rest 0%nat fresh_transport) = (Returned tt, at_rest 0%nat fresh_transport)
  /\ close (snd (close (at_rest 0%nat fresh_transport)))
     = (Returned tt, {| this := fresh_transport;
                        env := {| world := 0%nat; calls := [] |} |})
  /\ _isConnected fragile_transport = true
  /\ fst (close (at_rest 0%nat fragile_transport))
     = Thrown (ErrorObject "cleanup failed").
Proof. repeat split; reflexivity. Qed.

(** C7, amended.  For every transport, the second of two [close] calls
    returns without throwing and changes nothing; after the first the
    transport is not connected and, listeners existing only while
    connected, has no listener left; across both calls the cleanup
    callback [onClose] is invoked once if the transport was connected
    and the callback is registered, and not at all otherwise; the first
    call does not throw provided neither [onClose] nor [onclose] does. *)
Theorem C7_close_twice :
  forall (World : Type) (h : Heap World (DirectTransport World)),
    let h1 := snd (close h) in
    close h1 = (Returned tt, h1)
    /\ _isConnected (this h1) = false
    /\ (idle_has_no_listeners (this h) -> _emitter (this h1) = [])
    /\ (exists new : list Call,
          calls (env (snd (close h1))) = (calls (env h) ++ new)%list
          /\ length (filter is_OnCloseCall new)
             = if _isConnected (this h)
               then match onClose (_options (this h)) with
                    | Some _ => 1%nat
                    | None => 0%nat
                    end
               else 0%nat)
    /\ ((forall f, onClose (_options (this h)) = Some f -> never_throws f) ->
        (forall f, onclose (this h) = Some f -> never_throws f) ->
        fst (close h) = Returned tt).
Proof.
  intros World h h1. subst h1.
  destruct (_isConnected (this h)) eqn:Hc.
  - destruct (close_connected h Hc) as (new & Hthis & Hcalls & Hcount & Hok).
    assert (Hidle : _isConnected (this (snd (close h))) = false)
      by now rewrite Hthis.
    rewrite (close_idle _ Hidle). cbn [snd].
    split; [reflexivity |]. split; [exact Hidle |].
    split; [intros _; now rewrite Hthis |].
    split; [now exists new |]. exact Hok.
  - rewrite (close_idle h Hc). cbn [snd fst]. rewrite (close_idle h Hc). cbn [snd].
    split; [reflexivity |]. split; [exact Hc |].
    split; [intros Hinv; now apply Hinv |].
    split; [exists []; now rewrite app_nil_r |]. reflexivity.
Qed.

(** C7 on a started transport: one invocation of the cleanup callback,
    no listener left, no throw. *)
Lemma C7_close_twice_witness :
  idle_has_no_listeners started_transport
  /\ close (snd (close (at_rest 0%nat started_transport)))
     = (Returned tt, snd (close (at_rest 0%nat started_transport)))
  /\ _emitter (this (snd (close (at_rest 0%nat started_transport)))) = []
  /\ world (env (snd (close (at_rest 0%nat started_transport)))) = 1%nat
  /\ fst (close (at_rest 0%nat started_transport)) = Returned tt.
Proof.
  assert (Hinv : idle_has_no_listeners started_transport) by (intros H; discriminate H).
  pose proof (C7_close_twice nat (at_rest 0%nat started_transport)) as H.
  cbv zeta in H. destruct H as (H2 & _ & Hl & _ & Hok).
  split; [exact Hinv |]. split; [exact H2 |]. split; [exact (Hl Hinv) |].
  split; [reflexivity |].
  apply Hok.
  - intros f Hf. injection Hf as <-. intros w. reflexivity.
  - intros f Hf. discriminate Hf.
Defined.

(** C8, as stated, fails.  The transport is connected, no [onerror] has
    been assigned, and the message handler throws: [send] returns, and
    the failure reaches no callback; the only call on record is the one
    to the message handler.  And when the assigned [onerror] itself
    throws, [send] throws. *)
Lemma C8_failure_without_onerror_is_dropped :
  _isConnected started_transport = true
  /\ onerror started_transport = None
  /\ fst (dispatch list_request (at_rest 0%nat started_transport))
     = Thrown (ErrorObject "handler unavailable")
  /\ send list_request (at_rest 0%nat started_transport)
     = (Returned tt,
        {| this := started_transport;
           env := {| world := 0%nat; calls := [HandleMessageCall list_request] |} |})
  /\ filter is_OnerrorCall [HandleMessageCall list_request] = []
  /\ _isConnected rethrowing_transport = true
  /\ fst (send list_request (at_rest 0%nat rethrowing_transport))
     = Thrown (ErrorObject "handler unavailable").
Proof. repeat split; reflexivity. Qed.

(** C8, amended.  For a connected transport and a message whose
    dispatch fails with [e]: when an [onerror] callback is assigned,
    [send] calls it once with the failure (wrapped in an [Error] unless
    it is one) and ends as that callback ends, so [send] returns unless
    the callback itself throws; when none is assigned, the failure is
    dropped and [send] returns.  The transport itself is unchanged. *)
Theorem C8_send_reports_failure_to_onerror :
  forall (World : Type) (message : JSONRPCMessage) (e : JsError)
         (h h1 : Heap World (DirectTransport World)),
    _isConnected (this h) = true ->
    dispatch message h = (Thrown e, h1) ->
    this h1 = this h
    /\ send message h
       = match onerror (this h) with
         | Some f =>
             (fst (f (asError e) (world (env h1))),
              {| this := this h1;
                 env := {| world := snd (f (asError e) (world (env h1)));
                           calls := calls (env h1) ++ [OnerrorCall (asError e)] |} |})
         | None => (Returned tt, h1)
         end
    /\ ((forall f, onerror (this h) = Some f -> never_throws (f (asError e))) ->
        fst (send message h) = Returned tt).
Proof.
  intros World message e h h1 Hc Hd.
  pose proof (dispatch_this message h) as Ht. rewrite Hd in Ht. cbn [snd] in Ht.
  rewrite (send_failed _ _ _ _ Hc Hd).
  split; [exact Ht |].
  destruct (onerror (this h)) as [f |] eqn:Hf.
  - unfold call. destruct (f (asError e) (world (env h1))) as [r w] eqn:Hrun.
    cbn [fst snd]. split; [reflexivity |].
    intros Hnt. specialize (Hnt f eq_refl (world (env h1))). rewrite Hrun in Hnt.
    cbn in Hnt. destruct r as [[] | err]; [reflexivity | discriminate].
  - split; reflexivity.
Qed.

(** C8 on a started transport with [onerror] assigned: one delivery. *)
Lemma C8_send_reports_failure_to_onerror_witness :
  send list_request (at_rest 0%nat observed_transport)
  = (Returned tt,
     {| this := observed_transport;
        env := {| world := 1%nat;
                  calls := [HandleMessageCall list_request;
                            OnerrorCall (ErrorObject "handler unavailable")] |} |}).
Proof.
  exact (proj1 (proj2 (C8_send_reports_failure_to_onerror nat list_request
                         (ErrorObject "handler unavailable")
                         (at_rest 0%nat observed_transport)
                         {| this := observed_transport;
                            env := {| world := 0%nat;
                                      calls := [HandleMessageCall list_request] |} |}
                         eq_refl eq_refl))).
Defined.

End DirectTransportClaims.

(* ================================================================== *)
(** * Properties of the batch image tools                              *)
(* ================================================================== *)

Module ImageServerFacts.
Import Js Protocol Async ImageServer.




Lemma failures_cons_thrown {A : Type} (e : JsError) (outcomes : list (Outcome A)) :
  failures (@Thrown A e :: outcomes) = S (failures outcomes).
Proof. reflexivity. Qed.


Section Facts.
Context {World : Type}.

Lemma attempt_each_returns (operation : string -> M World ImageServer string)
    (paths : list string) (h : Heap World ImageServer) :
  exists outcomes,
    fst (attempt_each operation paths h) = Returned outcomes
    /\ length outcomes = length paths.
Proof.
  revert h. induction paths as [| p rest IH]; intros h; cbn.
  - now exists [].
  - unfold bind, attempt. destruct (operation p h) as [o h1].
    destruct (IH h1) as (os & Hos & Hlen).
    destruct (attempt_each operation rest h1) as [r h2]. cbn in Hos. subst r.
    exists (o :: os). cbn. now rewrite Hlen.
Qed.

Lemma allSettled_report (field : string)
    (item : string -> M World ImageServer Value)
    (operation : string -> M World ImageServer string) :
  follows field item operation ->
  field = "base64" \/ field = "url" ->
  forall (paths : list string) (h : Heap World ImageServer),
    exists outcomes results h',
      attempt_each operation paths h = (Returned outcomes, h')
      /\ allSettled (map item paths) h = (Returned results, h')
      /\ length outcomes = length paths
      /\ map (format_result field) results = report field paths outcomes.
Proof.
  intros Hitem Hfield. induction paths as [| p rest IH]; intros h.
  - exists [], [], h. repeat split.
  - cbn [map allSettled attempt_each]. unfold bind, try_catch, attempt, ret.
    rewrite (Hitem p h). destruct (operation p h) as [o h1]. cbn [fst snd].
    destruct (IH h1) as (os & rs & h2 & Hos & Hrs & Hlen & Hfmt).
    destruct o as [r | e]; rewrite Hos, Hrs.
    + exists (Returned r :: os), (Fulfilled (VObj [("path", VStr p); (field, VStr r);
                                                     ("status", VStr "fulfilled")]) :: rs), h2.
      repeat split; [cbn; now rewrite Hlen |].
      unfold report. cbn [map combine]. fold (report field rest os). rewrite <- Hfmt.
      f_equal. destruct Hfield as [-> | ->]; reflexivity.
    + exists (Thrown e :: os),
             (Rejected (ThrownValue (VObj [("path", VStr p);
                                           ("error", VStr (errorMessage e))])) :: rs), h2.
      repeat split; [cbn; now rewrite Hlen |].
      unfold report. cbn [map combine]. fold (report field rest os). rewrite <- Hfmt.
      reflexivity.
Qed.


Section Tools.
Variable fs_readFile : string -> External World Buffer.
Variable r2_upload : string -> Buffer -> string -> string -> External World Value.
Variable Date_now : World -> Z.
Variable path_basename : string -> string.
Variable path_extname : string -> string.
Variable toLowerCase : string -> string.

Lemma read_one_follows :
  follows "base64" (read_one fs_readFile) (read_operation fs_readFile).
Proof.
  intros p h. unfold read_one, read_operation, try_catch, bind, perform, ret, throw.
  destruct (fs_readFile p (world (env h))) as [[buffer | e] w]; reflexivity.
Qed.

Lemma upload_one_follows :
  follows "url"
    (upload_one fs_readFile r2_upload Date_now path_basename path_extname toLowerCase)
    (upload_operation fs_readFile r2_upload Date_now path_basename path_extname
       toLowerCase).
Proof.
  intros p h. unfold upload_one, upload_operation, try_catch, bind, perform, ret, throw.
  destruct (fs_readFile p (world (env h))) as [[buffer | e] w]; [| reflexivity].
  cbn [this env world calls].
  destruct (uploadImageToService r2_upload Date_now path_basename path_extname
              toLowerCase p buffer _) as [[url | e] h1]; reflexivity.
Qed.

End Tools.

End Facts.
End ImageServerFacts.

Module ImageServerClaims.
Import Js Protocol Async ImageServer ImageServerFacts Examples.

(** Three paths of which the middle one cannot be read: three entries
    come back in input order, the middle one carrying its own error. *)
Example read_three_paths_one_missing :
  fst (run_image_tool "read_multiple_images_base64"
         (batch_arguments ["a.png"; "missing.png"; "b.png"]))
  = Returned
      (text_result
         (JSON_stringify_2
            (VArr [VObj [("path", VStr "a.png"); ("base64", VStr "aGkh")];
                   VObj [("path", VStr "missing.png");
                         ("error",
                          VStr "ENOENT: no such file or directory, open 'missing.png'")];
                   VObj [("path", VStr "b.png"); ("base64", VStr "TWFu")]]))).
Proof. reflexivity. Qed.

Example upload_three_paths_one_missing :
  fst (run_image_tool "upload_multiple_images"
         (batch_arguments ["a.png"; "missing.png"; "b.png"]))
  = Returned
      (text_result
         (JSON_stringify_2
            (VArr [VObj [("path", VStr "a.png");
                         ("url", VStr "https://img.example/images/1700000000000-a.png")];
                   VObj [("path", VStr "missing.png");
                         ("error",
                          VStr "ENOENT: no such file or directory, open 'missing.png'")];
                   VObj [("path", VStr "b.png");
                         ("url", VStr "https://img.example/images/1700000000000-b.png")]]))).
Proof. reflexivity. Qed.


End ImageServerClaims.

(* ================================================================== *)
(** * Further properties of the direct server                          *)
(* ================================================================== *)

Module DirectServerMore.
Import Js Protocol Async DirectServer DirectServerFacts Examples.

(** ** Requests that reach no tool *)

(** X1.  Only the method names [call_tool] and [list_tools] are served.
    A message with any other method name is answered with code -32601
    and a text naming the method, a message without a method with code
    -32600; the reply carries the message's id, or ["error"] when it has
    none, and nothing is called or changed. *)
Theorem X1_unserved_method_is_refused :
  forall (World : Type) (message : JSONRPCMessage)
         (h : Heap World (DirectServer World)),
    method message <> Some "call_tool" ->
    method message <> Some "list_tools" ->
    handleRequest message h
    = (Returned
         (ErrorResponse (id_or message "error")
            (match method message with
             | Some _ => MethodNotFound
             | None => InvalidRequest
             end)
            (match method message with
             | Some m => "方法不存在: " ++ m
             | None => "无效的请求：缺少method"
             end)), h).
Proof.
  intros World message h Hc Hl.
  destruct (method message) as [m |] eqn:Hm.
  - apply (handleRequest_other _ _ _ Hm); congruence.
  - now apply handleRequest_no_method.
Qed.

(** X1 on the method name the MCP client uses for listing. *)
Lemma X1_unserved_method_is_refused_witness :
  handleRequest (request 9 "tools/list" None) (at_rest tt example_server)
  = (Returned (ErrorResponse (IdNumber 9) MethodNotFound "方法不存在: tools/list"),
     at_rest tt example_server).
Proof.
  apply (X1_unserved_method_is_refused unit (request 9 "tools/list" None)
           (at_rest tt example_server)); discriminate.
Defined.

(** X2.  A [call_tool] whose [name] is not a string reaches no tool
    handler, whatever is registered: the handler map is keyed by
    strings, so a missing name, [null] params or a numeric name get the
    "tool does not exist" error and nothing is called or changed.  The
    text ends with the name as a template literal prints it; the name
    is taken among the values whose printing is modelled exactly: no
    number beyond the safe integers, no object with a [toString]
    property of its own. *)
Theorem X2_non_string_name_is_never_found :
  forall (World : Type) (message : JSONRPCMessage) (p : Value)
         (h : Heap World (DirectServer World)),
    method message = Some "call_tool" ->
    params message = Some p ->
    (forall s, requested_name p <> VStr s) ->
    plain (requested_name p) = true ->
    dispatched message (this h) = None
    /\ handleRequest message h
       = (Returned (ErrorResponse (id_or message "error") (-32000)
                      ("工具不存在: " ++ toString (requested_name p))), h).
Proof.
  intros World message p h Hm Hp Hname _.
  assert (Hget : Map_get (_toolHandlers (this h)) (requested_name p) = None).
  { destruct (requested_name p) eqn:Hn; try reflexivity. now elim (Hname s). }
  split.
  - now rewrite (dispatched_call_tool _ _ _ Hm Hp).
  - rewrite (handleRequest_call_tool _ _ Hm).
    exact (call_tool_missing _ _ _ Hm Hp Hget).
Qed.

(** X2 on a server where the tool ["42"] is registered and the call
    names it by the number 42. *)
Lemma X2_non_string_name_is_never_found_witness :
  Map_get (_toolHandlers numbered_server) (VStr "42") = Some greet_v1
  /\ handleRequest call_by_number (at_rest tt numbered_server)
     = (Returned (ErrorResponse (IdNumber 10) (-32000) "工具不存在: 42"),
        at_rest tt numbered_server).
Proof.
  split; [reflexivity |].
  apply (X2_non_string_name_is_never_found unit call_by_number
           (VObj [("name", VNum 42)]) (at_rest tt numbered_server) eq_refl eq_refl);
    [intros s; discriminate | reflexivity].
Defined.

(** ** The [tools] getter and the listing *)

Section Listing.
Context {World : Type}.

Lemma first_occurrences_length (l : list string) :
  length (first_occurrences l) <= length l.
Proof.
  apply NoDup_incl_length; [apply first_occurrences_NoDup |].
  intros x. apply first_occurrences_In.
Qed.

Lemma first_occurrences_full (l : list string) :
  length (first_occurrences l) = length l <-> NoDup l.
Proof.
  split.
  - intros Hlen.
    apply (NoDup_incl_NoDup (l := first_occurrences l));
      [apply first_occurrences_NoDup | lia |].
    intros x. apply first_occurrences_In.
  - intros Hnd. now rewrite first_occurrences_distinct.
Qed.

Lemma tools_registered (registrations : list (ToolOption World)) :
  _tools (registered registrations) = map info_of registrations.
Proof. unfold registered. now rewrite tools_after_registrations. Qed.

Lemma find_info_of (wanted : string) (registrations : list (ToolOption World)) :
  find (named wanted) (map info_of registrations)
  = option_map info_of (first_registration wanted registrations).
Proof.
  unfold first_registration.
  induction registrations as [| tool rest IH]; cbn; [reflexivity |].
  unfold named at 1. cbn [info_of name].
  now destruct (opt_name tool =? wanted).
Qed.

End Listing.

(** X3.  The [tools] getter returns one entry per [registerTool] call,
    in call order and with repeated names kept, whereas [list_tools]
    reports one descriptor per distinct name: the listing is never
    longer than the getter's array, and as long exactly when all the
    registered names are distinct. *)
Theorem X3_getter_keeps_every_registration :
  forall (World : Type) (registrations : list (ToolOption World)),
    let server := registered registrations in
    get_tools server = map info_of registrations
    /\ length (Map_keys (_toolHandlers server)) <= length (get_tools server)
    /\ (length (Map_keys (_toolHandlers server)) = length (get_tools server)
        <-> NoDup (map opt_name registrations)).
Proof.
  intros World registrations server. subst server. unfold get_tools.
  rewrite tools_registered, keys_registered, length_map.
  rewrite <- (length_map opt_name registrations).
  split; [reflexivity |]. split.
  - apply first_occurrences_length.
  - apply first_occurrences_full.
Qed.

(** X4.  [list_tools] describes a name by the first registration made
    under it: the description given then, or "工具 " followed by the
    name when that description was empty; the input schema given then,
    or the schema of an object without properties when that schema was
    falsy. *)
Theorem X4_listing_describes_first_registration :
  forall (World : Type) (registrations : list (ToolOption World))
         (wanted : string) (tool : ToolOption World),
    first_registration wanted registrations = Some tool ->
    describe (registered registrations) wanted
    = VObj [("name", VStr wanted);
            ("description",
             VStr (if isEmpty (opt_description tool)
                   then "工具 " ++ wanted
                   else opt_description tool));
            ("inputSchema",
             if truthy (opt_inputSchema tool)
             then opt_inputSchema tool
             else VObj [("type", VStr "object");
                        ("properties", VObj []);
                        ("required", VArr [])])].
Proof.
  intros World registrations wanted tool Hfirst.
  unfold describe. rewrite tools_registered, find_info_of, Hfirst.
  cbn [option_map info_of description inputSchema]. unfold or_else.
  cbn [truthy]. now destruct (opt_description tool).
Qed.

(** X4 on a tool registered with an empty description and a [null]
    schema, then registered again with both given. *)
Lemma X4_listing_describes_first_registration_witness :
  describe (registered [bare_tool;
                        {| opt_name := "bare"; opt_description := "Now described";
                           opt_handler := greet_v2;
                           opt_inputSchema := greet_schema_v2 |}]) "bare"
  = VObj [("name", VStr "bare");
          ("description", VStr "工具 bare");
          ("inputSchema",
           VObj [("type", VStr "object"); ("properties", VObj []);
                 ("required", VArr [])])].
Proof.
  exact (X4_listing_describes_first_registration unit
           [bare_tool;
            {| opt_name := "bare"; opt_description := "Now described";
               opt_handler := greet_v2; opt_inputSchema := greet_schema_v2 |}]
           "bare" bare_tool eq_refl).
Defined.

(** X21.  [registerTool] makes [call_tool] find the handler just
    registered under that name, leaves the handler found under every
    other name as it was, and keeps the listing order: a name listed
    before stays where it is, a new name goes to the end. *)
Theorem X21_registerTool_updates_one_name :
  forall (World : Type) (server : DirectServer World) (name description : string)
         (handler : ToolHandler World) (schema : Value),
    let server' := registerTool name description handler schema server in
    Map_get (_toolHandlers server') (VStr name) = Some handler
    /\ (forall other,
          other <> name ->
          Map_get (_toolHandlers server') (VStr other)
          = Map_get (_toolHandlers server) (VStr other))
    /\ Map_keys (_toolHandlers server')
       = if mem name (Map_keys (_toolHandlers server))
         then Map_keys (_toolHandlers server)
         else (Map_keys (_toolHandlers server) ++ [name])%list.
Proof.
  intros World server name description handler schema server'. subst server'.
  unfold registerTool. cbn [_toolHandlers Map_get]. split; [| split].
  - apply assoc_set_same.
  - intros other Hne. apply assoc_set_other. congruence.
  - apply Map_keys_set.
Qed.

(** ** The built-in tools *)

Lemma sum_step_thrown (e : JsError) (values : list Value) :
  fold_left sum_step values (Thrown e) = Thrown e.
Proof. induction values as [| v rest IH]; cbn; [reflexivity | exact IH]. Qed.

Lemma sum_of_numbers (numbers : list Z) (acc : Z) :
  fold_left sum_step (map VNum numbers) (Returned acc)
  = Returned (acc + total numbers)%Z.
Proof.
  revert acc. induction numbers as [| n rest IH]; intros acc; cbn.
  - now rewrite Z.add_0_r.
  - rewrite IH. f_equal. unfold total. cbn. lia.
Qed.

Lemma trim_left_keeps_last (cs : list ascii) (c : ascii) :
  is_space c = false -> exists front, trim_left (cs ++ [c]) = (front ++ [c])%list.
Proof.
  intros Hc. induction cs as [| x rest IH]; cbn.
  - rewrite Hc. now exists [].
  - destruct (is_space x); [exact IH | now exists (x :: rest)].
Qed.

Lemma letter_is_no_numeral (c : ascii) :
  is_ascii_letter c = true ->
  is_space c = false
  /\ (nat_of_ascii c =? 45)%nat = false
  /\ (nat_of_ascii c =? 43)%nat = false
  /\ digit_value c = None.
Proof.
  unfold is_ascii_letter, is_space, digit_value.
  set (n := nat_of_ascii c). intros H.
  apply orb_true_iff in H.
  assert (Hn : (65 <= n <= 90 \/ 97 <= n <= 122)%nat).
  { destruct H as [H | H]; apply andb_true_iff in H; destruct H as [H1 H2];
      apply Nat.leb_le in H1; apply Nat.leb_le in H2; lia. }
  repeat split.
  - repeat (apply orb_false_iff; split); apply Nat.eqb_neq; lia.
  - apply Nat.eqb_neq; lia.
  - apply Nat.eqb_neq; lia.
  - destruct ((48 <=? n)%nat && (n <=? 57)%nat) eqn:E; [| reflexivity].
    apply andb_true_iff in E. destruct E as [E1 E2].
    apply Nat.leb_le in E1. apply Nat.leb_le in E2. lia.
Qed.

(** The values recognised by [not_a_number] convert to [NaN]. *)
Lemma not_a_number_Number (v : Value) : not_a_number v = true -> Number v = None.
Proof.
  destruct v; cbn; try discriminate; try reflexivity.
  unfold StringToNumber, trim.
  destruct (trim_left (list_ascii_of_string s)) as [| c tl] eqn:Htl; [discriminate |].
  intros H. apply andb_true_iff in H. destruct H as [Hletter _].
  destruct (letter_is_no_numeral c Hletter) as (Hsp & Hminus & Hplus & Hdigit).
  cbn [rev]. destruct (trim_left_keeps_last (rev tl) c Hsp) as [front ->].
  rewrite rev_app_distr. cbn [rev app]. rewrite Hminus, Hplus.
  unfold unsigned_value. cbn [digits_value]. now rewrite Hdigit.
Qed.

Section Builtins.
Context {World : Type}.
Variable presenter : World -> list (string * PresenterProp).

Lemma constructor_handles_sum (options : DirectServerOptions World) :
  Map_get (_toolHandlers (constructor presenter options)) (VStr "sum")
  = Some sum_handler.
Proof.
  rewrite constructor_registers. unfold registerBuiltinTools, registerTool.
  cbn [_toolHandlers Map_get].
  rewrite assoc_set_other by discriminate. apply assoc_set_same.
Qed.

(** A [sum] call on a constructed server, reduced to the handler. *)
Lemma sum_call (options : DirectServerOptions World) (message : JSONRPCMessage)
    (p : Value) (h : Heap World (DirectServer World)) :
  this h = constructor presenter options ->
  method message = Some "call_tool" ->
  params message = Some p ->
  requested_name p = VStr "sum" ->
  fst (handleRequest message h)
  = Returned (tool_reply message
                (fst (invoke sum_handler (requested_arguments p) (world (env h))))).
Proof.
  intros Hthis Hm Hp Hname.
  rewrite (handleRequest_call_tool _ _ Hm).
  rewrite (call_tool_found message p sum_handler h Hm Hp); [reflexivity |].
  rewrite Hname, Hthis. apply constructor_handles_sum.
Qed.

End Builtins.

(** X5.  On every constructed server, whatever tools the caller
    supplied, a [call_tool] for [sum] whose [numbers] is an array of
    integers is answered by a result whose single text block is the
    JSON text of an object with the total under [sum]; an empty array
    gives 0.  The integers and their partial sums are taken in the
    range where the addition of doubles is exact. *)
Theorem X5_sum_tool_adds_integers :
  forall (World : Type) (presenter : World -> list (string * PresenterProp))
         (options : DirectServerOptions World) (message : JSONRPCMessage)
         (p : Value) (numbers : list Z) (h : Heap World (DirectServer World)),
    this h = constructor presenter options ->
    method message = Some "call_tool" ->
    params message = Some p ->
    requested_name p = VStr "sum" ->
    get (requested_arguments p) "numbers" = VArr (map VNum numbers) ->
    sums_safely 0 numbers ->
    fst (handleRequest message h)
    = Returned (Response (id_or message "call_tool")
                  (VObj [("content",
                          VArr [VObj [("type", VStr "text");
                                      ("text",
                                       JSON_stringify
                                         (VObj [("sum", VNum (total numbers))]))]])])).
Proof.
  intros World presenter options message p numbers h Hthis Hm Hp Hname Hnumbers _.
  rewrite (sum_call presenter options message p h Hthis Hm Hp Hname).
  unfold sum_handler, outside, invoke. cbn [run fst].
  rewrite Hnumbers, sum_of_numbers. reflexivity.
Qed.

(** X5 on the numbers 1 to 5. *)
Lemma X5_sum_tool_adds_integers_witness :
  fst (handleRequest call_sum (at_rest tt example_server))
  = Returned (Response (IdNumber 4)
                (VObj [("content",
                        VArr [VObj [("type", VStr "text");
                                    ("text", JSON_stringify (VObj [("sum", VNum 15)]))]])])).
Proof.
  apply (X5_sum_tool_adds_integers unit no_presenters
           {| info := ("direct-server-example", "1.0.0"); tools := None |}
           call_sum
           (VObj [("name", VStr "sum");
                  ("arguments",
                   VObj [("numbers", VArr [VNum 1; VNum 2; VNum 3; VNum 4; VNum 5])])])
           [1; 2; 3; 4; 5]%Z (at_rest tt example_server));
    try reflexivity.
  cbn. unfold safe_integer. lia.
Defined.

(** X6.  On every constructed server a [sum] call fails with code
    -32000 in two ways: when [numbers] is not an array (or is absent),
    with the text "参数必须是一个数字数组"; and when the array holds,
    after any numbers, a value that is not a number, with the text
    "数组中包含非数字值: " followed by that value, the first such value
    being the one reported whatever follows it. *)
Theorem X6_sum_tool_reports_first_non_number :
  forall (World : Type) (presenter : World -> list (string * PresenterProp))
         (options : DirectServerOptions World) (message : JSONRPCMessage)
         (p : Value) (h : Heap World (DirectServer World)),
    this h = constructor presenter options ->
    method message = Some "call_tool" ->
    params message = Some p ->
    requested_name p = VStr "sum" ->
    (isArray (get (requested_arguments p) "numbers") = false ->
     fst (handleRequest message h)
     = Returned (ErrorResponse (id_or message "error") (-32000)
                   "参数必须是一个数字数组"))
    /\ (forall (numbers : list Z) (bad : Value) (rest : list Value),
          get (requested_arguments p) "numbers"
          = VArr (map VNum numbers ++ bad :: rest) ->
          not_a_number bad = true ->
          fst (handleRequest message h)
          = Returned (ErrorResponse (id_or message "error") (-32000)
                        ("数组中包含非数字值: " ++ toString bad))).
Proof.
  intros World presenter options message p h Hthis Hm Hp Hname.
  rewrite (sum_call presenter options message p h Hthis Hm Hp Hname).
  unfold sum_handler, outside, invoke. cbn [run fst]. split.
  - intros Hnot. now destruct (get (requested_arguments p) "numbers").
  - intros numbers bad rest -> Hbad.
    rewrite fold_left_app, sum_of_numbers. cbn [fold_left sum_step].
    rewrite (not_a_number_Number bad Hbad), sum_step_thrown. reflexivity.
Qed.

(** X6 on a call without [numbers] and on a call whose third element is
    the word "three". *)
Lemma X6_sum_tool_reports_first_non_number_witness :
  fst (handleRequest call_sum_without_numbers (at_rest tt example_server))
  = Returned (ErrorResponse (IdNumber 5) (-32000) "参数必须是一个数字数组")
  /\ fst (handleRequest call_sum_of_words (at_rest tt example_server))
     = Returned (ErrorResponse (IdNumber 11) (-32000) "数组中包含非数字值: three").
Proof.
  split.
  - apply (proj1 (X6_sum_tool_reports_first_non_number unit no_presenters
                    {| info := ("direct-server-example", "1.0.0"); tools := None |}
                    call_sum_without_numbers
                    (VObj [("name", VStr "sum"); ("arguments", VObj [])])
                    (at_rest tt example_server) eq_refl eq_refl eq_refl eq_refl)).
    reflexivity.
  - apply (proj2 (X6_sum_tool_reports_first_non_number unit no_presenters
                    {| info := ("direct-server-example", "1.0.0"); tools := None |}
                    call_sum_of_words
                    (VObj [("name", VStr "sum");
                           ("arguments",
                            VObj [("numbers",
                                   VArr [VNum 1; VNum 2; VStr "three"; VStr "four"])])])
                    (at_rest tt example_server) eq_refl eq_refl eq_refl eq_refl)
             [1; 2]%Z (VStr "three") [VStr "four"]); reflexivity.
Defined.

Lemma map_entries_returns (l : list (string * PresenterProp)) :
  forallb (fun kp => has_prototype (snd kp)) l = true ->
  exists entries,
    map_entries l = Returned entries
    /\ map (fun e => get e "name") entries = map (fun kp => VStr (fst kp)) l.
Proof.
  induction l as [| [key p] rest IH]; cbn [forallb map_entries snd].
  - intros _. now exists [].
  - intros H. apply andb_true_iff in H. destruct H as [Hp Hrest].
    destruct (IH Hrest) as (entries & -> & Hnames).
    destruct p as [| | ctor [n |]]; try discriminate Hp;
      (eexists; split; [reflexivity |]); cbn; now rewrite Hnames.
Qed.

Lemma map_entries_throws (l : list (string * PresenterProp)) :
  forallb (fun kp => has_prototype (snd kp)) l = false ->
  exists e, map_entries l = Thrown e.
Proof.
  induction l as [| [key p] rest IH]; cbn [forallb map_entries snd]; [discriminate |].
  intros H. apply andb_false_iff in H.
  destruct (has_prototype p) eqn:Hp.
  - destruct H as [H | H]; [discriminate |]. destruct (IH H) as [e ->].
    destruct (presenter_entry (key, p)); eauto.
  - destruct p as [| | ctor [n |]]; try discriminate Hp. cbn. eauto.
Qed.

(** X7.  The [listPresenters] tool ignores its arguments and leaves the
    world and the server alone.  It lists, in the order of the object's keys, exactly
    the properties whose key does not start with an underscore and
    whose value has type object; but a single listed value without a
    prototype makes the whole call throw. *)
Theorem X7_listPresenters_lists_public_objects :
  forall (World : Type) (presenter : World -> list (string * PresenterProp))
         (args : Value) (w : World),
    let kept :=
      filter (fun kp => negb (startsWith_underscore (fst kp)) && is_object (snd kp))
             (presenter w) in
    (forallb (fun kp => has_prototype (snd kp)) kept = true ->
     exists entries,
       run (listPresenters_handler presenter) args w
       = (Returned (VObj [("presenters", VArr entries)]), w, [])
       /\ map (fun e => get e "name") entries = map (fun kp => VStr (fst kp)) kept)
    /\ (forallb (fun kp => has_prototype (snd kp)) kept = false ->
        exists e, run (listPresenters_handler presenter) args w = (Thrown e, w, [])).
Proof.
  intros World presenter args w kept. unfold listPresenters_handler, outside.
  cbn [run]. change (filter _ (presenter w)) with kept. split; intros H.
  - destruct (map_entries_returns kept H) as (entries & -> & Hnames). now exists entries.
  - destruct (map_entries_throws kept H) as [e ->]. now exists e.
Qed.

(** X7 on an object with a private key, a function and two presenters. *)
Lemma X7_listPresenters_lists_public_objects_witness :
  exists entries,
    run (listPresenters_handler some_presenters) (VObj []) tt
    = (Returned (VObj [("presenters", VArr entries)]), tt, [])
    /\ map (fun e => get e "name") entries
       = [VStr "configPresenter"; VStr "mcpPresenter"].
Proof.
  exact (proj1 (X7_listPresenters_lists_public_objects unit some_presenters
                  (VObj []) tt) eq_refl).
Defined.

End DirectServerMore.

(* ================================================================== *)
(** * Further properties of the direct transport                       *)
(* ================================================================== *)

Module DirectTransportMore.
Import Js Protocol Async DirectTransport DirectTransportFacts Examples.

Section Lifecycle.
Context {World : Type}.

Lemma start_connected (h : Heap World (DirectTransport World)) :
  _isConnected (this h) = true ->
  start h = (Thrown (ErrorObject "DirectTransport已经启动！"), h).
Proof. intros Hc. unfold start, bind, get_this. now rewrite Hc. Qed.

Lemma start_idle (h : Heap World (DirectTransport World)) :
  _isConnected (this h) = false ->
  start h
  = (Returned tt,
     {| this := set_emitter (_emitter (this h) ++ [("response", ForwardToOnmessage)])
                  (set_isConnected true (this h));
        env := env h |}).
Proof.
  intros Hc. unfold start, bind, get_this, update, set_this, ret. rewrite Hc.
  reflexivity.
Qed.

Lemma close_disconnects (h : Heap World (DirectTransport World)) :
  _isConnected (this (snd (close h))) = false.
Proof.
  destruct (_isConnected (this h)) eqn:Hc.
  - destruct (close_connected h Hc) as (new & -> & _). reflexivity.
  - now rewrite (close_idle h Hc).
Qed.

Lemma start_connects (h : Heap World (DirectTransport World)) :
  _isConnected (this (snd (start h))) = true.
Proof.
  destruct (_isConnected (this h)) eqn:Hc.
  - now rewrite (start_connected h Hc).
  - now rewrite (start_idle h Hc).
Qed.

Lemma step_keeps_listeners (s : Step World) (h : Heap World (DirectTransport World)) :
  listeners_match_connection (this h) ->
  listeners_match_connection (this (snd (step s h))).
Proof.
  unfold listeners_match_connection. intros Hinv.
  destruct s as [f | f | f | | | message]; cbn [step];
    try (unfold update, bind, get_this, set_this; cbn; exact Hinv).
  - destruct (_isConnected (this h)) eqn:Hc.
    + rewrite (start_connected h Hc). cbn [snd]. now rewrite Hc.
    + rewrite (start_idle h Hc). cbn. now rewrite Hinv.
  - destruct (_isConnected (this h)) eqn:Hc.
    + destruct (close_connected h Hc) as (new & -> & _). reflexivity.
    + rewrite (close_idle h Hc). cbn [snd]. now rewrite Hc.
  - now rewrite send_this.
Qed.

(** The body of the [try] block on a connected transport whose handler
    returns [r]: the response goes to the one listener. *)
Lemma dispatch_connected (message r : JSONRPCMessage) (w1 : World)
    (h : Heap World (DirectTransport World)) :
  _isConnected (this h) = true ->
  listeners_match_connection (this h) ->
  handleMessage (_options (this h)) message (world (env h)) = (Returned r, w1) ->
  dispatch message h
  = match onmessage (this h) with
    | Some f =>
        (fst (f r w1),
         {| this := this h;
            env := {| world := snd (f r w1);
                      calls := calls (env h)
                                 ++ [HandleMessageCall message; OnmessageCall r] |} |})
    | None =>
        (Returned tt,
         {| this := this h;
            env := {| world := w1;
                      calls := calls (env h) ++ [HandleMessageCall message] |} |})
    end.
Proof.
  unfold listeners_match_connection.
  destruct h as [[opts em conn oc oe om] [w c]]. cbn [this env world calls _isConnected
    _emitter _options onmessage]. intros -> -> Hrun.
  unfold dispatch, emit, bind, get_this, call.
  cbn [this env world calls _options _emitter]. rewrite Hrun.
  cbn [this env world calls _options _emitter emit_to String.eqb].
  change ("response" =? "response") with true. cbn iota.
  unfold bind, run_listener, get_this, call, ret. cbn [this onmessage env world calls].
  destruct om as [f |]; [| reflexivity].
  cbn. destruct (f r w1) as [[[] | e] w2]; cbn; now rewrite <- app_assoc.
Qed.

End Lifecycle.

(** X8.  Of two [start] calls in a row the second always throws
    "DirectTransport已经启动！" and changes nothing.  A [start] that
    follows a [close] always succeeds and leaves the transport
    connected, also when that [close] threw: a closed transport can be
    started again. *)
Theorem X8_start_after_start_and_after_close :
  forall (World : Type) (h : Heap World (DirectTransport World)),
    start (snd (start h))
    = (Thrown (ErrorObject "DirectTransport已经启动！"), snd (start h))
    /\ fst (start (snd (close h))) = Returned tt
    /\ _isConnected (this (snd (start (snd (close h))))) = true.
Proof.
  intros World h. split; [| split].
  - apply start_connected, start_connects.
  - now rewrite (start_idle _ (close_disconnects h)).
  - apply start_connects.
Qed.

(** X9.  However a client uses a transport from its construction on
    (assigning callbacks, starting, closing and sending in any order,
    going on after a throw), the emitter holds exactly the one listener
    that forwards responses while the transport is connected and none
    while it is not: listeners never pile up across restarts and none
    survives a close. *)
Theorem X9_listeners_follow_connection :
  forall (World : Type) (options : DirectTransportOptions World)
         (steps : list (Step World)) (e : Env World),
    listeners_match_connection
      (this (after steps {| this := constructor options; env := e |})).
Proof.
  intros World options steps e.
  assert (Hall : forall h : Heap World (DirectTransport World),
             listeners_match_connection (this h) ->
             listeners_match_connection (this (after steps h))).
  { induction steps as [| s rest IH]; intros h Hinv; cbn [after]; [exact Hinv |].
    apply IH. now apply step_keeps_listeners. }
  apply Hall. reflexivity.
Qed.

(** X10.  [send] on a transport that is not connected throws "未连接"
    and touches nothing: the message handler is not invoked and no
    callback runs.  This is so on a transport that was never started
    and, whatever happened before, after every [close]. *)
Theorem X10_send_requires_connection :
  forall (World : Type) (options : DirectTransportOptions World) (e : Env World)
         (h : Heap World (DirectTransport World)) (message : JSONRPCMessage),
    send message {| this := constructor options; env := e |}
    = (Thrown (ErrorObject "未连接"), {| this := constructor options; env := e |})
    /\ send message (snd (close h))
       = (Thrown (ErrorObject "未连接"), snd (close h)).
Proof.
  intros World options e h message. split.
  - now apply send_idle.
  - apply send_idle, close_disconnects.
Qed.

(** X11.  On a connected transport whose message handler returns a
    response, [send] hands that response to [onmessage] exactly once,
    after the handler and with nothing else called, and returns; when
    no [onmessage] is assigned the response is dropped and [send]
    returns all the same. *)
Theorem X11_send_delivers_response_once :
  forall (World : Type) (message r : JSONRPCMessage) (w1 : World)
         (h : Heap World (DirectTransport World)),
    _isConnected (this h) = true ->
    listeners_match_connection (this h) ->
    handleMessage (_options (this h)) message (world (env h)) = (Returned r, w1) ->
    (forall f w2,
        onmessage (this h) = Some f -> f r w1 = (Returned tt, w2) ->
        send message h
        = (Returned tt,
           {| this := this h;
              env := {| world := w2;
                        calls := calls (env h)
                                   ++ [HandleMessageCall message; OnmessageCall r] |} |}))
    /\ (onmessage (this h) = None ->
        send message h
        = (Returned tt,
           {| this := this h;
              env := {| world := w1;
                        calls := calls (env h) ++ [HandleMessageCall message] |} |})).
Proof.
  intros World message r w1 h Hc Hinv Hrun.
  pose proof (dispatch_connected message r w1 h Hc Hinv Hrun) as Hd.
  split.
  - intros f w2 Hf Hfr. rewrite Hf, Hfr in Hd. cbn [fst snd] in Hd.
    exact (send_delivered _ _ _ Hc Hd).
  - intros Hnone. rewrite Hnone in Hd. exact (send_delivered _ _ _ Hc Hd).
Qed.

(** X11 on a transport that echoes: with a counting [onmessage], and
    with none. *)
Lemma X11_send_delivers_response_once_witness :
  send list_request (at_rest 0%nat relaying_transport)
  = (Returned tt,
     {| this := relaying_transport;
        env := {| world := 1%nat;
                  calls := [HandleMessageCall list_request;
                            OnmessageCall list_request] |} |})
  /\ send list_request (at_rest 0%nat silent_transport)
     = (Returned tt,
        {| this := silent_transport;
           env := {| world := 0%nat;
                     calls := [HandleMessageCall list_request] |} |}).
Proof.
  split.
  - exact (proj1 (X11_send_delivers_response_once nat list_request list_request
                    0%nat (at_rest 0%nat relaying_transport) eq_refl eq_refl eq_refl)
                 (fun _ received => (Returned tt, S received)) 1%nat eq_refl eq_refl).
  - exact (proj2 (X11_send_delivers_response_once nat list_request list_request
                    0%nat (at_rest 0%nat silent_transport) eq_refl eq_refl eq_refl)
                 eq_refl).
Defined.

(** X12.  A failure of the client's own [onmessage] callback does not
    reach the caller of [send]: it is caught like a failure of the
    message handler and handed to [onerror], wrapped in an [Error]
    unless it is one; [send] then ends as [onerror] ends. *)
Theorem X12_onmessage_failure_goes_to_onerror :
  forall (World : Type) (message r : JSONRPCMessage) (w1 w2 : World) (e : JsError)
         (f : JSONRPCMessage -> External World unit)
         (g : JsError -> External World unit)
         (h : Heap World (DirectTransport World)),
    _isConnected (this h) = true ->
    listeners_match_connection (this h) ->
    handleMessage (_options (this h)) message (world (env h)) = (Returned r, w1) ->
    onmessage (this h) = Some f ->
    f r w1 = (Thrown e, w2) ->
    onerror (this h) = Some g ->
    send message h
    = (fst (g (asError e) w2),
       {| this := this h;
          env := {| world := snd (g (asError e) w2);
                    calls := calls (env h)
                               ++ [HandleMessageCall message; OnmessageCall r;
                                   OnerrorCall (asError e)] |} |}).
Proof.
  intros World message r w1 w2 e f g h Hc Hinv Hrun Hf Hfr Hg.
  pose proof (dispatch_connected message r w1 h Hc Hinv Hrun) as Hd.
  rewrite Hf, Hfr in Hd. cbn [fst snd] in Hd.
  rewrite (send_failed _ _ _ _ Hc Hd), Hg. unfold call. cbn [this env world calls].
  destruct (g (asError e) w2) as [o w3]. cbn [fst snd]. now rewrite <- app_assoc.
Qed.

(** X12 on a transport whose [onmessage] throws a string. *)
Lemma X12_onmessage_failure_goes_to_onerror_witness :
  send list_request (at_rest 0%nat choking_transport)
  = (Returned tt,
     {| this := choking_transport;
        env := {| world := 1%nat;
                  calls := [HandleMessageCall list_request;
                            OnmessageCall list_request;
                            OnerrorCall (ErrorObject "cannot render")] |} |}).
Proof.
  exact (X12_onmessage_failure_goes_to_onerror nat list_request list_request
           0%nat 0%nat (ThrownValue (VStr "cannot render"))
           (fun _ w => (Thrown (ThrownValue (VStr "cannot render")), w))
           counting_onerror (at_rest 0%nat choking_transport)
           eq_refl eq_refl eq_refl eq_refl eq_refl eq_refl).
Defined.

(** X13.  Over the transport a server creates for itself, a request
    with an id is answered through [onmessage] by exactly one message,
    the one [handleRequest] returns, which carries the request's id;
    [onerror] is not involved.  The server's registry is afterwards as
    the tool handler the request reached left it, and as before when
    the request reached none. *)
Theorem X13_direct_transport_answers_request :
  forall (World : Type)
         (t : DirectTransport (Heap World (DirectServer.DirectServer World)))
         (server : Heap World (DirectServer.DirectServer World))
         (c : list Call) (message : JSONRPCMessage) (i : RequestId)
         (f : JSONRPCMessage
              -> External (Heap World (DirectServer.DirectServer World)) unit),
    _options t = _options createDirectTransport ->
    _isConnected t = true ->
    listeners_match_connection t ->
    onmessage t = Some f ->
    id message = Some i ->
    exists (r : JSONRPCMessage) (server' : Heap World (DirectServer.DirectServer World)),
      DirectServer.handleRequest message server = (Returned r, server')
      /\ id r = Some i
      /\ this server'
         = DirectServer.act (DirectServer.performed message server) (this server)
      /\ (DirectServer.dispatched message (this server) = None -> server' = server)
      /\ forall server'',
           f r server' = (Returned tt, server'') ->
           send message {| this := t; env := {| world := server; calls := c |} |}
           = (Returned tt,
              {| this := t;
                 env := {| world := server'';
                           calls := c ++ [HandleMessageCall message;
                                          OnmessageCall r] |} |}).
Proof.
  intros World t server c message i f Hopts Hc Hinv Hf Hi.
  destruct (DirectServerFacts.handleRequest_answers message server)
    as (r & server' & Hrun & _ & Hid).
  exists r, server'. split; [exact Hrun |]. split; [now apply Hid |].
  split.
  { rewrite <- (DirectServerFacts.handleRequest_this message server).
    now rewrite Hrun. }
  split.
  { intros Hnone.
    rewrite <- (proj1 (DirectServerFacts.handleRequest_without_handler message server
                         Hnone)).
    now rewrite Hrun. }
  intros server'' Hfr.
  set (h := {| this := t; env := {| world := server; calls := c |} |}).
  assert (Hm : handleMessage (_options (this h)) message (world (env h))
               = (Returned r, server')).
  { cbn [h this env world]. rewrite Hopts. exact Hrun. }
  pose proof (dispatch_connected message r server' h Hc Hinv Hm) as Hd.
  cbn [h this] in Hd. rewrite Hf, Hfr in Hd. cbn [fst snd] in Hd.
  exact (send_delivered message h _ Hc Hd).
Qed.

(** X13 on the example server, asked for its tools. *)
Lemma X13_direct_transport_answers_request_witness :
  exists (r : JSONRPCMessage) (server' : Heap unit (DirectServer.DirectServer unit)),
    DirectServer.handleRequest list_request (at_rest tt example_server)
    = (Returned r, server')
    /\ id r = Some (IdNumber 3)
    /\ server' = at_rest tt example_server
    /\ send list_request (at_rest (at_rest tt example_server) answering_transport)
       = (Returned tt,
          {| this := answering_transport;
             env := {| world := server';
                       calls := [HandleMessageCall list_request; OnmessageCall r] |} |}).
Proof.
  destruct (X13_direct_transport_answers_request unit answering_transport
              (at_rest tt example_server) [] list_request (IdNumber 3)
              (fun _ server => (Returned tt, server))
              eq_refl eq_refl eq_refl eq_refl eq_refl)
    as (r & server' & Hrun & Hid & _ & Hsame & Hsend).
  exists r, server'. split; [exact Hrun |]. split; [exact Hid |].
  split; [exact (Hsame eq_refl) |].
  exact (Hsend server' eq_refl).
Defined.

(** X20.  Closing a connected transport that has both a cleanup
    callback and an [onclose] callback calls the cleanup first and
    [onclose] second.  If the cleanup throws, [close] throws and
    [onclose] is not called; the transport is by then disconnected and
    without listeners, so a later [close] is a no-op and [onclose] is
    never told of this close. *)
Theorem X20_close_calls_cleanup_before_onclose :
  forall (World : Type) (f g : External World unit)
         (h : Heap World (DirectTransport World)),
    _isConnected (this h) = true ->
    onClose (_options (this h)) = Some f ->
    onclose (this h) = Some g ->
    let closed := set_emitter [] (set_isConnected false (this h)) in
    close h
    = match f (world (env h)) with
      | (Returned _, w1) =>
          (fst (g w1),
           {| this := closed;
              env := {| world := snd (g w1);
                        calls := calls (env h) ++ [OnCloseCall; OncloseCall] |} |})
      | (Thrown e, w1) =>
          (Thrown e,
           {| this := closed;
              env := {| world := w1; calls := calls (env h) ++ [OnCloseCall] |} |})
      end.
Proof.
  intros World f g h.
  destruct h as [[[hm oC] em conn oc oe om] [w c]].
  cbn [this env world calls _isConnected _options onClose onclose].
  intros -> -> ->.
  unfold close, update, bind, get_this, set_this, ret, call.
  cbn. destruct (f w) as [[[] | e] w1]; cbn; [| reflexivity].
  destruct (g w1) as [o w2]. cbn. now rewrite <- app_assoc.
Qed.

(** X20 on the transport whose cleanup callback throws, given an
    [onclose] callback. *)
Lemma X20_close_calls_cleanup_before_onclose_witness :
  close (snd (step (AssignOnclose (Some counting_onClose))
                (at_rest 0%nat fragile_transport)))
  = (Thrown (ErrorObject "cleanup failed"),
     {| this := set_emitter []
                  (set_isConnected false
                     (assign_onclose (Some counting_onClose) fragile_transport));
        env := {| world := 1%nat; calls := [OnCloseCall] |} |}).
Proof.
  exact (X20_close_calls_cleanup_before_onclose nat throwing_onClose counting_onClose
           (snd (step (AssignOnclose (Some counting_onClose))
                   (at_rest 0%nat fragile_transport)))
           eq_refl eq_refl eq_refl).
Defined.

End DirectTransportMore.

(* ================================================================== *)
(** * Further properties of the image server and of the builder        *)
(* ================================================================== *)

Module ImageServerMore.
Import Js Protocol Async ImageServer ImageServerFacts Examples.

(** Decides the comparisons of a tool name with the [case] labels. *)
Ltac switch :=
  unfold callTool, switch_name, try_catch;
  cbn [String.eqb Ascii.eqb Bool.eqb].

Section Calls.
Context {World : Type}.
Variable fs_readFile : string -> External World Buffer.
Variable r2_upload : string -> Buffer -> string -> string -> External World Value.
Variable Date_now : World -> Z.
Variable path_basename : string -> string.
Variable path_extname : string -> string.
Variable toLowerCase : string -> string.
Variable zodError : Value -> string.
Variable queryImageWithModel : string -> Buffer -> string -> M World ImageServer string.
Variable ocrImageWithModel : string -> Buffer -> M World ImageServer string.

Local Notation "'serve'" :=
  (callTool fs_readFile r2_upload Date_now path_basename path_extname toLowerCase
     zodError queryImageWithModel ocrImageWithModel).

Lemma unknown_tool (name : string) (args : Value) (h : Heap World ImageServer) :
  (forall schema, ~ In (name, schema) served_tools) ->
  serve name args h = (Returned (error_result ("Error: Unknown tool: " ++ name)), h).
Proof.
  intros Hout. unfold callTool, switch_name, try_catch.
  repeat match goal with
         | |- context [?n =? ?label] =>
             destruct (String.eqb_spec n label) as [-> | _];
             [exfalso; eapply Hout; cbn; eauto 10 |]
         end.
  reflexivity.
Qed.

Lemma invalid_arguments_reported (name : string) (schema : ArgsSchema) (args : Value)
    (h : Heap World ImageServer) :
  In (name, schema) served_tools ->
  safeParse_success schema args = false ->
  serve name args h
  = (Returned (error_result ("Error: Invalid arguments for " ++ name ++ ": "
                               ++ zodError args)), h).
Proof.
  intros Hin Hparse. cbn in Hin.
  repeat (destruct Hin as [Hin | Hin]; [injection Hin as <- <- |]);
    try contradiction; cbn [safeParse_success] in Hparse; switch.
  - destruct (parse_path args); [discriminate | reflexivity].
  - destruct (parse_path args); [discriminate | reflexivity].
  - destruct (parse_paths args); [discriminate | reflexivity].
  - destruct (parse_paths args); [discriminate | reflexivity].
  - destruct (parse_path args); [discriminate | reflexivity].
  - destruct (parse_path_prompt args) as [[] |]; [discriminate | reflexivity].
  - destruct (parse_path args); [discriminate | reflexivity].
Qed.

Lemma parse_path_get (args : Value) (p : string) :
  parse_path args = Some p -> get args "path" = VStr p.
Proof.
  destruct args as [| | b | n | s | items | props]; try discriminate. cbn.
  destruct (assoc "path" props) as [[| | b | n | s | items | props'] |];
    try discriminate.
  now intros [= ->].
Qed.

Lemma parse_path_prompt_get (args : Value) (p q : string) :
  parse_path_prompt args = Some (p, q) -> get args "path" = VStr p.
Proof.
  destruct args as [| | b | n | s | items | props]; try discriminate. cbn.
  destruct (assoc "path" props) as [[| | b | n | s | items | props'] |];
    try discriminate.
  destruct (assoc "prompt" props) as [[| | b' | n' | s' | items' | props'] |];
    try discriminate.
  now intros [= -> _].
Qed.

Lemma reading_failed (p : string) (rest : Buffer -> M World ImageServer Value)
    (h : Heap World ImageServer) (e : JsError) (w : World) :
  fs_readFile p (world (env h)) = (Thrown e, w) ->
  reading fs_readFile p rest h
  = (Returned (error_result ("Error: " ++ errorMessage e)),
     {| this := this h; env := {| world := w; calls := calls (env h) |} |}).
Proof.
  intros Hread. unfold reading, try_catch, bind, perform. now rewrite Hread.
Qed.

(** A single-image tool whose arguments pass its schema starts by
    reading the file; a failed read is what it reports. *)
Lemma accepted_call_reads (name : string) (schema : ArgsSchema) (args : Value)
    (h : Heap World ImageServer) :
  In (name, schema) served_tools ->
  safeParse_success schema args = true ->
  takes_paths schema = false ->
  exists (p : string) (rest : Buffer -> M World ImageServer Value),
    get args "path" = VStr p
    /\ (forall h0, serve name args h0 = reading fs_readFile p rest h0)
    /\ forall e w,
         fs_readFile p (world (env h)) = (Thrown e, w) ->
         serve name args h
         = (Returned (error_result ("Error: " ++ errorMessage e)),
            {| this := this h; env := {| world := w; calls := calls (env h) |} |}).
Proof.
  intros Hin Hparse Hsingle.
  enough (Hshape : exists (p : string) (rest : Buffer -> M World ImageServer Value),
             get args "path" = VStr p
             /\ forall h0, serve name args h0 = reading fs_readFile p rest h0).
  { destruct Hshape as (p & rest & Hpath & Hserve). exists p, rest.
    split; [exact Hpath |]. split; [exact Hserve |].
    intros e w Hread. rewrite Hserve. now apply reading_failed. }
  cbn in Hin.
  repeat (destruct Hin as [Hin | Hin]; [injection Hin as <- <- |]);
    try contradiction; try discriminate Hsingle; cbn [safeParse_success] in Hparse.
  1-3, 5:
    destruct (parse_path args) as [p |] eqn:Hp; [| discriminate Hparse];
    exists p; eexists; split; [now apply parse_path_get |];
    intros h0; switch; rewrite Hp; reflexivity.
  destruct (parse_path_prompt args) as [[p q] |] eqn:Hp; [| discriminate Hparse].
  exists p. eexists. split; [now apply (parse_path_prompt_get _ _ q) |].
  intros h0. switch. rewrite Hp. reflexivity.
Qed.

Lemma report_paths (field : string) (paths : list string)
    (outcomes : list (Outcome string)) :
  length outcomes = length paths ->
  map (fun entry => get entry "path") (report field paths outcomes) = map VStr paths.
Proof.
  revert outcomes. induction paths as [| p rest IH]; intros [| o os] Hlen;
    try discriminate Hlen; [reflexivity |].
  injection Hlen as Hlen. unfold report in *. cbn [combine map].
  rewrite (IH os Hlen). now destruct o.
Qed.

(** A batch tool whose arguments pass its schema returns a success
    result with one entry per given path, in the given order. *)
Lemma accepted_batch_reports (name : string) (schema : ArgsSchema) (args : Value)
    (h : Heap World ImageServer) :
  In (name, schema) served_tools ->
  safeParse_success schema args = true ->
  takes_paths schema = true ->
  exists paths entries h',
    parse_paths args = Some paths
    /\ serve name args h
       = (Returned (text_result (JSON_stringify_2 (VArr entries))), h')
    /\ map (fun entry => get entry "path") entries = map VStr paths.
Proof.
  intros Hin Hparse Hbatch. cbn in Hin.
  repeat (destruct Hin as [Hin | Hin]; [injection Hin as <- <- |]);
    try contradiction; try discriminate Hbatch; cbn [safeParse_success] in Hparse;
    (destruct (parse_paths args) as [paths |] eqn:Hp; [| discriminate Hparse]).
  - destruct (allSettled_report "base64" _ _ (read_one_follows fs_readFile)
                (or_introl eq_refl) paths h)
      as (outcomes & results & h' & _ & Hall & Hlen & Hfmt).
    exists paths, (report "base64" paths outcomes), h'.
    split; [reflexivity |]. split; [| now apply report_paths].
    switch. rewrite Hp. unfold bind, ret. now rewrite Hall, Hfmt.
  - destruct (allSettled_report "url" _ _
                (upload_one_follows fs_readFile r2_upload Date_now path_basename
                   path_extname toLowerCase)
                (or_intror eq_refl) paths h)
      as (outcomes & results & h' & _ & Hall & Hlen & Hfmt).
    exists paths, (report "url" paths outcomes), h'.
    split; [reflexivity |]. split; [| now apply report_paths].
    switch. rewrite Hp. unfold bind, ret. now rewrite Hall, Hfmt.
Qed.

(** X14.  The tools announced by the list-tools handler are the tools
    the call-tool handler serves, each validated with the schema it is
    announced with.  A call of an announced tool whose arguments fail
    that schema returns an error result "Error: Invalid arguments for
    <name>: ..." and touches nothing: no file is read, nothing is
    uploaded, no model is asked.  A call whose arguments pass that
    schema is not refused: a single-image tool reads the file at the
    given path and goes on with its bytes, so that a failed read is
    what it reports, and a batch tool returns a success result with one
    entry per given path.
    A call of any other name returns the error result "Error: Unknown
    tool: <name>", again touching nothing.  In none of these cases does
    the handler throw. *)
Theorem X14_announced_tools_are_served_and_validated :
  forall (zodToJsonSchema : ArgsSchema -> Value) (name : string) (args : Value)
         (h : Heap World ImageServer),
    listed (listTools zodToJsonSchema)
    = map (fun tool => (VStr (fst tool), zodToJsonSchema (snd tool))) served_tools
    /\ (forall schema,
          In (name, schema) served_tools ->
          safeParse_success schema args = false ->
          serve name args h
          = (Returned (error_result ("Error: Invalid arguments for " ++ name ++ ": "
                                       ++ zodError args)), h))
    /\ (forall schema,
          In (name, schema) served_tools ->
          safeParse_success schema args = true ->
          takes_paths schema = false ->
          exists (p : string) (rest : Buffer -> M World ImageServer Value),
            get args "path" = VStr p
            /\ (forall h0, serve name args h0 = reading fs_readFile p rest h0)
            /\ forall e w,
                 fs_readFile p (world (env h)) = (Thrown e, w) ->
                 serve name args h
                 = (Returned (error_result ("Error: " ++ errorMessage e)),
                    {| this := this h;
                       env := {| world := w; calls := calls (env h) |} |}))
    /\ (forall schema,
          In (name, schema) served_tools ->
          safeParse_success schema args = true ->
          takes_paths schema = true ->
          exists paths entries h',
            parse_paths args = Some paths
            /\ serve name args h
               = (Returned (text_result (JSON_stringify_2 (VArr entries))), h')
            /\ map (fun entry => get entry "path") entries = map VStr paths)
    /\ ((forall schema, ~ In (name, schema) served_tools) ->
        serve name args h
        = (Returned (error_result ("Error: Unknown tool: " ++ name)), h)).
Proof.
  intros zodToJsonSchema name args h. split; [reflexivity |].
  split; [intros schema; apply invalid_arguments_reported |].
  split; [intros schema; apply accepted_call_reads |].
  split; [intros schema; apply accepted_batch_reports |].
  apply unknown_tool.
Qed.

(** What the two reading tools do with one path. *)
Lemma read_single (p : string) (h : Heap World ImageServer) :
  serve "read_image_base64" (VObj [("path", VStr p)]) h
  = (match fst (fs_readFile p (world (env h))) with
     | Returned buffer => Returned (text_result (VStr (toBase64 buffer)))
     | Thrown e => Returned (error_result ("Error: " ++ errorMessage e))
     end,
     {| this := this h;
        env := {| world := snd (fs_readFile p (world (env h)));
                  calls := calls (env h) |} |}).
Proof.
  switch. cbn [parse_path assoc String.eqb Ascii.eqb Bool.eqb].
  unfold bind, perform, ret.
  destruct (fs_readFile p (world (env h))) as [[buffer | e] w]; reflexivity.
Qed.

Lemma read_batch_of_one (p : string) (h : Heap World ImageServer) :
  serve "read_multiple_images_base64" (batch_arguments [p]) h
  = (Returned
       (text_result
          (JSON_stringify_2
             (VArr [match fst (fs_readFile p (world (env h))) with
                    | Returned buffer =>
                        VObj [("path", VStr p); ("base64", VStr (toBase64 buffer))]
                    | Thrown e =>
                        VObj [("path", VStr p); ("error", VStr (errorMessage e))]
                    end]))),
     {| this := this h;
        env := {| world := snd (fs_readFile p (world (env h)));
                  calls := calls (env h) |} |}).
Proof.
  switch. cbn [batch_arguments parse_paths assoc String.eqb Ascii.eqb Bool.eqb map
               all_strings option_map allSettled].
  unfold read_one, bind, try_catch, perform, ret, throw.
  destruct (fs_readFile p (world (env h))) as [[buffer | e] w]; reflexivity.
Qed.

(** X15.  Reading one path with the single tool and with the batch tool
    reads the file once either way and reports the same base64 text or
    the same error message; but a failed read makes the single tool
    return an error result, whereas the batch tool returns a success
    result whose one entry carries the error. *)
Theorem X15_single_and_batch_read_agree :
  forall (p : string) (h : Heap World ImageServer),
    let read := fs_readFile p (world (env h)) in
    let after_read :=
      {| this := this h;
         env := {| world := snd read; calls := calls (env h) |} |} in
    serve "read_image_base64" (VObj [("path", VStr p)]) h
    = (match fst read with
       | Returned buffer => Returned (text_result (VStr (toBase64 buffer)))
       | Thrown e => Returned (error_result ("Error: " ++ errorMessage e))
       end, after_read)
    /\ serve "read_multiple_images_base64" (batch_arguments [p]) h
       = (Returned
            (text_result
               (JSON_stringify_2
                  (VArr [match fst read with
                         | Returned buffer =>
                             VObj [("path", VStr p); ("base64", VStr (toBase64 buffer))]
                         | Thrown e =>
                             VObj [("path", VStr p); ("error", VStr (errorMessage e))]
                         end]))), after_read).
Proof.
  intros p h read after_read. split; [apply read_single | apply read_batch_of_one].
Qed.

(** ** Uploading *)

Local Notation "'upload'" :=
  (uploadImageToService r2_upload Date_now path_basename path_extname toLowerCase).

Lemma upload_without_client (p : string) (buffer : Buffer) (h : Heap World ImageServer) :
  r2Client (this h) = false ->
  upload p buffer h
  = (Thrown (ErrorObject
               "R2 client not initialized. Check your Cloudflare R2 configuration."), h).
Proof.
  intros Hc. unfold uploadImageToService, bind, get_this. now rewrite Hc.
Qed.

(** With a client, the outcome of an upload in terms of what R2 and the
    configuration do. *)
Lemma upload_with_client (p : string) (buffer : Buffer) (h : Heap World ImageServer) :
  r2Client (this h) = true ->
  let '(bucket, key, mime) :=
    upload_request Date_now path_basename path_extname toLowerCase p h in
  let sent := r2_upload bucket buffer key mime (world (env h)) in
  upload p buffer h
  = (match fst sent with
     | Thrown e => Thrown (ErrorObject ("Failed to upload image to R2: " ++ errorMessage e))
     | Returned uploadResult =>
         match read_property uploadResult "uri" with
         | Thrown e =>
             Thrown (ErrorObject ("Failed to upload image to R2: " ++ errorMessage e))
         | Returned _ =>
             match publicUrlBase (this h) with
             | Some base =>
                 if isEmpty base then
                   Thrown (ErrorObject
                             ("Failed to upload image to R2: "
                                ++ "No public URL configuration available for R2. Please set R2_PUBLIC_URL environment variable or configure a publicUrlBase."))
                 else Returned (strip_trailing_slashes base ++ "/" ++ key)
             | None =>
                 Thrown (ErrorObject
                           ("Failed to upload image to R2: "
                              ++ "No public URL configuration available for R2. Please set R2_PUBLIC_URL environment variable or configure a publicUrlBase."))
             end
         end
     end,
     {| this := this h; env := {| world := snd sent; calls := calls (env h) |} |}).
Proof.
  intros Hc. unfold upload_request. cbv zeta.
  unfold uploadImageToService, bind, get_this, try_catch, perform, evaluate, ret, throw.
  rewrite Hc. cbn [negb this env world calls].
  destruct (r2_upload _ buffer _ _ (world (env h))) as [[v | e] w]; cbn [fst snd];
    [| reflexivity].
  destruct (read_property v "uri") as [uri | e]; [| reflexivity].
  destruct (publicUrlBase (this h)) as [base |]; [| reflexivity].
  now destruct (isEmpty base).
Qed.

Lemma read_property_defined (v : Value) (k : string) :
  nullish v = false -> read_property v k = Returned (get v k).
Proof. now destruct v. Qed.

(** X16.  On a server without an R2 client, which is what the
    constructor leaves when one of the three credentials is missing or
    empty, [upload_image] reads the file and then returns the error
    result "Error: R2 client not initialized. ..."; neither the clock
    nor R2 is reached. *)
Theorem X16_upload_without_credentials :
  forall (R2_constructs : string -> string -> string -> option string -> bool)
         (provider model : string)
         (accountId accessKeyId secretAccessKey endpoint bucket base : option string)
         (p : string) (buffer : Buffer) (w : World) (h : Heap World ImageServer),
    given accountId && given accessKeyId && given secretAccessKey = false ->
    this h = constructor R2_constructs provider model accountId accessKeyId
               secretAccessKey endpoint bucket base ->
    fs_readFile p (world (env h)) = (Returned buffer, w) ->
    serve "upload_image" (VObj [("path", VStr p)]) h
    = (Returned
         (error_result
            "Error: R2 client not initialized. Check your Cloudflare R2 configuration."),
       {| this := this h; env := {| world := w; calls := calls (env h) |} |}).
Proof.
  intros R2_constructs provider model accountId accessKeyId secretAccessKey endpoint
    bucket base p buffer w h Hgiven Hthis Hread.
  assert (Hclient : r2Client (this h) = false).
  { rewrite Hthis. unfold constructor.
    destruct accountId, accessKeyId, secretAccessKey; try reflexivity.
    now rewrite Hgiven. }
  switch. cbn [parse_path assoc String.eqb Ascii.eqb Bool.eqb].
  unfold bind, perform. rewrite Hread.
  rewrite upload_without_client by exact Hclient. reflexivity.
Qed.

(** X17.  With an R2 client but no public URL base (absent or empty),
    an upload is sent to R2 all the same, to the configured bucket or
    "temp", under the key images/<clock>-<base name>; only after R2 has
    accepted it, answering with an object, does the call fail, with
    "Failed to upload image to R2: No public URL configuration ...".
    The stored object is left behind. *)
Theorem X17_upload_is_sent_before_the_url_check :
  forall (p : string) (buffer : Buffer) (v : Value) (w : World)
         (h : Heap World ImageServer),
    r2Client (this h) = true ->
    match publicUrlBase (this h) with
    | Some base => isEmpty base = true
    | None => True
    end ->
    nullish v = false ->
    let '(bucket, key, mime) :=
      upload_request Date_now path_basename path_extname toLowerCase p h in
    r2_upload bucket buffer key mime (world (env h)) = (Returned v, w) ->
    upload p buffer h
    = (Thrown (ErrorObject
                 ("Failed to upload image to R2: "
                    ++ "No public URL configuration available for R2. Please set R2_PUBLIC_URL environment variable or configure a publicUrlBase.")),
       {| this := this h; env := {| world := w; calls := calls (env h) |} |}).
Proof.
  intros p buffer v w h Hc Hbase Hv.
  pose proof (upload_with_client p buffer h Hc) as H.
  unfold upload_request in *. cbv zeta in *. intros Hsent.
  rewrite Hsent in H. cbn [fst snd] in H.
  rewrite (read_property_defined v "uri" Hv) in H. rewrite H.
  destruct (publicUrlBase (this h)) as [base |]; [now rewrite Hbase | reflexivity].
Qed.

Lemma list_ascii_app (s1 s2 : string) :
  list_ascii_of_string (s1 ++ s2)
  = (list_ascii_of_string s1 ++ list_ascii_of_string s2)%list.
Proof. induction s1 as [| c s1 IH]; cbn; [reflexivity | now rewrite IH]. Qed.

Lemma strip_ignores_one_more_slash (base : string) :
  strip_trailing_slashes (base ++ "/") = strip_trailing_slashes base.
Proof.
  unfold strip_trailing_slashes. rewrite list_ascii_app, rev_app_distr. reflexivity.
Qed.

Lemma drop_slashes_head (cs : list ascii) (rest : list ascii) :
  drop_slashes cs <> "/"%char :: rest.
Proof.
  induction cs as [| c cs IH]; cbn; [discriminate |].
  destruct (nat_of_ascii c =? 47)%nat eqn:E; [exact IH |].
  intros H. injection H as -> _. discriminate E.
Qed.

Lemma strip_leaves_no_slash (base front : string) :
  strip_trailing_slashes base <> front ++ "/".
Proof.
  unfold strip_trailing_slashes. intros H.
  apply (f_equal list_ascii_of_string) in H.
  rewrite list_ascii_of_string_of_list_ascii, list_ascii_app in H.
  apply (f_equal (@rev ascii)) in H.
  rewrite rev_involutive, rev_app_distr in H. cbn in H.
  now apply drop_slashes_head in H.
Qed.

(** X18.  With an R2 client and a non-empty public URL base, an upload
    that R2 accepts, answering with an object, returns the base without
    its trailing slashes, followed by /images/<clock>-<base name>.  One more slash at the end
    of the base changes nothing, and the part before /images never ends
    in a slash. *)
Theorem X18_upload_url :
  forall (p base : string) (buffer : Buffer) (v : Value) (w : World)
         (h : Heap World ImageServer),
    r2Client (this h) = true ->
    publicUrlBase (this h) = Some base ->
    isEmpty base = false ->
    nullish v = false ->
    let '(bucket, key, mime) :=
      upload_request Date_now path_basename path_extname toLowerCase p h in
    r2_upload bucket buffer key mime (world (env h)) = (Returned v, w) ->
    upload p buffer h
    = (Returned (strip_trailing_slashes base ++ "/images/"
                   ++ string_of_Z (Date_now (world (env h))) ++ "-" ++ path_basename p),
       {| this := this h; env := {| world := w; calls := calls (env h) |} |})
    /\ strip_trailing_slashes (base ++ "/") = strip_trailing_slashes base
    /\ (forall front, strip_trailing_slashes base <> front ++ "/").
Proof.
  intros p base buffer v w h Hc Hbase Hne Hv.
  pose proof (upload_with_client p buffer h Hc) as H.
  unfold upload_request in *. cbv zeta in *. intros Hsent.
  rewrite Hsent, Hbase, Hne in H. cbn [fst snd] in H.
  rewrite (read_property_defined v "uri" Hv) in H.
  split; [exact H |]. split; [apply strip_ignores_one_more_slash |].
  intros front. apply strip_leaves_no_slash.
Qed.

Lemma upload_this (p : string) (buffer : Buffer) (h : Heap World ImageServer) :
  this (snd (upload p buffer h)) = this h.
Proof.
  destruct (r2Client (this h)) eqn:Hc.
  - pose proof (upload_with_client p buffer h Hc) as H.
    unfold upload_request in H. cbv zeta in H. now rewrite H.
  - now rewrite (upload_without_client p buffer h Hc).
Qed.

Lemma upload_without_base (p : string) (buffer : Buffer) (h : Heap World ImageServer) :
  publicUrlBase (this h) = None -> isReturned (fst (upload p buffer h)) = false.
Proof.
  intros Hbase. destruct (r2Client (this h)) eqn:Hc.
  - pose proof (upload_with_client p buffer h Hc) as H.
    unfold upload_request in H. cbv zeta in H. rewrite H, Hbase. cbn [fst].
    destruct (fst (r2_upload _ buffer _ _ (world (env h)))) as [v | e]; [| reflexivity].
    now destruct (read_property v "uri").
  - now rewrite (upload_without_client p buffer h Hc).
Qed.

Lemma upload_operation_without_base (p : string) (h : Heap World ImageServer) :
  publicUrlBase (this h) = None ->
  isReturned (fst (upload_operation fs_readFile r2_upload Date_now path_basename
                     path_extname toLowerCase p h)) = false
  /\ this (snd (upload_operation fs_readFile r2_upload Date_now path_basename
                  path_extname toLowerCase p h)) = this h.
Proof.
  intros Hbase. unfold upload_operation, bind, perform.
  destruct (fs_readFile p (world (env h))) as [[buffer | e] w]; [| now split].
  set (h1 := {| this := this h; env := {| world := w; calls := calls (env h) |} |}).
  pose proof (upload_without_base p buffer h1 Hbase) as Hfail.
  pose proof (upload_this p buffer h1) as Hthis.
  destruct (upload p buffer h1) as [o h2]. now split.
Qed.

Lemma uploads_all_fail (paths : list string) (h : Heap World ImageServer) :
  publicUrlBase (this h) = None ->
  exists outcomes h',
    attempt_each (upload_operation fs_readFile r2_upload Date_now path_basename
                    path_extname toLowerCase) paths h
    = (Returned outcomes, h')
    /\ failures outcomes = length paths.
Proof.
  revert h. induction paths as [| p rest IH]; intros h Hbase; cbn [attempt_each].
  - exists [], h. now split.
  - unfold bind, attempt.
    destruct (upload_operation_without_base p h Hbase) as [Hfail Hthis].
    destruct (upload_operation _ _ _ _ _ _ p h) as [o h1]. cbn [fst snd] in *.
    assert (Hbase1 : publicUrlBase (this h1) = None) by now rewrite Hthis.
    destruct (IH h1 Hbase1) as (os & h2 & -> & Hlen).
    exists (o :: os), h2. split; [reflexivity |].
    destruct o as [url | e]; [discriminate Hfail |].
    rewrite failures_cons_thrown. cbn. now rewrite Hlen.
Qed.

End Calls.

(** X14 on a tool called without arguments, on a tool called with a
    path that cannot be read, on a batch of two paths, and on a name
    that is not announced. *)
Lemma X14_announced_tools_are_served_and_validated_witness :
  run_image_tool "ocr_image" VUndefined
  = (Returned (error_result "Error: Invalid arguments for ocr_image: Required"),
     at_rest tt image_server)
  /\ run_image_tool "describe_image" (VObj [("path", VStr "missing.png")])
     = (Returned (error_result
                    "Error: ENOENT: no such file or directory, open 'missing.png'"),
        at_rest tt image_server)
  /\ (exists entries h',
        run_image_tool "read_multiple_images_base64"
          (VObj [("paths", VArr [VStr "a.png"; VStr "missing.png"]);
                 ("note", VStr "thumbnails")])
        = (Returned (text_result (JSON_stringify_2 (VArr entries))), h')
        /\ map (fun entry => get entry "path") entries
           = [VStr "a.png"; VStr "missing.png"])
  /\ run_image_tool "resize_image" (VObj [("path", VStr "a.png")])
     = (Returned (error_result "Error: Unknown tool: resize_image"),
        at_rest tt image_server).
Proof.
  pose proof (X14_announced_tools_are_served_and_validated
                two_files accepting_upload (fun _ => 1700000000000%Z)
                (fun path => path) (fun _ => ".png") (fun s => s)
                (fun _ => "Required")
                (fun _ _ _ => throw (ErrorObject "model unavailable"))
                (fun _ _ => throw (ErrorObject "model unavailable"))
                (fun _ => VNull)) as H.
  split; [| split; [| split]].
  - apply (proj1 (proj2 (H "ocr_image" VUndefined (at_rest tt image_server)))
             OcrImageArgsSchema); [cbn; tauto | reflexivity].
  - destruct (proj1 (proj2 (proj2 (H "describe_image"
                                     (VObj [("path", VStr "missing.png")])
                                     (at_rest tt image_server))))
                DescribeImageArgsSchema) as (p & rest & Hp & _ & Hread);
      [cbn; tauto | reflexivity | reflexivity |].
    injection Hp as <-. exact (Hread _ tt eq_refl).
  - destruct (proj1 (proj2 (proj2 (proj2
                (H "read_multiple_images_base64"
                   (VObj [("paths", VArr [VStr "a.png"; VStr "missing.png"]);
                          ("note", VStr "thumbnails")])
                   (at_rest tt image_server)))))
                ReadMultipleImagesBase64ArgsSchema)
      as (paths & entries & h' & Hp & Hrun & Hpaths);
      [cbn; tauto | reflexivity | reflexivity |].
    injection Hp as <-. now exists entries, h'.
  - apply (proj2 (proj2 (proj2 (proj2 (H "resize_image" (VObj [("path", VStr "a.png")])
                                         (at_rest tt image_server)))))).
    intros schema Hin. cbn in Hin.
    repeat (destruct Hin as [Hin | Hin]; [discriminate Hin |]). exact Hin.
Defined.

(** X16 on a server constructed with an account id only. *)
Lemma X16_upload_without_credentials_witness :
  callTool two_files accepting_upload (fun _ => 1700000000000%Z)
    (fun path => path) (fun _ => ".png") (fun s => s) (fun _ => "Required")
    (fun _ _ _ => throw (ErrorObject "model unavailable"))
    (fun _ _ => throw (ErrorObject "model unavailable"))
    "upload_image" (VObj [("path", VStr "a.png")])
    (at_rest tt unconfigured_image_server)
  = (Returned
       (error_result
          "Error: R2 client not initialized. Check your Cloudflare R2 configuration."),
     at_rest tt unconfigured_image_server).
Proof.
  exact (X16_upload_without_credentials two_files accepting_upload
           (fun _ => 1700000000000%Z) (fun path => path) (fun _ => ".png")
           (fun s => s) (fun _ => "Required")
           (fun _ _ _ => throw (ErrorObject "model unavailable"))
           (fun _ _ => throw (ErrorObject "model unavailable"))
           every_R2_constructs "provider" "model" (Some "account") None None None
           None None "a.png" "hi!" tt (at_rest tt unconfigured_image_server)
           eq_refl eq_refl eq_refl).
Defined.

(** X17 on a server with credentials and no public URL base. *)
Lemma X17_upload_is_sent_before_the_url_check_witness :
  uploadImageToService accepting_upload (fun _ => 1700000000000%Z)
    (fun path => path) (fun _ => ".png") (fun s => s) "a.png" "hi!"
    (at_rest tt built_image_server)
  = (Thrown (ErrorObject
               ("Failed to upload image to R2: "
                  ++ "No public URL configuration available for R2. Please set R2_PUBLIC_URL environment variable or configure a publicUrlBase.")),
     at_rest tt built_image_server).
Proof.
  exact (X17_upload_is_sent_before_the_url_check accepting_upload
           (fun _ => 1700000000000%Z) (fun path => path) (fun _ => ".png")
           (fun s => s) "a.png" "hi!"
           (VObj [("objectKey", VStr "images/1700000000000-a.png");
                  ("uri", VStr "https://r2.example/temp/images/1700000000000-a.png")])
           tt (at_rest tt built_image_server) eq_refl I eq_refl eq_refl).
Defined.

(** X18 on the example server, whose base ends in a slash. *)
Lemma X18_upload_url_witness :
  uploadImageToService accepting_upload (fun _ => 1700000000000%Z)
    (fun path => path) (fun _ => ".png") (fun s => s) "a.png" "hi!"
    (at_rest tt image_server)
  = (Returned "https://img.example/images/1700000000000-a.png",
     at_rest tt image_server).
Proof.
  exact (proj1 (X18_upload_url accepting_upload (fun _ => 1700000000000%Z)
                  (fun path => path) (fun _ => ".png") (fun s => s)
                  "a.png" "https://img.example/" "hi!"
                  (VObj [("objectKey", VStr "images/1700000000000-a.png");
                         ("uri",
                          VStr "https://r2.example/temp/images/1700000000000-a.png")])
                  tt (at_rest tt image_server) eq_refl eq_refl eq_refl eq_refl eq_refl)).
Defined.

(** An upload that R2 answers with [undefined]: reading the result's
    [uri] throws, and the call fails although a public URL base is
    configured. *)
Example upload_answered_with_undefined :
  uploadImageToService mute_upload (fun _ => 1700000000000%Z)
    (fun path => path) (fun _ => ".png") (fun s => s) "a.png" "hi!"
    (at_rest tt image_server)
  = (Thrown (ErrorObject
               "Failed to upload image to R2: Cannot read properties of undefined (reading 'uri')"),
     at_rest tt image_server).
Proof. reflexivity. Qed.

Lemma image_server_construction (args : list string)
    (env : option (list (string * string))) :
  Builder.getInMemoryServer "imageServer" args env
  = Returned (Builder.NewImageServer (nth_error args 0) (nth_error args 1)
                (nth_error args 2) (nth_error args 3) (nth_error args 4)
                (nth_error args 5)).
Proof. reflexivity. Qed.

(** X19.  An image server obtained from [getInMemoryServer] never has a
    public URL base, because the builder passes six arguments and the
    base is the eighth.  On such a server no upload ever returns a URL:
    [uploadImageToService] always throws, and [upload_multiple_images]
    reports an error for every path. *)
Theorem X19_built_image_server_cannot_upload :
  forall (World : Type)
         (fs_readFile : string -> External World Buffer)
         (r2_upload : string -> Buffer -> string -> string -> External World Value)
         (Date_now : World -> Z)
         (path_basename path_extname toLowerCase : string -> string)
         (R2_constructs : string -> string -> string -> option string -> bool)
         (args : list string) (env : option (list (string * string)))
         (c : Builder.Construction) (server : ImageServer),
    Builder.getInMemoryServer "imageServer" args env = Returned c ->
    Builder.image_server_of R2_constructs c = Some server ->
    publicUrlBase server = None
    /\ (forall p buffer (h : Heap World ImageServer),
          this h = server ->
          isReturned (fst (uploadImageToService r2_upload Date_now path_basename
                             path_extname toLowerCase p buffer h)) = false)
    /\ (forall paths (h : Heap World ImageServer),
          this h = server ->
          exists outcomes h',
            attempt_each (upload_operation fs_readFile r2_upload Date_now
                            path_basename path_extname toLowerCase) paths h
            = (Returned outcomes, h')
            /\ failures outcomes = length paths).
Proof.
  intros World fs_readFile r2_upload Date_now path_basename path_extname toLowerCase
    R2_constructs args env c server Hbuilt Hserver.
  assert (Hbase : publicUrlBase server = None).
  { rewrite image_server_construction in Hbuilt.
    generalize dependent (nth_error args 5). generalize dependent (nth_error args 4).
    generalize dependent (nth_error args 3). generalize dependent (nth_error args 2).
    generalize dependent (nth_error args 1). generalize dependent (nth_error args 0).
    intros a0 a1 a2 a3 a4 a5 Hbuilt. injection Hbuilt as <-.
    destruct a0 as [provider |], a1 as [model |];
      cbn [Builder.image_server_of] in Hserver; try discriminate Hserver.
    injection Hserver as <-. unfold constructor.
    destruct a2, a3, a4; try reflexivity.
    now destruct (given _ && given _ && given _). }
  split; [exact Hbase |]. split.
  - intros p buffer h Hthis. apply upload_without_base. now rewrite Hthis.
  - intros paths h Hthis. apply uploads_all_fail. now rewrite Hthis.
Qed.

(** X19 on the arguments of a deployment with full credentials. *)
Lemma X19_built_image_server_cannot_upload_witness :
  Builder.getInMemoryServer "imageServer" deployment_args None
  = Returned (Builder.NewImageServer (Some "openai") (Some "gpt-4o") (Some "account")
                (Some "key-id") (Some "secret")
                (Some "https://account.r2.cloudflarestorage.com"))
  /\ r2Client built_image_server = true
  /\ publicUrlBase built_image_server = None
  /\ isReturned (fst (uploadImageToService accepting_upload (fun _ => 1700000000000%Z)
                        (fun path => path) (fun _ => ".png") (fun s => s)
                        "a.png" "hi!" (at_rest tt built_image_server))) = false.
Proof.
  pose proof (X19_built_image_server_cannot_upload unit two_files accepting_upload
                (fun _ => 1700000000000%Z) (fun path => path) (fun _ => ".png")
                (fun s => s) every_R2_constructs deployment_args None
                _ built_image_server eq_refl eq_refl) as H.
  split; [reflexivity |]. split; [reflexivity |]. split; [exact (proj1 H) |].
  exact (proj1 (proj2 H) "a.png" "hi!" (at_rest tt built_image_server) eq_refl).
Defined.

End ImageServerMore.
